(** * HARMONY: aggregation, content cache and recommendation logic

  A shallow embedding of the Python sources of the HARMONY student
  dashboard (academic_tracker.py, financial_planner.py,
  mental_wellness.py, data_manager.py, prediction_engine.py and the
  AI content part of app.py), followed by the properties that relate
  the code to its specification.

  Conventions of the embedding
  - Python numbers are exact rationals ([Q]); the rounding of binary
    floating point is outside the model, and results on numbers are
    stated up to [==].
  - A record loaded from a JSON document is a Rocq record whose fields
    are options: [None] is an absent key, so [d.get(k, v)] is
    [get_or v (k d)] and [d[k]] raises [KeyError] on [None].
  - Code that can raise runs in the [result] monad; [try/except] is
    [try_except].
  - The clock, the random generator and the network are explicit
    inputs. *)

From Stdlib Require Import ZArith QArith Qabs Qminmax List String Ascii Bool Lia Lra.
From Stdlib Require Import Permutation Sorted DecimalString.
From stdpp Require Import base option gmap strings.
Import ListNotations.

Set Warnings "-register-all".

Local Open Scope string_scope.
Local Open Scope Z_scope.

(** ** Python runtime fragments *)
Module Py.

(** The exceptions the modelled code can raise. *)
Inductive exn : Type :=
| KeyError (key : string)
| TypeError
| ValueError
| AttributeError (attr : string)
| ZeroDivisionError
| IndexError
| OSError.

Inductive result (A : Type) : Type :=
| Ok (a : A)
| Raise (e : exn).
Arguments Ok {A} a.
Arguments Raise {A} e.

Definition bind {A B} (c : result A) (k : A -> result B) : result B :=
  match c with
  | Ok a => k a
  | Raise e => Raise e
  end.

(** [try: c  except Exception: h] *)
Definition try_except {A} (c : result A) (h : exn -> A) : A :=
  match c with
  | Ok a => a
  | Raise e => h e
  end.

Definition is_ok {A} (c : result A) : bool :=
  match c with Ok _ => true | Raise _ => false end.

(** [d.get(k, v)] on an optional field. *)
Definition get_or {A} (v : A) (o : option A) : A :=
  match o with Some a => a | None => v end.

(** [d[k]] on an optional field. *)
Definition getitem {A} (k : string) (o : option A) : result A :=
  match o with Some a => Ok a | None => Raise (KeyError k) end.

(** [for x in l: ...] with a body that can raise. *)
Fixpoint mapM {A B} (f : A -> result B) (l : list A) : result (list B) :=
  match l with
  | [] => Ok []
  | x :: r =>
      bind (f x) (fun y => bind (mapM f r) (fun ys => Ok (y :: ys)))
  end.

(** [[x for x in l if p(x)]] with a condition that can raise. *)
Fixpoint filterM {A} (p : A -> result bool) (l : list A) : result (list A) :=
  match l with
  | [] => Ok []
  | x :: r =>
      bind (p x) (fun b =>
      bind (filterM p r) (fun ys => Ok (if b then x :: ys else ys)))
  end.

(** Numbers. *)
Definition Qltb (a b : Q) : bool := negb (Qle_bool b a).
Definition Qeqb (a b : Q) : bool := Qeq_bool a b.

(** [a / b] (true division). *)
Definition truediv (a b : Q) : result Q :=
  if Qeqb b 0 then Raise ZeroDivisionError else Ok (a / b)%Q.

(** [sum(xs)]: left to right, starting from [0]. *)
Definition sum (xs : list Q) : Q := fold_left Qplus xs 0%Q.

(** [max(a, b)] and [min(a, b)]: the first argument wins a tie. *)
Definition max2 (a b : Q) : Q := if Qltb a b then b else a.
Definition min2 (a b : Q) : Q := if Qltb b a then b else a.

(** [max(l, key=f)]: the first element whose key is largest. *)
Fixpoint max_from {A} (ltb : A -> A -> bool) (best : A) (l : list A) : A :=
  match l with
  | [] => best
  | x :: r => max_from ltb (if ltb best x then x else best) r
  end.

(** [sorted(l, key=f)]: a stable ascending sort.  [leb] compares keys. *)
Section Sorting.
Context {A K : Type} (leb : K -> K -> bool) (key : A -> K).

Fixpoint insert (x : A) (l : list A) : list A :=
  match l with
  | [] => [x]
  | y :: r => if leb (key x) (key y) then x :: y :: r else y :: insert x r
  end.

Fixpoint sorted (l : list A) : list A :=
  match l with
  | [] => []
  | x :: r => insert x (sorted r)
  end.

(** [sorted(l, key=f, reverse=True)]: CPython reverses the list, sorts
    it stably in ascending order and reverses the result, so equal
    keys keep their original order. *)
Definition sorted_reverse (l : list A) : list A := rev (sorted (rev l)).
End Sorting.

(** [sub in s] on strings. *)
Definition str_contains (sub s : string) : bool :=
  match String.index 0 sub s with Some _ => true | None => false end.

(** [s.lower()] on ASCII letters. *)
Definition lower_char (c : ascii) : ascii :=
  let n := nat_of_ascii c in
  if Nat.leb 65 n && Nat.leb n 90 then ascii_of_nat (n + 32) else c.

Fixpoint lower (s : string) : string :=
  match s with
  | EmptyString => EmptyString
  | String c r => String (lower_char c) (lower r)
  end.

(** [l[-1]] and [l[-2]] *)
Definition last_item {A} (l : list A) : result A :=
  match rev l with x :: _ => Ok x | [] => Raise (KeyError "index") end.
Definition before_last {A} (l : list A) : result A :=
  match rev l with _ :: x :: _ => Ok x | _ => Raise (KeyError "index") end.

(** [l[:n]]: a negative bound counts from the end. *)
Definition slice_to {A} (n : Z) (l : list A) : list A :=
  if 0 <=? n then firstn (Z.to_nat n) l
  else firstn (List.length l - Z.to_nat (- n)) l.

(** [str(n)] for an integer. *)
Definition str_of_Z (n : Z) : string := NilZero.string_of_int (Z.to_int n).

(** Values of JSON documents and of [json.loads]. *)
Inductive pyval : Type :=
| PNone
| PBool (b : bool)
| PNum (q : Q)
| PStr (s : string)
| PList (l : list pyval)
| PDict (items : list (string * pyval)).

(** Truth value of an object, as [if x:] tests it. *)
Definition truthy (v : pyval) : bool :=
  match v with
  | PNone => false
  | PBool b => b
  | PNum q => negb (Qeqb q 0)
  | PStr s => negb (String.eqb s "")
  | PList l => match l with [] => false | _ => true end
  | PDict d => match d with [] => false | _ => true end
  end.

Fixpoint assoc {V} (k : string) (d : list (string * V)) : option V :=
  match d with
  | [] => None
  | (k', v) :: r => if String.eqb k k' then Some v else assoc k r
  end.

(** [d[k] = v] on an insertion-ordered dict. *)
Fixpoint assoc_set {V} (k : string) (v : V) (d : list (string * V)) : list (string * V) :=
  match d with
  | [] => [(k, v)]
  | (k', v') :: r =>
      if String.eqb k k' then (k', v) :: r else (k', v') :: assoc_set k v r
  end.

(** A piece of a formatted string: literal text, an integer, a number
    printed with a fixed count of decimals, or [str(v)]. *)
Inductive frag : Type :=
| Lit (s : string)
| Int (z : Z)
| Fixed (decimals : nat) (q : Q)
| Str (v : pyval).

(** [for x in v] *)
Definition iterate (v : pyval) : result (list pyval) :=
  match v with
  | PList l => Ok l
  | PDict d => Ok (map (fun kv => PStr (fst kv)) d)
  | PStr s => Ok (map (fun c => PStr (String c "")) (list_ascii_of_string s))
  | _ => Raise TypeError
  end.

(** [v.get(k, default)] *)
Definition dict_get (v : pyval) (k : string) (default : pyval) : result pyval :=
  match v with
  | PDict d => Ok (get_or default (assoc k d))
  | _ => Raise (AttributeError "get")
  end.

(** The number a value stands for in arithmetic and comparisons. *)
Definition number (v : pyval) : result Q :=
  match v with
  | PNum q => Ok q
  | PBool b => Ok (if b then 1%Q else 0%Q)
  | _ => Raise TypeError
  end.

(** [v[k]] for a string [k], [v[i]] for an index and [v[:n]]. *)
Definition subscript (v : pyval) (k : string) : result pyval :=
  match v with
  | PDict d => getitem k (assoc k d)
  | _ => Raise TypeError
  end.

Definition subscript_index (v : pyval) (i : nat) : result pyval :=
  match v with
  | PList l => match nth_error l i with Some x => Ok x | None => Raise IndexError end
  | PStr s =>
      match String.get i s with
      | Some c => Ok (PStr (String c ""))
      | None => Raise IndexError
      end
  | PDict _ => Raise (KeyError "index")
  | _ => Raise TypeError
  end.

Definition slice_prefix (v : pyval) (n : nat) : result pyval :=
  match v with
  | PList l => Ok (PList (firstn n l))
  | PStr s => Ok (PStr (substring 0 n s))
  | _ => Raise TypeError
  end.

(** Equality of dictionary keys; lists and dicts cannot be keys. *)
Definition hashable (v : pyval) : bool :=
  match v with PList _ | PDict _ => false | _ => true end.

Definition key_eqb (a b : pyval) : bool :=
  match a, b with
  | PNone, PNone => true
  | PStr x, PStr y => String.eqb x y
  | (PNum _ | PBool _), (PNum _ | PBool _) =>
      match number a, number b with
      | Ok x, Ok y => Qeqb x y
      | _, _ => false
      end
  | _, _ => false
  end.

End Py.

Notation "'let*' x ':=' c 'in' k" := (Py.bind c (fun x => k))
  (at level 10, x name, c at level 100, k at level 200).

(** ** data_manager.py *)
Module DataManager.
Import Py.

(** An instance is its attribute dictionary. *)
Record t : Type := { attrs : gmap string pyval }.

(** The files under the data directory: path to stored JSON document,
    on a file system where two different normalized paths are two
    different files.  On a read-only disk every write raises [OSError]
    when the file is opened, before anything is written. *)
Record disk : Type := { files : gmap string pyval; read_only : bool }.

(** [__init__] assigns [self.data_dir] and nothing else; the directories
    it creates hold no document. *)
Definition init (data_dir : string) : t :=
  {| attrs := {[ "data_dir" := PStr data_dir ]} |}.

(** [self.<name>] *)
Definition getattr (self : t) (name : string) : result pyval :=
  match attrs self !! name with
  | Some v => Ok v
  | None => Raise (AttributeError name)
  end.

(** [k in v] for a string [k]. *)
Definition contains (k : string) (v : pyval) : result bool :=
  match v with
  | PDict d => Ok (match assoc k d with Some _ => true | None => false end)
  | PList l =>
      Ok (existsb (fun x => match x with PStr s => String.eqb s k | _ => false end) l)
  | PStr s => Ok (str_contains k s)
  | _ => Raise TypeError
  end.

(** [a.endswith("/")] *)
Fixpoint ends_with_sep (a : string) : bool :=
  match a with
  | EmptyString => false
  | String c EmptyString => Ascii.eqb c "/"
  | String _ r => ends_with_sep r
  end.

(** [os.path.join(a, b)] on a POSIX system: an absolute [b] replaces
    [a]; otherwise [b] is appended, after a separator unless [a] is
    empty or ends with one. *)
Definition join (a b : string) : string :=
  if String.prefix "/" b then b
  else if String.eqb a "" || ends_with_sep a then a ++ b
  else a ++ "/" ++ b.

(** [os.path.join(self.data_dir, module, student_id, f"{file_name}.json")];
    [save_data] joins the directory first and the file name after, which
    is the same path. *)
Definition file_path (data_dir module student_id file_name : string) : string :=
  join (join (join data_dir module) student_id) (file_name ++ ".json").

Definition data_dir_of (self : t) : result string :=
  let* v := getattr self "data_dir" in
  match v with PStr s => Ok s | _ => Raise TypeError end.

Definition save_data (self : t) (student_id module file_name : string)
    (data : pyval) (d : disk) : bool * disk :=
  try_except
    (let* dir := data_dir_of self in
     if read_only d then Raise OSError
     else Ok (true, {| files := <[ file_path dir module student_id file_name := data ]> (files d);
                       read_only := read_only d |}))
    (fun _ => (false, d)).

Definition load_data (self : t) (student_id module file_name : string)
    (d : disk) : pyval :=
  try_except
    (let* dir := data_dir_of self in
     match files d !! file_path dir module student_id file_name with
     | None => Ok PNone
     | Some v => Ok v
     end)
    (fun _ => PNone).

Definition get_data (self : t) (student_id data_type : string) (default : pyval) : pyval :=
  try_except
    (let* data := getattr self "data" in
     let* has_student := contains student_id data in
     if negb has_student then Ok default
     else
       let* of_student := subscript data student_id in
       let* has_type := contains data_type of_student in
       if negb has_type then Ok default
       else
         let* of_student' := subscript data student_id in
         subscript of_student' data_type)
    (fun _ => default).

End DataManager.

(** ** academic_tracker.py *)
Module AcademicTracker.
Import Py.

(** One entry of the performance document. *)
Record semester : Type := {
  semester_name : option string;
  semester_index : option Z;
  sgpa : option Q;
  credits : option Q;
  cgpa : option Q;
  date_added : option string
}.

Definition set_cgpa (x : semester) (v : Q) : semester :=
  {| semester_name := semester_name x; semester_index := semester_index x;
     sgpa := sgpa x; credits := credits x; cgpa := Some v;
     date_added := date_added x |}.

Record t : Type := {
  student_id : string;
  data_manager : DataManager.t;
  performance : list semester
}.

Definition set_performance (self : t) (p : list semester) : t :=
  {| student_id := student_id self; data_manager := data_manager self;
     performance := p |}.

(** The JSON document written for the performance list. *)
Definition opt_item {A} (k : string) (f : A -> pyval) (o : option A) : list (string * pyval) :=
  match o with Some a => [(k, f a)] | None => [] end.


(** [lambda x: x.get("semester_index", 0)] *)
Definition index_key (x : semester) : Z := get_or 0 (semester_index x).



Definition get_current_cgpa (self : t) : Q :=
  match performance self with
  | [] => 0%Q
  | x :: r =>
      let latest := max_from (fun a b => Z.ltb (index_key a) (index_key b)) x r in
      get_or 0%Q (cgpa latest)
  end.

End AcademicTracker.

(** ** The datetime module

    A naive [datetime] is its number of microseconds since
    1970-01-01T00:00:00; a [timedelta] is a number of microseconds.  The
    bounds of Python's year range are not modelled. *)
Module Datetime.
Import Py.

Definition datetime : Type := Z.
Definition timedelta : Type := Z.

Definition us_per_second : Z := 1000000.
Definition us_per_day : Z := 86400 * us_per_second.

(** [timedelta(days=d)], [timedelta(hours=h)] and [delta.days] *)
Definition days (d : Z) : timedelta := d * us_per_day.
Definition hours (h : Z) : timedelta := h * 3600 * us_per_second.
Definition days_of (delta : timedelta) : Z := delta / us_per_day.

(** Days since 1970-01-01 of a civil date, and back. *)
Definition days_from_civil (y m d : Z) : Z :=
  let y' := if m <=? 2 then y - 1 else y in
  let era := y' / 400 in
  let yoe := y' - era * 400 in
  let doy := (153 * (m + (if 2 <? m then -3 else 9)) + 2) / 5 + d - 1 in
  let doe := yoe * 365 + yoe / 4 - yoe / 100 + doy in
  era * 146097 + doe - 719468.

Definition civil_from_days (z : Z) : Z * Z * Z :=
  let z' := z + 719468 in
  let era := z' / 146097 in
  let doe := z' - era * 146097 in
  let yoe := (doe - doe / 1460 + doe / 36524 - doe / 146096) / 365 in
  let doy := doe - (365 * yoe + yoe / 4 - yoe / 100) in
  let mp := (5 * doy + 2) / 153 in
  let d := doy - (153 * mp + 2) / 5 + 1 in
  let m := if mp <? 10 then mp + 3 else mp - 9 in
  let y := yoe + era * 400 + (if m <=? 2 then 1 else 0) in
  (y, m, d).

(** [datetime(y, m, d)] *)
Definition make (y m d : Z) : datetime := days_from_civil y m d * us_per_day.

Definition year (t : datetime) : Z := fst (fst (civil_from_days (t / us_per_day))).
Definition month (t : datetime) : Z := snd (fst (civil_from_days (t / us_per_day))).
Definition day (t : datetime) : Z := snd (civil_from_days (t / us_per_day)).

Definition digit_char (d : Z) : ascii := ascii_of_nat (48 + Z.to_nat (d mod 10)).

(** [z] in decimal on exactly [width] digits. *)
Fixpoint zero_padded (width : nat) (z : Z) : string :=
  match width with
  | O => ""
  | S w => zero_padded w (z / 10) ++ String (digit_char z) ""
  end.

(** [t.isoformat()] *)
Definition isoformat (t : datetime) : string :=
  let us := t mod us_per_day in
  let secs := us / us_per_second in
  let frac := us mod us_per_second in
  zero_padded 4 (year t) ++ "-" ++ zero_padded 2 (month t) ++ "-"
  ++ zero_padded 2 (day t) ++ "T" ++ zero_padded 2 (secs / 3600) ++ ":"
  ++ zero_padded 2 (secs / 60 mod 60) ++ ":" ++ zero_padded 2 (secs mod 60)
  ++ (if frac =? 0 then "" else "." ++ zero_padded 6 frac).

Definition digit_of (c : ascii) : option Z :=
  let n := Z.of_nat (nat_of_ascii c) in
  if (48 <=? n) && (n <=? 57) then Some (n - 48) else None.

Fixpoint parse_digits (acc : Z) (s : string) : option Z :=
  match s with
  | EmptyString => Some acc
  | String c r =>
      match digit_of c with
      | Some d => parse_digits (acc * 10 + d) r
      | None => None
      end
  end.

(** The [len] decimal digits of [s] from position [start]. *)
Definition field (start len : nat) (s : string) : option Z :=
  let f := substring start len s in
  if Nat.eqb (String.length f) len then parse_digits 0 f else None.

Definition char_is (pos : nat) (c : ascii) (s : string) : bool :=
  match String.get pos s with
  | Some c' => Ascii.eqb c c'
  | None => false
  end.

Definition parse_date (s : string) : option Z :=
  match field 0 4 s, field 5 2 s, field 8 2 s with
  | Some y, Some m, Some d =>
      if char_is 4 "-" s && char_is 7 "-" s
         && (1 <=? y) && (1 <=? m) && (m <=? 12) && (1 <=? d)
         && (d <=? days_from_civil (if m =? 12 then y + 1 else y)
                                   (if m =? 12 then 1 else m + 1) 1
                   - days_from_civil y m 1)
      then Some (days_from_civil y m d)
      else None
  | _, _, _ => None
  end.

(** The time part [HH[:MM[:SS[.fff[fff]]]]], in microseconds. *)
Definition parse_time (s : string) : option Z :=
  let n := String.length s in
  let hh := field 0 2 s in
  let mm := if Nat.leb 5 n then (if char_is 2 ":" s then field 3 2 s else None) else Some 0 in
  let ss := if Nat.leb 8 n then (if char_is 5 ":" s then field 6 2 s else None) else Some 0 in
  let ff :=
    if Nat.eqb n 12 then
      (if char_is 8 "." s then option_map (Z.mul 1000) (field 9 3 s) else None)
    else if Nat.eqb n 15 then
      (if char_is 8 "." s then field 9 6 s else None)
    else Some 0 in
  if negb (existsb (Nat.eqb n) [2; 5; 8; 12; 15]%nat) then None
  else
    match hh, mm, ss, ff with
    | Some h, Some m, Some sec, Some f =>
        if (h <? 24) && (m <? 60) && (sec <? 60)
        then Some (((h * 60 + m) * 60 + sec) * us_per_second + f)
        else None
    | _, _, _, _ => None
    end.

(** [datetime.fromisoformat(s)] for the strings that denote a naive
    datetime: a date, optionally followed by one separator character and
    a time.  Everything else raises; a string with a UTC offset, which
    Python turns into an aware datetime that then cannot be compared with
    [datetime.now()], raises here as well. *)
Definition fromisoformat (s : string) : result datetime :=
  match parse_date (substring 0 10 s) with
  | None => Raise ValueError
  | Some d =>
      if Nat.eqb (String.length s) 10 then Ok (d * us_per_day)
      else
        match parse_time (substring 11 (String.length s - 11) s) with
        | None => Raise ValueError
        | Some us => Ok (d * us_per_day + us)
        end
  end.

(** [[(datetime.now() - timedelta(days=i)).isoformat() for i in range(n, 0, -1)]] *)
Definition sample_dates (n : nat) (t : datetime) : list string :=
  map (fun i => isoformat (t - days (Z.of_nat i))) (rev (seq 1 n)).

End Datetime.

(** ** The random module

    The state of the generator is the sequence of raw draws to come. *)
Module Random.

Definition state : Type := list Z.

Definition next (g : state) : Z * state :=
  match g with
  | [] => (0, [])
  | x :: r => (x, r)
  end.

(** [random.randint(a, b)] *)
Definition randint (a b : Z) (g : state) : Z * state :=
  let '(x, g') := next g in (a + x mod (b - a + 1), g').

(** [random.choice(seq)] *)
Definition choice {A} (default : A) (seq : list A) (g : state) : A * state :=
  let '(x, g') := next g in
  (nth (Z.to_nat (x mod Z.of_nat (List.length seq))) seq default, g').

End Random.

(** What a call reads from outside the stored state: the clock (one
    reading per call) and the random generator. *)
Record env : Type := { now : Datetime.datetime; rng : Random.state }.

(** ** financial_planner.py *)
Module FinancialPlanner.
Import Py.

Record transaction : Type := {
  transaction_id : option string;
  created_at : option string;
  date : option string;
  amount : option Q;
  description : option string;
  category : option string
}.

Record t : Type := {
  student_id : string;
  data_manager : DataManager.t;
  transactions : list transaction;
  budget : list (string * Q)
}.

Definition set_transactions (self : t) (l : list transaction) : t :=
  {| student_id := student_id self; data_manager := data_manager self;
     transactions := l; budget := budget self |}.

Definition opt_item {A} (k : string) (f : A -> pyval) (o : option A) : list (string * pyval) :=
  match o with Some a => [(k, f a)] | None => [] end.

Definition transaction_to_json (x : transaction) : pyval :=
  PDict (opt_item "date" PStr (date x)
         ++ opt_item "amount" PNum (amount x)
         ++ opt_item "description" PStr (description x)
         ++ opt_item "category" PStr (category x)
         ++ opt_item "transaction_id" PStr (transaction_id x)
         ++ opt_item "created_at" PStr (created_at x))%list.

(** [uuid] is the value of [str(uuid.uuid4())]. *)
Definition add_transaction (self : t) (transaction_data : transaction)
    (uuid : string) (e : env) (d : DataManager.disk) : bool * t * DataManager.disk :=
  let transaction_data' :=
    {| transaction_id := Some (get_or uuid (transaction_id transaction_data));
       created_at := Some (get_or (Datetime.isoformat (now e)) (created_at transaction_data));
       date := date transaction_data; amount := amount transaction_data;
       description := description transaction_data;
       category := category transaction_data |} in
  let transactions' := (transactions self ++ [transaction_data'])%list in
  let '(success, d') :=
    DataManager.save_data (data_manager self) (student_id self) "financial"
      "transactions" (PList (map transaction_to_json transactions')) d in
  (success, set_transactions self transactions', d').

(** The sample entry built for position [i] of the sample dates. *)
Definition sample_transaction (i : Z) (date_i : string) (g : Random.state)
  : transaction * Random.state :=
  let categories := ["Food"; "Transportation"; "Books & Supplies"; "Entertainment"] in
  let expense := negb (i mod 3 =? 0) in
  let '(amount_i, g1) :=
    if expense then (let '(r, g') := Random.randint 50 500 g in (- r, g'))
    else Random.randint 500 2000 g in
  let description_i :=
    ("Sample " ++ (if expense then "expense" else "income") ++ " " ++ str_of_Z i)%string in
  let '(category_i, g2) :=
    if expense then Random.choice "" categories g1 else ("Pocket Money", g1) in
  ({| transaction_id := None; created_at := None; date := Some date_i;
      amount := Some (inject_Z amount_i); description := Some description_i;
      category := Some category_i |}, g2).

Fixpoint sample_transactions (i : Z) (dates : list string) (g : Random.state)
  : list transaction * Random.state :=
  match dates with
  | [] => ([], g)
  | date_i :: r =>
      let '(x, g1) := sample_transaction i date_i g in
      let '(xs, g2) := sample_transactions (i + 1) r g1 in
      (x :: xs, g2)
  end.

(** Returns the list and the state the generator is left in. *)
Definition get_recent_transactions (self : t) (limit : Z) (e : env)
  : list transaction * Random.state :=
  match transactions self with
  | [] => sample_transactions 0 (Datetime.sample_dates 10 (now e)) (rng e)
  | _ :: _ =>
      let sorted_transactions :=
        sorted_reverse String.leb (fun x => get_or "" (date x)) (transactions self) in
      (if limit =? 0 then sorted_transactions else slice_to limit sorted_transactions,
       rng e)
  end.

Definition get_all_transactions (self : t) : pyval :=
  try_except
    (Ok (DataManager.get_data (data_manager self) (student_id self)
           "financial_transactions" (PList [])))
    (fun _ => PList []).

(** [datetime(now.year, now.month, 1).isoformat()] *)
Definition month_start (t : Datetime.datetime) : string :=
  Datetime.isoformat (Datetime.make (Datetime.year t) (Datetime.month t) 1).

(** [spending[category] += amount], or the first assignment. *)
Definition add_to (category : string) (amount : Q) (spending : list (string * Q))
  : list (string * Q) :=
  match assoc category spending with
  | Some v => assoc_set category (v + amount)%Q spending
  | None => assoc_set category amount spending
  end.

Definition get_actual_spending (self : t) (e : env) : list (string * Q) :=
  let month_transactions :=
    List.filter (fun x => String.leb (month_start (now e)) (get_or "" (date x))
                     && Qltb (get_or 0%Q (amount x)) 0)
           (transactions self) in
  fold_left
    (fun spending x =>
       add_to (get_or "Other" (category x)) (Qabs (get_or 0%Q (amount x))) spending)
    month_transactions [].

Definition get_budget_adherence (self : t) (e : env) : result Q :=
  match budget self with
  | [] => Ok 0%Q
  | _ :: _ =>
      let actual_spending := get_actual_spending self e in
      let total_budget := sum (map snd (budget self)) in
      let total_spending := sum (map snd actual_spending) in
      if Qeqb total_budget 0 then Ok 0%Q
      else
        let* ratio := truediv total_spending total_budget in
        let adherence := ((1 - ratio) * 100)%Q in
        Ok (max2 0 (min2 100 adherence))
  end.

(** [categories[category] += amount], after [categories[category] = 0]
    for a category not seen before. *)
Fixpoint add_amount (category : pyval) (amount : Q) (categories : list (pyval * Q))
  : list (pyval * Q) :=
  match categories with
  | [] => [(category, (0 + amount)%Q)]
  | (c, v) :: r =>
      if key_eqb category c then (c, (v + amount)%Q) :: r
      else (c, v) :: add_amount category amount r
  end.

Definition get_expenses_by_category (self : t) : pyval :=
  try_except
    (let transactions := get_all_transactions self in
     let* items := iterate transactions in
     let* expenses :=
       filterM (fun x => let* a := dict_get x "amount" (PNum 0) in
                         let* q := number a in Ok (Qltb q 0)) items in
     let* categories :=
       fold_left
         (fun acc expense =>
            let* categories := acc in
            let* category := dict_get expense "category" (PStr "Other") in
            let* a := dict_get expense "amount" (PNum 0) in
            let* amount := number a in
            if hashable category then Ok (add_amount category (Qabs amount) categories)
            else Raise TypeError)
         expenses (Ok []) in
     let result := sorted_reverse Qle_bool snd categories in
     Ok (PList (map (fun ca => PDict [("category", fst ca); ("amount", PNum (snd ca))])
                    result)))
    (fun _ => PList []).

End FinancialPlanner.

(** ** mental_wellness.py *)
Module MentalWellnessCoach.
Import Py.

Record mood_entry : Type := {
  entry_id : option string;
  created_at : option string;
  date : option string;
  score : option Q;
  stress_factors : option (list string);
  sleep_hours : option Q
}.

(** An item of the mood history: [{"date": ..., "score": ...}]. *)
Record mood_point : Type := { point_date : string; point_score : Q }.

Record t : Type := {
  student_id : string;
  data_manager : DataManager.t;
  mood_entries : list mood_entry
}.

Fixpoint sample_points (dates : list string) (g : Random.state)
  : list mood_point * Random.state :=
  match dates with
  | [] => ([], g)
  | date_i :: r =>
      let '(x, g1) := Random.randint (-2) 2 g in
      let '(xs, g2) := sample_points r g1 in
      ({| point_date := date_i; point_score := inject_Z (5 + x) |} :: xs, g2)
  end.

(** Returns the list and the state the generator is left in. *)
Definition get_mood_history (self : t) (e : env) : list mood_point * Random.state :=
  match mood_entries self with
  | [] => sample_points (Datetime.sample_dates 14 (now e)) (rng e)
  | _ :: _ =>
      (map (fun entry => {| point_date := get_or "" (date entry);
                            point_score := get_or 0%Q (score entry) |})
           (mood_entries self),
       rng e)
  end.

End MentalWellnessCoach.

(** ** prediction_engine.py *)
Module PredictiveEngine.
Import Py.

Record recommendation : Type := {
  title : string;
  description : list frag;
  priority : option string
}.

Record task : Type := {
  due_date : option string;
  status : option string;
  task_type : option string;
  task_title : option string;
  course_code : option string
}.

Record study_session : Type := { session_date : option string; hours : option Q }.
Record sleep_entry : Type := { sleep_date : option string; sleep_hours : option Q }.
Record goal : Type := { goal_name : option string }.
Record career : Type := { interests : option (list string) }.
Record profile : Type := { year_of_study : option string }.

(** The documents of one student, as [load_data(...) or []] returns
    them: an absent document is the empty list or dict. *)
Record documents : Type := {
  tasks : list task;
  performance : list AcademicTracker.semester;
  study_hours : list study_session;
  transactions : list FinancialPlanner.transaction;
  budget : list (string * Q);
  financial_aid : list pyval;
  financial_goals : list goal;
  mood : list MentalWellnessCoach.mood_entry;
  sleep : list sleep_entry;
  career_data : career;
  skills : list pyval;
  experiences : list pyval
}.

Record t : Type := {
  student_id : string;
  student_profile : option profile;
  recommendations_cache : option (list recommendation);
  last_update : option Datetime.datetime
}.

(** [__init__]: [loaded_profile] is what [load_student_profile] returned,
    [None] when the profile file is missing or unreadable. *)
Definition init (id : string) (loaded_profile : option profile) : t :=
  {| student_id := id; student_profile := loaded_profile;
     recommendations_cache := None; last_update := None |}.

Definition is_empty {A} (l : list A) : bool :=
  match l with [] => true | _ :: _ => false end.

Definition string_neqb (a : option string) (b : string) : bool :=
  match a with Some s => negb (String.eqb s b) | None => true end.

(** [[x for x in l if datetime.fromisoformat(x["date"]) > now - timedelta(days=7)]] *)
Definition recent {A} (date_of : A -> option string) (now : Datetime.datetime)
    (l : list A) : result (list A) :=
  filterM (fun x => let* s := getitem "date" (date_of x) in
                    let* t := Datetime.fromisoformat s in
                    Ok (now - Datetime.days 7 <? t)) l.

Definition _generate_academic_recommendations (docs : documents)
    (now : Datetime.datetime) : result (list recommendation) :=
  let* upcoming_tasks :=
    filterM (fun x =>
               match due_date x with
               | None => Ok false
               | Some s =>
                   if String.eqb s "" then Ok false
                   else
                     let* due := Datetime.fromisoformat s in
                     Ok ((due - now <=? Datetime.days 3)
                         && string_neqb (status x) "completed")
               end) (tasks docs) in
  let* deadlines :=
    match upcoming_tasks with
    | [] => Ok []
    | first :: _ =>
        if (3 <=? Z.of_nat (List.length upcoming_tasks)) then
          Ok [{| title := "Multiple Deadlines Approaching";
                 description :=
                   [Lit "You have "; Int (Z.of_nat (List.length upcoming_tasks));
                    Lit " tasks due in the next 3 days. Consider creating a study plan."];
                 priority := Some "high" |}]
        else
          let* ty := getitem "type" (task_type first) in
          let* ti := getitem "title" (task_title first) in
          let* cc := getitem "course_code" (course_code first) in
          let* ds := getitem "due_date" (due_date first) in
          let* due := Datetime.fromisoformat ds in
          Ok [{| title := (ty ++ " Due Soon")%string;
                 description :=
                   [Lit "Your "; Lit ti; Lit " for "; Lit cc; Lit " is due in ";
                    Int (Datetime.days_of (due - now)); Lit " days."];
                 priority := Some "medium" |}]
    end in
  let* trend :=
    if (2 <=? Z.of_nat (List.length (performance docs))) then
      let sorted_perf := sorted Z.leb AcademicTracker.index_key (performance docs) in
      let* latest := last_item sorted_perf in
      let* previous := before_last sorted_perf in
      let latest_cgpa := get_or 0%Q (AcademicTracker.cgpa latest) in
      let previous_cgpa := get_or 0%Q (AcademicTracker.cgpa previous) in
      if Qltb latest_cgpa previous_cgpa then
        Ok [{| title := "CGPA Declining";
               description :=
                 [Lit "Your CGPA dropped from "; Fixed 2 previous_cgpa; Lit " to ";
                  Fixed 2 latest_cgpa; Lit ". Consider seeking academic support."];
               priority := Some "high" |}]
      else Ok []
    else Ok [] in
  let* study :=
    match study_hours docs with
    | [] => Ok []
    | _ :: _ =>
        let* recent_study := recent session_date now (study_hours docs) in
        if is_empty recent_study then
          Ok [{| title := "No Recent Study Sessions";
                 description :=
                   [Lit "You haven't logged any study sessions in the past week. Regular study helps retain information."];
                 priority := Some "medium" |}]
        else if Qltb (sum (map (fun x => get_or 0%Q (hours x)) recent_study)) 10 then
          Ok [{| title := "Low Study Hours";
                 description :=
                   [Lit "You've logged less than 10 hours of study in the past week. Consider increasing your study time."];
                 priority := Some "medium" |}]
        else Ok []
    end in
  Ok (deadlines ++ trend ++ study)%list.

(** An entry of [over_budget_categories]. *)
Record over_budget : Type := {
  ob_category : string;
  ob_budget : Q;
  ob_actual : Q;
  percent_over : Q
}.

Definition _generate_financial_recommendations (docs : documents)
    (now : Datetime.datetime) : result (list recommendation) :=
  let* budget_recs :=
    match budget docs with
    | [] =>
        Ok [{| title := "Set Up Your Budget";
               description :=
                 [Lit "Creating a budget is the first step to managing your finances effectively."];
               priority := Some "high" |}]
    | _ :: _ =>
        let current_month_start := FinancialPlanner.month_start now in
        let* month_expenses :=
          fold_left
            (fun acc x =>
               let* month_expenses := acc in
               match FinancialPlanner.date x with
               | None => Raise TypeError
               | Some d =>
                   if String.leb current_month_start d
                      && Qltb (get_or 0%Q (FinancialPlanner.amount x)) 0
                   then
                     let category := get_or "Other" (FinancialPlanner.category x) in
                     Ok (assoc_set category
                           (get_or 0%Q (assoc category month_expenses)
                            + Qabs (get_or 0%Q (FinancialPlanner.amount x)))%Q
                           month_expenses)
                   else Ok month_expenses
               end)
            (transactions docs) (Ok []) in
        let* over_budget_categories :=
          mapM (fun cb =>
                  let '(category, budgeted) := cb in
                  match assoc category month_expenses with
                  | Some actual =>
                      if Qltb 0 budgeted && Qltb budgeted actual then
                        let* ratio := truediv (actual - budgeted) budgeted in
                        Ok [{| ob_category := category; ob_budget := budgeted;
                               ob_actual := actual; percent_over := (ratio * 100)%Q |}]
                      else Ok []
                  | None => Ok []
                  end) (budget docs) in
        match concat over_budget_categories with
        | [] => Ok []
        | x :: r =>
            let most_over :=
              max_from (fun a b => Qltb (percent_over a) (percent_over b)) x r in
            Ok [{| title := ("Budget Alert: " ++ ob_category most_over)%string;
                   description :=
                     [Lit "You've exceeded your "; Lit (ob_category most_over);
                      Lit " budget by â‚¹";
                      Fixed 0 (ob_actual most_over - ob_budget most_over);
                      Lit " ("; Fixed 0 (percent_over most_over); Lit "%)."];
                   priority :=
                     Some (if Qltb 50 (percent_over most_over) then "high" else "medium") |}]
        end
    end in
  let aid :=
    if is_empty (financial_aid docs) then
      [{| title := "Explore Scholarship Opportunities";
          description :=
            [Lit "Check the Financial Planner section to find scholarships you may be eligible for."];
          priority := Some "medium" |}]
    else [] in
  let has_emergency_fund :=
    existsb (fun g => str_contains "emergency" (lower (get_or "" (goal_name g))))
            (financial_goals docs) in
  let emergency :=
    if negb has_emergency_fund then
      [{| title := "Start an Emergency Fund";
          description :=
            [Lit "Even a small emergency fund can help you handle unexpected expenses."];
          priority := Some "medium" |}]
    else [] in
  Ok (budget_recs ++ aid ++ emergency)%list.

(** [factor_counts[factor] = factor_counts.get(factor, 0) + 1] *)
Definition count_factor (counts : list (string * Z)) (factor : string) : list (string * Z) :=
  assoc_set factor (get_or 0 (assoc factor counts) + 1) counts.

Definition _generate_wellness_recommendations (docs : documents)
    (now : Datetime.datetime) : result (list recommendation) :=
  let* mood_recs :=
    match mood docs with
    | [] =>
        Ok [{| title := "Start Tracking Your Mood";
               description :=
                 [Lit "Regular mood tracking helps you identify patterns and manage your mental health better."];
               priority := Some "low" |}]
    | _ :: _ =>
        let* recent_mood := recent MentalWellnessCoach.date now (mood docs) in
        if is_empty recent_mood then Ok []
        else
          let* avg_mood :=
            truediv (sum (map (fun x => get_or 0%Q (MentalWellnessCoach.score x)) recent_mood))
                    (inject_Z (Z.of_nat (List.length recent_mood))) in
          let low_mood :=
            if Qltb avg_mood 4 then
              [{| title := "Your Mood Has Been Low";
                  description :=
                    [Lit "Your recent mood scores are below average. Consider using some stress management techniques."];
                  priority := Some "high" |}]
            else [] in
          let stress_factors :=
            concat (map (fun x => get_or [] (MentalWellnessCoach.stress_factors x)) recent_mood) in
          let factor_counts := fold_left count_factor stress_factors [] in
          let stress :=
            match factor_counts with
            | [] => []
            | x :: r =>
                let most_common := max_from (fun a b => Z.ltb (snd a) (snd b)) x r in
                if 3 <=? snd most_common then
                  [{| title := ("Managing " ++ fst most_common)%string;
                      description :=
                        [Lit (fst most_common);
                         Lit " appears to be a recurring stress factor. Check out the Stress Management section for strategies."];
                      priority := Some "medium" |}]
                else []
            end in
          Ok (low_mood ++ stress)%list
    end in
  let* sleep_recs :=
    match sleep docs with
    | [] => Ok []
    | _ :: _ =>
        let* recent_sleep := recent sleep_date now (sleep docs) in
        if is_empty recent_sleep then Ok []
        else
          let* avg_sleep :=
            truediv (sum (map (fun x => get_or 0%Q (sleep_hours x)) recent_sleep))
                    (inject_Z (Z.of_nat (List.length recent_sleep))) in
          if Qltb avg_sleep 6 then
            Ok [{| title := "Improve Sleep Habits";
                   description :=
                     [Lit "You're averaging only "; Fixed 1 avg_sleep;
                      Lit " hours of sleep. Aim for 7-9 hours for better academic performance."];
                   priority := Some "high" |}]
          else Ok []
    end in
  Ok (mood_recs ++ sleep_recs)%list.

Definition _generate_career_recommendations (self : t) (docs : documents)
  : result (list recommendation) :=
  let interests_rec :=
    if is_empty (get_or [] (interests (career_data docs))) then
      [{| title := "Define Your Career Interests";
          description :=
            [Lit "Identifying your interests helps align your academic and extracurricular activities."];
          priority := Some "medium" |}]
    else [] in
  let skills_rec :=
    if is_empty (skills docs) then
      [{| title := "Start Tracking Skills";
          description :=
            [Lit "Documenting and developing your skills is essential for career readiness."];
          priority := Some "low" |}]
    else [] in
  let* experience_rec :=
    if is_empty (experiences docs) then
      match student_profile self with
      | None => Raise (AttributeError "get")
      | Some p =>
          let year := get_or "" (year_of_study p) in
          if existsb (String.eqb year) ["2nd Year"; "3rd Year"; "4th Year"; "Final Year"] then
            Ok [{| title := "Gain Practical Experience";
                   description :=
                     [Lit "Consider applying for internships or working on projects to build your resume."];
                   priority :=
                     Some (if existsb (String.eqb year) ["3rd Year"; "4th Year"; "Final Year"]
                           then "high" else "medium") |}]
          else Ok []
      end
    else Ok [] in
  Ok (interests_rec ++ skills_rec ++ experience_rec)%list.

Definition priority_order : list (string * Z) :=
  [("high", 3); ("medium", 2); ("low", 1)].

(** [lambda x: priority_order.get(x.get("priority", "low"), 0)] *)
Definition rank (x : recommendation) : Z :=
  get_or 0 (assoc (get_or "low" (priority x)) priority_order).

Definition cache_is_recent (self : t) (now : Datetime.datetime) : bool :=
  match recommendations_cache self, last_update self with
  | Some (_ :: _), Some u => now - u <? Datetime.hours 1
  | _, _ => false
  end.

(** Returns the list and the engine with its cache fields as the call
    leaves them; a raised exception leaves the engine as it was. *)
Definition get_personalized_recommendations (self : t) (docs : documents)
    (now : Datetime.datetime) : result (list recommendation * t) :=
  if cache_is_recent self now then
    Ok (get_or [] (recommendations_cache self), self)
  else
    let* academic_recs := _generate_academic_recommendations docs now in
    let* financial_recs := _generate_financial_recommendations docs now in
    let* wellness_recs := _generate_wellness_recommendations docs now in
    let* career_recs := _generate_career_recommendations self docs in
    let recommendations :=
      sorted_reverse Z.leb rank
        (academic_recs ++ financial_recs ++ wellness_recs ++ career_recs)%list in
    Ok (recommendations,
        {| student_id := student_id self; student_profile := student_profile self;
           recommendations_cache := Some recommendations; last_update := Some now |}).

End PredictiveEngine.

(** ** A reference JSON decoder

    [json.loads] is a parameter of the agent below.  This decoder, for
    JSON texts without [\u] escapes, instantiates it in examples; [None]
    stands for [JSONDecodeError]. *)
Module Json.
Import Py.

Definition is_ws (c : ascii) : bool :=
  existsb (Ascii.eqb c) [" "; "009"; "010"; "013"]%char.

Fixpoint skip_ws (cs : list ascii) : list ascii :=
  match cs with
  | c :: r => if is_ws c then skip_ws r else cs
  | [] => []
  end.

Fixpoint expect (lit cs : list ascii) : option (list ascii) :=
  match lit, cs with
  | [], _ => Some cs
  | a :: l, c :: r => if Ascii.eqb a c then expect l r else None
  | _ :: _, [] => None
  end.

Definition unescape (c : ascii) : option ascii :=
  match c with
  | "034"%char => Some "034"%char
  | "\"%char => Some "\"%char
  | "/"%char => Some "/"%char
  | "b"%char => Some "008"%char
  | "f"%char => Some "012"%char
  | "n"%char => Some "010"%char
  | "r"%char => Some "013"%char
  | "t"%char => Some "009"%char
  | _ => None
  end.

(** The characters of a string literal after its opening quote. *)
Fixpoint string_body (cs : list ascii) : option (string * list ascii) :=
  match cs with
  | [] => None
  | c :: r =>
      if Ascii.eqb c "034" then Some (EmptyString, r)
      else if Ascii.eqb c "\" then
        match r with
        | e :: r' =>
            match unescape e, string_body r' with
            | Some c', Some (s, rest) => Some (String c' s, rest)
            | _, _ => None
            end
        | [] => None
        end
      else if Nat.ltb (nat_of_ascii c) 32 then None
      else
        match string_body r with
        | Some (s, rest) => Some (String c s, rest)
        | None => None
        end
  end.

Fixpoint digits (cs : list ascii) : list Z * list ascii :=
  match cs with
  | c :: r =>
      match Datetime.digit_of c with
      | Some d => let '(ds, rest) := digits r in (d :: ds, rest)
      | None => ([], cs)
      end
  | [] => ([], [])
  end.

Definition digits_value (ds : list Z) : Z := fold_left (fun acc d => acc * 10 + d) ds 0.

Definition pow10 (e : Z) : Q :=
  if 0 <=? e then inject_Z (10 ^ e) else (1 / inject_Z (10 ^ (- e)))%Q.

Definition number_literal (cs : list ascii) : option (pyval * list ascii) :=
  let '(negative, cs1) :=
    match cs with "-"%char :: r => (true, r) | _ => (false, cs) end in
  let '(int_part, cs2) := digits cs1 in
  match int_part with
  | [] => None
  | 0 :: _ :: _ => None
  | _ =>
      let '(frac_part, cs3) :=
        match cs2 with
        | "."%char :: r => let '(ds, rest) := digits r in (Some ds, rest)
        | _ => (None, cs2)
        end in
      let '(exponent, cs4) :=
        match cs3 with
        | ("e" | "E")%char :: r =>
            let '(neg_e, r1) :=
              match r with
              | "-"%char :: r' => (true, r')
              | "+"%char :: r' => (false, r')
              | _ => (false, r)
              end in
            let '(ds, rest) := digits r1 in
            (Some (if neg_e then - digits_value ds else digits_value ds, ds), rest)
        | _ => (None, cs3)
        end in
      match frac_part, exponent with
      | Some [], _ => None
      | _, Some (_, []) => None
      | _, _ =>
          let fr := match frac_part with Some ds => ds | None => [] end in
          let mantissa :=
            (inject_Z (digits_value int_part)
             + inject_Z (digits_value fr) * pow10 (- Z.of_nat (List.length fr)))%Q in
          let scaled :=
            (mantissa * pow10 (match exponent with Some (e, _) => e | None => 0 end))%Q in
          Some (PNum (Qred (if negative then - scaled else scaled)), cs4)
      end
  end.

Fixpoint value (fuel : nat) (cs : list ascii) : option (pyval * list ascii) :=
  match fuel with
  | O => None
  | S f =>
      match skip_ws cs with
      | [] => None
      | "n"%char :: r => option_map (pair PNone) (expect ["u"; "l"; "l"]%char r)
      | "t"%char :: r => option_map (pair (PBool true)) (expect ["r"; "u"; "e"]%char r)
      | "f"%char :: r => option_map (pair (PBool false)) (expect ["a"; "l"; "s"; "e"]%char r)
      | "034"%char :: r =>
          match string_body r with
          | Some (s, rest) => Some (PStr s, rest)
          | None => None
          end
      | "["%char :: r =>
          match skip_ws r with
          | "]"%char :: rest => Some (PList [], rest)
          | _ =>
              match elements f r with
              | Some (vs, rest) => Some (PList vs, rest)
              | None => None
              end
          end
      | "{"%char :: r =>
          match skip_ws r with
          | "}"%char :: rest => Some (PDict [], rest)
          | _ =>
              match members f r with
              | Some (kvs, rest) =>
                  Some (PDict (fold_left (fun d kv => assoc_set (fst kv) (snd kv) d) kvs []),
                        rest)
              | None => None
              end
          end
      | c :: r => number_literal (c :: r)
      end
  end
with elements (fuel : nat) (cs : list ascii) : option (list pyval * list ascii) :=
  match fuel with
  | O => None
  | S f =>
      match value f cs with
      | Some (v, r) =>
          match skip_ws r with
          | ","%char :: r' =>
              match elements f r' with
              | Some (vs, rest) => Some (v :: vs, rest)
              | None => None
              end
          | "]"%char :: rest => Some ([v], rest)
          | _ => None
          end
      | None => None
      end
  end
with members (fuel : nat) (cs : list ascii) : option (list (string * pyval) * list ascii) :=
  match fuel with
  | O => None
  | S f =>
      match skip_ws cs with
      | "034"%char :: r =>
          match string_body r with
          | Some (k, r1) =>
              match skip_ws r1 with
              | ":"%char :: r2 =>
                  match value f r2 with
                  | Some (v, r3) =>
                      match skip_ws r3 with
                      | ","%char :: r4 =>
                          match members f r4 with
                          | Some (kvs, rest) => Some ((k, v) :: kvs, rest)
                          | None => None
                          end
                      | "}"%char :: rest => Some ([(k, v)], rest)
                      | _ => None
                      end
                  | None => None
                  end
              | _ => None
              end
          | None => None
          end
      | _ => None
      end
  end.

Definition loads (s : string) : option pyval :=
  let cs := list_ascii_of_string s in
  match value (2 * List.length cs + 2) cs with
  | Some (v, rest) => match skip_ws rest with [] => Some v | _ :: _ => None end
  | None => None
  end.

End Json.

(** ** app.py: the AI agent and the content cache *)
Module App.
Import Py.

(** The checks [sub in str(degree)] used by every fallback. *)
Inductive field_of_study : Type := Engineering | Business | OtherField.

Definition classify (degree : string) : field_of_study :=
  if str_contains "B.Tech" degree || str_contains "B.E." degree then Engineering
  else if str_contains "BBA" degree || str_contains "B.Com" degree then Business
  else OtherField.

(** The three lists of [_get_fallback_academic_trends], by field of study. *)
Definition fallback_academic_trends (f : field_of_study) : pyval :=
  match f with
  | Engineering =>
      PList
        [PDict [("trend", PStr "Project-Based Learning"); ("description", PStr "Engineering programs are increasingly adopting project-based approaches that mirror industry practices"); ("benefit", PStr "Develops practical skills and portfolio for job market")];
         PDict [("trend", PStr "AI & ML Integration"); ("description", PStr "AI and machine learning concepts are being integrated across engineering disciplines"); ("benefit", PStr "Prepares students for the most in-demand technical skills")];
         PDict [("trend", PStr "Micro-credentials"); ("description", PStr "Short, specialized certifications that complement formal degrees"); ("benefit", PStr "Allows students to demonstrate specific technical competencies to employers")]]
  | Business =>
      PList
        [PDict [("trend", PStr "Data-Driven Decision Making"); ("description", PStr "Business curricula now emphasize statistical analysis and data interpretation"); ("benefit", PStr "Essential skill for modern business operations and strategy")];
         PDict [("trend", PStr "Entrepreneurship Focus"); ("description", PStr "Programs emphasizing startup methodologies and business model innovation"); ("benefit", PStr "Prepares students for both corporate and startup environments")];
         PDict [("trend", PStr "Sustainability Management"); ("description", PStr "Business courses integrating environmental and social impact considerations"); ("benefit", PStr "Alignment with emerging business priorities and regulations")]]
  | OtherField =>
      PList
        [PDict [("trend", PStr "Interdisciplinary Learning"); ("description", PStr "Programs that blend multiple fields of study for broader perspectives"); ("benefit", PStr "Develops versatile thinking and adaptability")];
         PDict [("trend", PStr "Digital Literacy Enhancement"); ("description", PStr "Focused training on digital tools relevant to all disciplines"); ("benefit", PStr "Essential workplace skills regardless of field")];
         PDict [("trend", PStr "Active Learning Methods"); ("description", PStr "Techniques that emphasize student participation over passive lectures"); ("benefit", PStr "Improves retention and practical application of concepts")]]
  end.

(** The three lists of [_get_fallback_financial_advice], by field of study. *)
Definition fallback_financial_advice (f : field_of_study) : pyval :=
  match f with
  | Engineering =>
      PList
        [PDict [("tip", PStr "Leverage Technical Scholarships"); ("description", PStr "Many engineering-specific scholarships remain unclaimed each year"); ("action_item", PStr "Apply for AICTE, Siemens, and Google technical scholarships by May 2025")];
         PDict [("tip", PStr "Budget for Technical Resources"); ("description", PStr "Engineering courses often require specialized software and equipment"); ("action_item", PStr "Allocate ₹2,000-3,000 per semester for technical tools and resources")];
         PDict [("tip", PStr "Consider Technical Freelancing"); ("description", PStr "Your engineering skills can generate income even while studying"); ("action_item", PStr "Create profiles on Upwork or Fiverr offering programming or CAD services")]]
  | Business =>
      PList
        [PDict [("tip", PStr "Invest in Market Knowledge"); ("description", PStr "Business students benefit from early market exposure"); ("action_item", PStr "Open a demat account with minimal funds to learn real-world investing")];
         PDict [("tip", PStr "Budget for Business Events"); ("description", PStr "Networking events and conferences are valuable for business students"); ("action_item", PStr "Set aside ₹5,000 per year for attending industry conferences and events")];
         PDict [("tip", PStr "Content Creation for Income"); ("description", PStr "Business knowledge is in demand online"); ("action_item", PStr "Start a business/finance blog or YouTube channel to build both resume and income")]]
  | OtherField =>
      PList
        [PDict [("tip", PStr "Education Loan Interest Subsidy"); ("description", PStr "Government subsidies can reduce your effective interest rate"); ("action_item", PStr "Check eligibility for interest subsidy schemes through the Vidya Lakshmi portal")];
         PDict [("tip", PStr "Digital Subscription Pooling"); ("description", PStr "Share costs of educational resources with classmates"); ("action_item", PStr "Create a subscription pool with 3-4 friends for digital learning platforms")];
         PDict [("tip", PStr "Track Academic Expenses"); ("description", PStr "Education-related expenses may qualify for tax benefits"); ("action_item", PStr "Maintain receipts of all educational expenses for potential tax benefits")]]
  end.

(** The three lists of [_get_fallback_wellness_tips], by field of study. *)
Definition fallback_wellness_tips (f : field_of_study) : pyval :=
  match f with
  | Engineering =>
      PList
        [PDict [("tip", PStr "Pomodoro Technique for Technical Studies"); ("description", PStr "Engineering subjects require intense focus but also regular breaks"); ("practice", PStr "Study in 25-minute blocks with 5-minute breaks to prevent burnout")];
         PDict [("tip", PStr "Physical Movement Between Coding Sessions"); ("description", PStr "Long coding sessions can lead to physical strain"); ("practice", PStr "Do 5 minutes of simple stretches after every hour of programming")];
         PDict [("tip", PStr "Mindfulness for Technical Problem-Solving"); ("description", PStr "Engineering challenges can create frustration loops"); ("practice", PStr "When stuck on a problem, practice 2 minutes of deep breathing before continuing")]]
  | Business =>
      PList
        [PDict [("tip", PStr "Presentation Anxiety Management"); ("description", PStr "Business programs often require frequent presentations"); ("practice", PStr "Practice the 4-7-8 breathing technique before presentations (inhale for 4, hold for 7, exhale for 8)")];
         PDict [("tip", PStr "Networking Without Exhaustion"); ("description", PStr "Business networking can be draining for many students"); ("practice", PStr "Schedule 30-minute quiet time after networking events to recharge")];
         PDict [("tip", PStr "Balancing Competition and Wellbeing"); ("description", PStr "Business environments can be highly competitive"); ("practice", PStr "Keep a weekly 'wins journal' to focus on personal growth rather than comparison")]]
  | OtherField =>
      PList
        [PDict [("tip", PStr "Study-Life Integration"); ("description", PStr "Balancing academics with personal life is essential for wellbeing"); ("practice", PStr "Schedule at least 2 hours of non-academic activities you enjoy every week")];
         PDict [("tip", PStr "Morning Routine for Focus"); ("description", PStr "How you start your day impacts your mental state"); ("practice", PStr "Begin each day with 10 minutes of quiet reflection before checking your phone")];
         PDict [("tip", PStr "Social Connection Planning"); ("description", PStr "Regular social connections improve mental health"); ("practice", PStr "Schedule at least one meaningful social interaction (even if brief) every day")]]
  end.

(** The three lists of [_get_fallback_career_insights], by field of study. *)
Definition fallback_career_insights (f : field_of_study) : pyval :=
  match f with
  | Engineering =>
      PList
        [PDict [("insight", PStr "Specialized Technical Skills Premium"); ("trend", PStr "Companies are paying 30-40% higher for specialized tech skills beyond the core curriculum"); ("action", PStr "Identify 2-3 specializations (e.g., cloud, cybersecurity, AI) and develop projects in those areas")];
         PDict [("insight", PStr "Cross-functional Engineering Roles"); ("trend", PStr "Engineers who can bridge technical and business domains are in high demand"); ("action", PStr "Take at least one business or product management course alongside technical studies")];
         PDict [("insight", PStr "Open Source Contribution Value"); ("trend", PStr "Companies increasingly evaluate candidates based on open source contributions"); ("action", PStr "Contribute to at least one open source project relevant to your field before graduation")]]
  | Business =>
      PList
        [PDict [("insight", PStr "Data Analytics for Business Graduates"); ("trend", PStr "Business analytics roles have increased 70% for commerce graduates"); ("action", PStr "Learn SQL and basic data visualization tools alongside your business curriculum")];
         PDict [("insight", PStr "FinTech Sector Growth"); ("trend", PStr "Indian FinTech sector is projected to reach $150 billion by 2025"); ("action", PStr "Consider specialized courses in digital payments, blockchain, or financial analysis")];
         PDict [("insight", PStr "Sustainability Business Models"); ("trend", PStr "ESG (Environmental, Social, Governance) roles growing at 45% annually"); ("action", PStr "Add sustainability-focused projects or certifications to your portfolio")]]
  | OtherField =>
      PList
        [PDict [("insight", PStr "Digital Portfolio Necessity"); ("trend", PStr "93% of recruiters review candidates' online presence before interviews"); ("action", PStr "Create a personal website or comprehensive LinkedIn profile showcasing projects and skills")];
         PDict [("insight", PStr "Micro-Internship Growth"); ("trend", PStr "Short-term, project-based internships becoming standard entry points"); ("action", PStr "Complete at least 2-3 micro-internships (2-8 weeks) before your final year")];
         PDict [("insight", PStr "Remote Work Readiness"); ("trend", PStr "Hybrid and remote positions expected to constitute 35% of entry-level jobs"); ("action", PStr "Develop strong digital collaboration skills and self-management practices")]]
  end.

(** [news_data] of [fetch_trending_news]. *)
Definition news_data : list (string * list pyval) :=
  [("education",
    [PDict [("title", PStr "NEP 2020: New Changes Coming for Engineering Programs"); ("date", PStr "April 5, 2025"); ("source", PStr "Education Times")];
     PDict [("title", PStr "Top 10 Universities in India Announce Special Scholarships"); ("date", PStr "April 2, 2025"); ("source", PStr "India Today")];
     PDict [("title", PStr "Digital Learning Platforms See 45% Growth in Indian Student Adoption"); ("date", PStr "March 28, 2025"); ("source", PStr "Tech Education")]]);
   ("finance",
    [PDict [("title", PStr "New Government Financial Aid Scheme for STEM Students Announced"); ("date", PStr "April 6, 2025"); ("source", PStr "Financial Express")];
     PDict [("title", PStr "Student Credit Card with Special Benefits Launched by SBI"); ("date", PStr "April 1, 2025"); ("source", PStr "Banking News")];
     PDict [("title", PStr "How to Apply for Education Loan: Updated Guidelines for 2025"); ("date", PStr "March 25, 2025"); ("source", PStr "Student Finance")]]);
   ("wellness",
    [PDict [("title", PStr "Study Shows Direct Link Between Sleep Quality and Exam Performance"); ("date", PStr "April 4, 2025"); ("source", PStr "Health Times")];
     PDict [("title", PStr "Campus Mental Health Programs See Positive Results"); ("date", PStr "March 30, 2025"); ("source", PStr "Wellness Today")];
     PDict [("title", PStr "Mindfulness Apps Specifically Designed for Student Stress Released"); ("date", PStr "March 20, 2025"); ("source", PStr "Digital Wellness")]]);
   ("career",
    [PDict [("title", PStr "Top In-Demand Skills for 2025 Graduates in India"); ("date", PStr "April 7, 2025"); ("source", PStr "Career Guide")];
     PDict [("title", PStr "Major Tech Companies Announce Increased Hiring for Indian Graduates"); ("date", PStr "April 3, 2025"); ("source", PStr "Tech Careers")];
     PDict [("title", PStr "Remote Work Opportunities for Students Rise by 60%"); ("date", PStr "March 29, 2025"); ("source", PStr "Future of Work")]]);
   ("resources",
    [PDict [("title", PStr "5 New Digital Libraries Offering Free Resources to Indian Students"); ("date", PStr "April 6, 2025"); ("source", PStr "Education Resources")];
     PDict [("title", PStr "NPTEL Launches 50 New Free Certification Courses"); ("date", PStr "April 2, 2025"); ("source", PStr "Online Learning")];
     PDict [("title", PStr "Government Launches National Digital Skills Portal for Students"); ("date", PStr "March 28, 2025"); ("source", PStr "Digital India")]])].

(** The prompt of [get_academic_trends]. *)
Definition academic_trends_prompt (degree : string) (year : string) : list frag :=
  [Lit "Provide 3 latest academic trends and study techniques for ";
   Lit degree;
   Lit " students in ";
   Lit year;
   Lit " in India for 2025. Format as a JSON list of dictionaries with keys 'trend', 'description', and 'benefit'."].

(** The prompt of [get_financial_advice]. *)
Definition financial_advice_prompt (degree : string) (year : string) (financial_summary : list frag) : list frag :=
  ([Lit "
            As a financial advisor for Indian students, provide 3 personalized financial tips for a ";
   Lit year;
   Lit " ";
   Lit degree;
   Lit " student in India.
            
            Financial context: "]
  ++ financial_summary
  ++ [Lit "
            
            Include the most current 2025 information about scholarships, student financial programs, and money management strategies in India.
            Format as a JSON list of dictionaries with keys 'tip', 'description', and 'action_item'.
            Keep it concise and specific to Indian students.
            "])%list.

(** The prompt of [get_wellness_tips]. *)
Definition wellness_tips_prompt (degree : string) (year : string) (mood_summary : list frag) : list frag :=
  ([Lit "
            As a mental wellness coach for Indian students in 2025, provide 3 personalized wellness tips for a ";
   Lit year;
   Lit " ";
   Lit degree;
   Lit " student in India.
            
            Mood context: "]
  ++ mood_summary
  ++ [Lit "
            
            Include the latest research and mental wellness practices that are specifically effective for students in the Indian educational context.
            Format as a JSON list of dictionaries with keys 'tip', 'description', and 'practice'.
            Keep it concise, specific to Indian students, and culturally appropriate.
            "])%list.

(** The prompt of [get_career_insights]. *)
Definition career_insights_prompt (degree : string) (year : string) (career_summary : list frag) : list frag :=
  ([Lit "
            As a career advisor for Indian students in 2025, provide 3 personalized career insights for a ";
   Lit year;
   Lit " ";
   Lit degree;
   Lit " student in India.
            
            Career context: "]
  ++ career_summary
  ++ [Lit "
            
            Include the latest industry trends from 2025, new emerging roles, job market opportunities in India, and specific skills that are in high demand.
            Format as a JSON list of dictionaries with keys 'insight', 'trend', and 'action'.
            Keep it concise and specific to the Indian job market.
            "])%list.

(** The prompt of [get_latest_news]. *)
Definition latest_news_prompt (category : string) : list frag :=
  [Lit "
            As a news aggregator for Indian students in 2025, provide 3 latest news items about ";
   Lit category;
   Lit " that would be relevant to college students in India.
            
            Format as a JSON list of dictionaries with keys 'title', 'date', and 'source'.
            Make sure the news items are current (2025) and specifically useful or relevant to Indian college students.
            "].

Record t : Type := { api_key : option string; initialized : bool; base_url : string }.

(** [AIAdvisorAgent(api_key)] and [set_api_key] *)
Definition init (key : option string) : t :=
  {| api_key := key;
     initialized := match key with Some _ => true | None => false end;
     base_url := "https://api.groq.com/openai/v1" |}.

Definition set_api_key (self : t) (key : string) : t :=
  {| api_key := Some key; initialized := true; base_url := base_url self |}.

Record request : Type := {
  model : string;
  system_message : string;
  user_message : list frag;
  temperature : Q;
  max_tokens : Z
}.

(** What [requests.post] does with a request: it raises, or it returns a
    response with a status code and a body; [json_body] is [None] when
    [response.json()] raises. *)
Inductive http_outcome : Type :=
| TransportError
| Response (status_code : Z) (json_body : option pyval).

(** The service: the outcomes of the requests to come, and the requests
    sent so far. *)
Record network : Type := { outcomes : list http_outcome; sent : list request }.

Definition post (req : request) (net : network) : http_outcome * network :=
  match outcomes net with
  | [] => (TransportError, {| outcomes := []; sent := (sent net ++ [req])%list |})
  | o :: r => (o, {| outcomes := r; sent := (sent net ++ [req])%list |})
  end.

Definition _make_groq_request (self : t) (req : request) (net : network)
  : pyval * network :=
  if negb (initialized self) then (PNone, net)
  else
    let '(o, net') := post req net in
    (try_except
       match o with
       | TransportError => Raise OSError
       | Response code body =>
           if code =? 200 then
             match body with Some v => Ok v | None => Raise ValueError end
           else Ok PNone
       end
       (fun _ => PNone),
     net').

Fixpoint drop_until (c : ascii) (l : list ascii) : list ascii :=
  match l with
  | [] => []
  | x :: r => if Ascii.eqb x c then l else drop_until c r
  end.

(** [re.search(r'\[.*\]', content, re.DOTALL)]: from the first ["["] to
    the last ["]"] after it. *)
Definition search_bracketed (content : string) : option string :=
  match drop_until "[" (list_ascii_of_string content) with
  | [] => None
  | _ :: rest =>
      match drop_until "]" (rev rest) with
      | [] => None
      | l => Some (string_of_list_ascii ("["%char :: rev l))
      end
  end.

(** [response["choices"][0]["message"]["content"]] *)
Definition extract_content (response : pyval) : result pyval :=
  let* choices := subscript response "choices" in
  let* first := subscript_index choices 0 in
  let* message := subscript first "message" in
  subscript message "content".

(** [fetch_trending_news(topic, max_items)] on the cached entries. *)
Definition fetch_trending_news (topic : string) (max_items : nat)
    (entries : gmap string pyval) : result pyval :=
  let static := PList (firstn max_items (get_or [] (assoc topic news_data))) in
  match entries !! (topic ++ "_news")%string with
  | Some v => if truthy v then slice_prefix v max_items else Ok static
  | None => Ok static
  end.

Record profile_data : Type := {
  degree : option string;
  year_of_study : option string;
  college : option string
}.

Record career_preferences : Type := {
  interests : option (list string);
  target_roles : option (list string)
}.

Definition chat (system_text : string) (prompt : list frag) (tokens : Z) : request :=
  {| model := "llama3-70b-8192"; system_message := system_text;
     user_message := prompt; temperature := 7 # 10; max_tokens := tokens |}.

(** [financial_summary] of [get_financial_advice]. *)
Definition financial_summary (financial_data : pyval) : result (list frag) :=
  if negb (truthy financial_data) then Ok [Lit "No financial data available."]
  else
    let* items := iterate financial_data in
    let* amounts :=
      mapM (fun x => let* a := subscript x "amount" in
                     let* q := number a in Ok (x, q)) items in
    let income := sum (map snd (List.filter (fun xq => Qltb 0 (snd xq)) amounts)) in
    let negatives := List.filter (fun xq => Qltb (snd xq) 0) amounts in
    let expenses := Qabs (sum (map snd negatives)) in
    let* top_expense_category :=
      if Qltb 0 expenses then
        let* expense_by_category :=
          fold_left
            (fun acc xq =>
               let* by_category := acc in
               let* category := dict_get (fst xq) "category" (PStr "Other") in
               if hashable category
               then Ok (FinancialPlanner.add_amount category (Qabs (snd xq)) by_category)
               else Raise TypeError)
            negatives (Ok []) in
        match expense_by_category with
        | [] => Ok (PStr "Unknown")
        | x :: r => Ok (fst (max_from (fun a b => Qltb (snd a) (snd b)) x r))
        end
      else Ok (PStr "Unknown") in
    Ok [Lit "Monthly income: ₹"; Fixed 0 income; Lit ", Monthly expenses: ₹";
        Fixed 0 expenses; Lit ", Top expense category: "; Str top_expense_category].

(** [mood_summary] of [get_wellness_tips], for a mood history: its items
    carry a date and a score and no stress factors. *)
Definition mood_summary (mood_data : option (list MentalWellnessCoach.mood_point))
  : result (list frag) :=
  match mood_data with
  | Some ((_ :: _) as l) =>
      let* avg_mood :=
        truediv (sum (map MentalWellnessCoach.point_score l))
                (inject_Z (Z.of_nat (List.length l))) in
      Ok [Lit "Average mood: "; Fixed 1 avg_mood; Lit "/10. Common stressors: ";
          Lit "None identified"; Lit "."]
  | _ => Ok [Lit "No mood data available."]
  end.

Definition joined_or_unspecified (l : list string) : string :=
  match l with
  | [] => "Not specified"
  | _ :: _ => String.concat ", " l
  end.

(** [career_summary] of [get_career_insights]; [None] is an absent or
    empty preference dict. *)
Definition career_summary (prefs : option career_preferences) : list frag :=
  match prefs with
  | None => [Lit "No career preferences specified."]
  | Some p =>
      [Lit "Interests: "; Lit (joined_or_unspecified (get_or [] (interests p))); Lit ". ";
       Lit "Target roles: "; Lit (joined_or_unspecified (get_or [] (target_roles p)));
       Lit "."]
  end.

(** [str(degree)] *)
Definition str_of (degree : option string) : string := get_or "None" degree.

Definition _get_fallback_academic_trends (degree : option string) : pyval :=
  fallback_academic_trends (classify (str_of degree)).
Definition _get_fallback_financial_advice (p : profile_data) : pyval :=
  fallback_financial_advice (classify (get_or "" (degree p))).
Definition _get_fallback_wellness_tips (p : profile_data) : pyval :=
  fallback_wellness_tips (classify (get_or "" (degree p))).
Definition _get_fallback_career_insights (p : profile_data) : pyval :=
  fallback_career_insights (classify (get_or "" (degree p))).

Section Getters.

(** [json.loads]; [None] is a raised [JSONDecodeError]. *)
Variable loads : string -> option pyval.

(** The inner [try] of a getter: the bracketed part of the content, or
    the whole content when there is none, decoded. *)
Definition decode_content (content : pyval) : result pyval :=
  match content with
  | PStr s =>
      match loads (get_or s (search_bracketed s)) with
      | Some v => Ok v
      | None => Raise ValueError
      end
  | _ => Raise TypeError
  end.

(** What every getter of an initialized agent does: build the request
    (which can raise), send it, and return the decoded content; any
    exception on the way and any falsy response give the fallback. *)
Definition answer (self : t) (req : result request) (fallback : result pyval)
    (net : network) : result pyval * network :=
  match req with
  | Raise _ => (fallback, net)
  | Ok r =>
      let '(response, net') := _make_groq_request self r net in
      if truthy response then
        match extract_content response with
        | Raise _ => (fallback, net')
        | Ok content =>
            match decode_content content with
            | Ok v => (Ok v, net')
            | Raise _ => (fallback, net')
            end
        end
      else (fallback, net')
  end.

Definition get_academic_trends (self : t) (degree year : option string)
    (net : network) : result pyval * network :=
  let fallback := Ok (_get_fallback_academic_trends degree) in
  if negb (initialized self) then (fallback, net)
  else
    answer self
      (Ok (chat "You're an educational advisor for Indian students."
                (academic_trends_prompt (str_of degree) (str_of year)) 800))
      fallback net.

Definition get_financial_advice (self : t) (p : profile_data) (financial_data : pyval)
    (net : network) : result pyval * network :=
  let fallback := Ok (_get_fallback_financial_advice p) in
  if negb (initialized self) then (fallback, net)
  else
    answer self
      (let* summary := financial_summary financial_data in
       Ok (chat "You're a financial advisor for Indian college students."
                (financial_advice_prompt (get_or "" (degree p)) (get_or "" (year_of_study p))
                                         summary) 800))
      fallback net.

Definition get_wellness_tips (self : t) (p : profile_data)
    (mood_data : option (list MentalWellnessCoach.mood_point))
    (net : network) : result pyval * network :=
  let fallback := Ok (_get_fallback_wellness_tips p) in
  if negb (initialized self) then (fallback, net)
  else
    answer self
      (let* summary := mood_summary mood_data in
       Ok (chat "You're a wellness coach for Indian college students."
                (wellness_tips_prompt (get_or "" (degree p)) (get_or "" (year_of_study p))
                                      summary) 800))
      fallback net.

Definition get_career_insights (self : t) (p : profile_data)
    (prefs : option career_preferences) (net : network) : result pyval * network :=
  let fallback := Ok (_get_fallback_career_insights p) in
  if negb (initialized self) then (fallback, net)
  else
    answer self
      (Ok (chat "You're a career advisor for Indian college students."
                (career_insights_prompt (get_or "" (degree p)) (get_or "" (year_of_study p))
                                        (career_summary prefs)) 800))
      fallback net.

Definition get_latest_news (self : t) (category : string)
    (entries : gmap string pyval) (net : network) : result pyval * network :=
  let fallback := fetch_trending_news category 3 entries in
  if negb (initialized self) then (fallback, net)
  else
    answer self
      (Ok (chat "You're a news specialist for Indian college students."
                (latest_news_prompt category) 300))
      fallback net.

(** [StudentProfile]'s getters (student_model.py). *)
Definition get_degree (p : profile_data) : string := get_or "Degree" (degree p).
Definition get_year_of_study (p : profile_data) : string := get_or "1st Year" (year_of_study p).
Definition get_college_name (p : profile_data) : string := get_or "College" (college p).

(** [CareerGuide.get_career_preferences] (career_guide.py); [None] is an
    absent or empty career document. *)
Definition get_career_preferences (career_data : option career_preferences)
  : career_preferences :=
  match career_data with
  | None =>
      {| interests := Some ["Software Development"; "Data Analysis"; "Product Management"];
         target_roles := Some ["Software Engineer"; "Data Scientist"] |}
  | Some p => p
  end.

(** [st.session_state]: the agent, the objects of the logged-in student
    (absent before login) and [cached_content], whose payloads are
    [entries] and whose timestamp is [last_updated]. *)
Record session : Type := {
  ai_agent : t;
  student_profile : option profile_data;
  financial_planner : option FinancialPlanner.t;
  mental_wellness : option MentalWellnessCoach.t;
  career_guide : option (option career_preferences);
  entries : gmap string pyval;
  last_updated : option Datetime.datetime
}.

Definition set_entry (key : string) (v : pyval) (s : session) : session :=
  {| ai_agent := ai_agent s; student_profile := student_profile s;
     financial_planner := financial_planner s; mental_wellness := mental_wellness s;
     career_guide := career_guide s; entries := <[ key := v ]> (entries s);
     last_updated := last_updated s |}.

Definition set_last_updated (u : Datetime.datetime) (s : session) : session :=
  {| ai_agent := ai_agent s; student_profile := student_profile s;
     financial_planner := financial_planner s; mental_wellness := mental_wellness s;
     career_guide := career_guide s; entries := entries s;
     last_updated := Some u |}.

(** [cached_content[key] = <getter call>] inside the [try] of
    [update_content_cache]: a raised exception ends the update and keeps
    what was stored before it. *)
Definition store (key : string) (r : result pyval * network) (s : session)
    (continue : session -> network -> session * network) : session * network :=
  match r with
  | (Ok v, net') => continue (set_entry key v s) net'
  | (Raise _, net') => (s, net')
  end.

(** The first test of [update_content_cache]: less than a day old and
    not forced. *)
Definition is_fresh (force : bool) (s : session) (current_time : Datetime.datetime) : bool :=
  negb force
  && match last_updated s with
     | Some u => Datetime.days_of (current_time - u) <? 1
     | None => false
     end.

(** Returns the session, the state of the random generator (the mood
    history of a student without entries draws from it) and the network.
    The reads of the planner, of the mood history and of the career
    preferences cannot raise; they are written before the chain of
    assignments they feed. *)
Definition update_content_cache (force : bool) (s : session) (e : env)
    (net : network) : session * Random.state * network :=
  let current_time := now e in
  if is_fresh force s current_time then (s, rng e, net)
  else if negb (initialized (ai_agent s)) then (s, rng e, net)
  else
    match student_profile s with
    | None => (s, rng e, net)
    | Some profile =>
        let agent := ai_agent s in
        let p := {| degree := Some (get_degree profile);
                    year_of_study := Some (get_year_of_study profile);
                    college := Some (get_college_name profile) |} in
        let financial_data :=
          match financial_planner s with
          | Some fp => FinancialPlanner.get_all_transactions fp
          | None => PNone
          end in
        let '(mood_data, g) :=
          match mental_wellness s with
          | Some mw =>
              let '(l, g') := MentalWellnessCoach.get_mood_history mw e in (Some l, g')
          | None => (None, rng e)
          end in
        let prefs := option_map get_career_preferences (career_guide s) in
        let '(s', net') :=
          store "academic_trends"
            (get_academic_trends agent (degree p) (year_of_study p) net) s
            (fun s1 net1 =>
          store "financial_tips" (get_financial_advice agent p financial_data net1) s1
            (fun s2 net2 =>
          store "wellness_tips" (get_wellness_tips agent p mood_data net2) s2
            (fun s3 net3 =>
          store "career_insights" (get_career_insights agent p prefs net3) s3
            (fun s4 net4 =>
          store "education_news" (get_latest_news agent "education" (entries s4) net4) s4
            (fun s5 net5 =>
          store "finance_news" (get_latest_news agent "finance" (entries s5) net5) s5
            (fun s6 net6 =>
          store "wellness_news" (get_latest_news agent "wellness" (entries s6) net6) s6
            (fun s7 net7 =>
          store "career_news" (get_latest_news agent "career" (entries s7) net7) s7
            (fun s8 net8 => (set_last_updated current_time s8, net8))))))))) in
        (s', g, net')
    end.

End Getters.

End App.

(** ** career_guide.py *)
Module CareerGuide.
Import Py.

(** The career document: [interests], [target_roles], [resume] and
    [network_size] are the keys the score reads. *)
Record career_data : Type := {
  interests : option (list string);
  target_roles : option (list string);
  resume : option (list (string * pyval));
  network_size : option Q
}.

Record opportunity : Type := { opportunity_id : option string; status : option string }.

Record t : Type := {
  student_id : string;
  data_manager : DataManager.t;
  career : career_data;
  skills : list pyval;
  experiences : list pyval;
  opportunities : list opportunity
}.




Definition get_career_profile (self : t) : pyval :=
  try_except
    (Ok (DataManager.get_data (data_manager self) (student_id self) "career_profile" PNone))
    (fun _ => PNone).

End CareerGuide.

(** ** resource_connector.py *)
Module ResourceConnector.
Import Py.

Record t : Type := { student_id : string; data_manager : DataManager.t }.

Definition get_saved_resources (self : t) : pyval :=
  try_except
    (Ok (DataManager.get_data (data_manager self) (student_id self) "saved_resources" (PList [])))
    (fun _ => PList []).

End ResourceConnector.

(** ** mental_wellness.py: the mood log, stress factors and habits *)
Module Wellness.
Import Py.

(** An entry of the sleep document. *)
Record sleep_record : Type := {
  sleep_date : option string;
  hours : option Q;
  sleep_entry_id : option string
}.

(** A tracked habit.  [last_completed] is absent, [null] or a date. *)
Record habit : Type := {
  habit_id : option string;
  habit_name : option string;
  current_streak : option Z;
  longest_streak : option Z;
  start_date : option string;
  last_completed : option (option string);
  completion_history : option (list string)
}.

Record t : Type := {
  student_id : string;
  data_manager : DataManager.t;
  mood_entries : list MentalWellnessCoach.mood_entry;
  sleep_data : list sleep_record;
  habits : list habit
}.

Definition opt_item {A} (k : string) (f : A -> pyval) (o : option A) : list (string * pyval) :=
  match o with Some a => [(k, f a)] | None => [] end.

Definition strings (l : list string) : pyval := PList (map PStr l).

Definition mood_to_json (x : MentalWellnessCoach.mood_entry) : pyval :=
  PDict (opt_item "date" PStr (MentalWellnessCoach.date x)
         ++ opt_item "score" PNum (MentalWellnessCoach.score x)
         ++ opt_item "stress_factors" strings (MentalWellnessCoach.stress_factors x)
         ++ opt_item "sleep_hours" PNum (MentalWellnessCoach.sleep_hours x)
         ++ opt_item "entry_id" PStr (MentalWellnessCoach.entry_id x)
         ++ opt_item "created_at" PStr (MentalWellnessCoach.created_at x))%list.

Definition sleep_to_json (x : sleep_record) : pyval :=
  PDict (opt_item "date" PStr (sleep_date x)
         ++ opt_item "hours" PNum (hours x)
         ++ opt_item "entry_id" PStr (sleep_entry_id x))%list.

Definition habit_to_json (x : habit) : pyval :=
  PDict (opt_item "habit_id" PStr (habit_id x)
         ++ opt_item "name" PStr (habit_name x)
         ++ opt_item "current_streak" (fun z => PNum (inject_Z z)) (current_streak x)
         ++ opt_item "longest_streak" (fun z => PNum (inject_Z z)) (longest_streak x)
         ++ opt_item "start_date" PStr (start_date x)
         ++ opt_item "last_completed"
              (fun o => match o with Some s => PStr s | None => PNone end) (last_completed x)
         ++ opt_item "completion_history" strings (completion_history x))%list.

(** [log_mood]: [uuid1] and [uuid2] are the values of the two calls of
    [str(uuid.uuid4())].  The result of saving the sleep document is
    dropped; the result of saving the mood document is returned. *)
Definition log_mood (self : t) (mood_data : MentalWellnessCoach.mood_entry)
    (uuid1 uuid2 : string) (e : env) (d : DataManager.disk) : bool * t * DataManager.disk :=
  let mood_data' :=
    {| MentalWellnessCoach.entry_id :=
         Some (get_or uuid1 (MentalWellnessCoach.entry_id mood_data));
       MentalWellnessCoach.created_at :=
         Some (get_or (Datetime.isoformat (now e)) (MentalWellnessCoach.created_at mood_data));
       MentalWellnessCoach.date := MentalWellnessCoach.date mood_data;
       MentalWellnessCoach.score := MentalWellnessCoach.score mood_data;
       MentalWellnessCoach.stress_factors := MentalWellnessCoach.stress_factors mood_data;
       MentalWellnessCoach.sleep_hours := MentalWellnessCoach.sleep_hours mood_data |} in
  let mood_entries' := (mood_entries self ++ [mood_data'])%list in
  let '(sleep_data', d1) :=
    match MentalWellnessCoach.sleep_hours mood_data' with
    | Some h =>
        let sleep_entry :=
          {| sleep_date :=
               Some (get_or (Datetime.isoformat (now e)) (MentalWellnessCoach.date mood_data'));
             hours := Some h;
             sleep_entry_id := Some uuid2 |} in
        let l := (sleep_data self ++ [sleep_entry])%list in
        (l, snd (DataManager.save_data (data_manager self) (student_id self) "wellness"
                   "sleep" (PList (map sleep_to_json l)) d))
    | None => (sleep_data self, d)
    end in
  let '(success, d2) :=
    DataManager.save_data (data_manager self) (student_id self) "wellness" "mood"
      (PList (map mood_to_json mood_entries')) d1 in
  (success,
   {| student_id := student_id self; data_manager := data_manager self;
      mood_entries := mood_entries'; sleep_data := sleep_data'; habits := habits self |},
   d2).

Definition get_current_wellness_score (self : t) : Q :=
  match mood_entries self with
  | [] => 7%Q
  | _ :: _ =>
      let sorted_entries :=
        sorted_reverse String.leb (fun x => get_or "" (MentalWellnessCoach.date x))
          (mood_entries self) in
      match sorted_entries with
      | x :: _ => get_or 7%Q (MentalWellnessCoach.score x)
      | [] => 7%Q
      end
  end.

(** [factor_counts[factor] += 1], or the first assignment of [1]. *)
Definition count_factor (factor_counts : list (string * Z)) (factor : string)
  : list (string * Z) :=
  match assoc factor factor_counts with
  | Some c => assoc_set factor (c + 1) factor_counts
  | None => assoc_set factor 1 factor_counts
  end.

(** ["stress_factors" in entry and entry["stress_factors"]] *)
Definition has_factors (x : MentalWellnessCoach.mood_entry) : bool :=
  match MentalWellnessCoach.stress_factors x with
  | Some (_ :: _) => true
  | _ => false
  end.

(** The returned dict: without mood entries it has the key [factors] only. *)
Record analysis : Type := {
  factors : list (string * Z);
  total_entries : option Z;
  entries_with_factors : option Z
}.

Definition get_stress_factors_analysis (self : t) : analysis :=
  match mood_entries self with
  | [] => {| factors := []; total_entries := None; entries_with_factors := None |}
  | _ :: _ =>
      let all_factors :=
        fold_left
          (fun acc entry =>
             if has_factors entry
             then (acc ++ get_or [] (MentalWellnessCoach.stress_factors entry))%list
             else acc)
          (mood_entries self) [] in
      let factor_counts := fold_left count_factor all_factors [] in
      {| factors := sorted_reverse Z.leb snd factor_counts;
         total_entries := Some (Z.of_nat (List.length (mood_entries self)));
         entries_with_factors :=
           Some (Z.of_nat (List.length (List.filter has_factors (mood_entries self)))) |}
  end.

Definition set_habits (self : t) (l : list habit) : t :=
  {| student_id := student_id self; data_manager := data_manager self;
     mood_entries := mood_entries self; sleep_data := sleep_data self; habits := l |}.

Definition add_wellness_habit (self : t) (habit_data : habit) (uuid : string)
    (e : env) (d : DataManager.disk) : bool * t * DataManager.disk :=
  let habit_data' :=
    {| habit_id := Some (get_or uuid (habit_id habit_data));
       habit_name := habit_name habit_data;
       current_streak := Some 0;
       longest_streak := Some 0;
       start_date := Some (Datetime.isoformat (now e));
       last_completed := Some None;
       completion_history := Some [] |} in
  let habits' := (habits self ++ [habit_data'])%list in
  let '(success, d') :=
    DataManager.save_data (data_manager self) (student_id self) "wellness" "habits"
      (PList (map habit_to_json habits')) d in
  (success, set_habits self habits', d').

(** [t.date().isoformat()] *)
Definition date_iso (t : Datetime.datetime) : string :=
  Datetime.zero_padded 4 (Datetime.year t) ++ "-" ++ Datetime.zero_padded 2 (Datetime.month t)
  ++ "-" ++ Datetime.zero_padded 2 (Datetime.day t).

(** [habit.get("habit_id") == habit_id] *)
Definition has_id (habit_id' : string) (x : habit) : bool :=
  match habit_id x with Some s => String.eqb s habit_id' | None => false end.

(** The first [(i, x)] of [enumerate(l)] whose [x] passes the test. *)
Fixpoint find_first {A} (p : A -> bool) (i : nat) (l : list A) : option (nat * A) :=
  match l with
  | [] => None
  | x :: r => if p x then Some (i, x) else find_first p (S i) r
  end.

(** The habit after the assignments of [log_habit_completion]; the
    loop variable [habit] and [self.habits[i]] are one object, so every
    read of [habit] after an assignment sees the assigned value. *)
Definition completed (x : habit) (today yesterday : string) : habit :=
  let completion_history' := (get_or [] (completion_history x) ++ [today])%list in
  let x1 :=
    {| habit_id := habit_id x; habit_name := habit_name x;
       current_streak := current_streak x; longest_streak := longest_streak x;
       start_date := start_date x;
       last_completed := Some (Some today);
       completion_history := Some completion_history' |} in
  let last_completed' := match last_completed x1 with Some o => o | None => None end in
  let streak :=
    match last_completed' with
    | Some s =>
        if negb (String.eqb s "") then
          if String.eqb s yesterday then get_or 0 (current_streak x1) + 1 else 1
        else 1
    | None => 1
    end in
  let x2 :=
    {| habit_id := habit_id x1; habit_name := habit_name x1;
       current_streak := Some streak; longest_streak := longest_streak x1;
       start_date := start_date x1; last_completed := last_completed x1;
       completion_history := completion_history x1 |} in
  let current_streak' := get_or 0 (current_streak x2) in
  let longest_streak' := get_or 0 (longest_streak x2) in
  if longest_streak' <? current_streak' then
    {| habit_id := habit_id x2; habit_name := habit_name x2;
       current_streak := current_streak x2; longest_streak := Some current_streak';
       start_date := start_date x2; last_completed := last_completed x2;
       completion_history := completion_history x2 |}
  else x2.

(** [history[-1] == today] *)
Definition last_is (today : string) (history : list string) : bool :=
  match rev history with
  | x :: _ => String.eqb x today
  | [] => false
  end.

Definition log_habit_completion (self : t) (habit_id' : string) (e : env)
    (d : DataManager.disk) : bool * t * DataManager.disk :=
  match find_first (has_id habit_id') 0 (habits self) with
  | None => (false, self, d)
  | Some (i, x) =>
      let today := date_iso (now e) in
      let history := get_or [] (completion_history x) in
      if match history with [] => false | _ :: _ => last_is today history end
      then (false, self, d)
      else
        let yesterday := date_iso (now e - Datetime.days 1) in
        let habits' := <[ i := completed x today yesterday ]> (habits self) in
        let '(success, d') :=
          DataManager.save_data (data_manager self) (student_id self) "wellness" "habits"
            (PList (map habit_to_json habits')) d in
        (success, set_habits self habits', d')
  end.

(** [get_habit_history]: the dates of the items [{"date": date, "completed": True}]. *)
Definition get_habit_history (self : t) (habit_id' : string) : list (string * bool) :=
  match find_first (has_id habit_id') 0 (habits self) with
  | Some (_, x) => map (fun date => (date, true)) (get_or [] (completion_history x))
  | None => []
  end.

End Wellness.

(** ** financial_planner.py: filters, budget, goals and summary *)
Module Finance.
Import Py.

(** [if s:] for an optional string argument. *)
Definition given (s : option string) : option string :=
  match s with
  | Some v => if String.eqb v "" then None else Some v
  | None => None
  end.

Definition get_transactions (self : FinancialPlanner.t)
    (start_date end_date category : option string) : list FinancialPlanner.transaction :=
  let filtered := FinancialPlanner.transactions self in
  let filtered :=
    match given start_date with
    | Some s =>
        List.filter (fun x => String.leb s (get_or "" (FinancialPlanner.date x))) filtered
    | None => filtered
    end in
  let filtered :=
    match given end_date with
    | Some s =>
        List.filter (fun x => String.leb (get_or "" (FinancialPlanner.date x)) s) filtered
    | None => filtered
    end in
  let filtered :=
    match given category with
    | Some c =>
        List.filter (fun x => match FinancialPlanner.category x with
                              | Some c' => String.eqb c' c
                              | None => false
                              end) filtered
    | None => filtered
    end in
  filtered.

Definition budget_to_json (budget : list (string * Q)) : pyval :=
  PDict (map (fun kv => (fst kv, PNum (snd kv))) budget).

Definition set_budget (self : FinancialPlanner.t) (budget_data : list (string * Q))
    (d : DataManager.disk) : bool * FinancialPlanner.t * DataManager.disk :=
  let self' :=
    {| FinancialPlanner.student_id := FinancialPlanner.student_id self;
       FinancialPlanner.data_manager := FinancialPlanner.data_manager self;
       FinancialPlanner.transactions := FinancialPlanner.transactions self;
       FinancialPlanner.budget := budget_data |} in
  let '(success, d') :=
    DataManager.save_data (FinancialPlanner.data_manager self')
      (FinancialPlanner.student_id self') "financial" "budget"
      (budget_to_json (FinancialPlanner.budget self')) d in
  (success, self', d').

Definition get_budget (self : FinancialPlanner.t) : list (string * Q) :=
  match FinancialPlanner.budget self with
  | [] =>
      [("Food & Dining", 3000 # 1); ("Transportation", 1000 # 1);
       ("Books & Supplies", 2000 # 1); ("Rent & Utilities", 5000 # 1);
       ("Entertainment", 1000 # 1); ("Personal Care", 500 # 1);
       ("Mobile & Internet", 500 # 1); ("Clothing", 1000 # 1);
       ("Miscellaneous", 1000 # 1)]
  | _ :: _ => FinancialPlanner.budget self
  end.

Record summary : Type := {
  current_balance : Q;
  income_this_month : Q;
  expenses_this_month : Q;
  expenses_by_category : list (string * Q);
  expense_trend : Q;
  budget_adherence : Q
}.

Definition amount_of (x : FinancialPlanner.transaction) : Q :=
  get_or 0%Q (FinancialPlanner.amount x).

Definition date_of (x : FinancialPlanner.transaction) : string :=
  get_or "" (FinancialPlanner.date x).

(** [sum(abs(t.get("amount", 0)) for t in l if t.get("amount", 0) < 0)] *)
Definition expenses_of (l : list FinancialPlanner.transaction) : Q :=
  sum (map (fun x => Qabs (amount_of x)) (List.filter (fun x => Qltb (amount_of x) 0) l)).

Definition get_financial_summary (self : FinancialPlanner.t) (e : env) : result summary :=
  let transactions := FinancialPlanner.transactions self in
  let current_balance := sum (map amount_of transactions) in
  let month_start := FinancialPlanner.month_start (now e) in
  let month_transactions :=
    List.filter (fun x => String.leb month_start (date_of x)) transactions in
  let income_this_month :=
    sum (map amount_of (List.filter (fun x => Qltb 0 (amount_of x)) month_transactions)) in
  let expenses_this_month := expenses_of month_transactions in
  let expenses_by_category :=
    fold_left
      (fun by_category x =>
         if Qltb (amount_of x) 0 then
           FinancialPlanner.add_to (get_or "Other" (FinancialPlanner.category x))
             (Qabs (amount_of x)) by_category
         else by_category)
      month_transactions [] in
  let last_of_previous :=
    Datetime.make (Datetime.year (now e)) (Datetime.month (now e)) 1 - Datetime.days 1 in
  let prev_month_start :=
    Datetime.isoformat
      (Datetime.make (Datetime.year last_of_previous) (Datetime.month last_of_previous) 1) in
  let prev_month_end := Datetime.isoformat last_of_previous in
  let prev_month_transactions :=
    List.filter (fun x => String.leb prev_month_start (date_of x)
                          && String.leb (date_of x) prev_month_end) transactions in
  let prev_month_expenses := expenses_of prev_month_transactions in
  let* expense_trend :=
    if Qltb 0 prev_month_expenses then
      let* ratio := truediv (expenses_this_month - prev_month_expenses) prev_month_expenses in
      Ok (ratio * 100)%Q
    else Ok 0%Q in
  let* budget_adherence := FinancialPlanner.get_budget_adherence self e in
  Ok {| current_balance := current_balance;
        income_this_month := income_this_month;
        expenses_this_month := expenses_this_month;
        expenses_by_category := expenses_by_category;
        expense_trend := expense_trend;
        budget_adherence := budget_adherence |}.

(** [get_monthly_expenses]: the items [{"category": cat, "amount": amt}]. *)
Definition get_monthly_expenses (self : FinancialPlanner.t) (e : env) : list (string * Q) :=
  map (fun ca => (fst ca, snd ca)) (FinancialPlanner.get_actual_spending self e).

Record goal : Type := {
  goal_id : option string;
  goal_name : option string;
  target_amount : option Q;
  current_amount : option Q;
  status : option string;
  completion_date : option string
}.

Definition goal_to_json (x : goal) : pyval :=
  PDict (FinancialPlanner.opt_item "goal_id" PStr (goal_id x)
         ++ FinancialPlanner.opt_item "name" PStr (goal_name x)
         ++ FinancialPlanner.opt_item "target_amount" PNum (target_amount x)
         ++ FinancialPlanner.opt_item "current_amount" PNum (current_amount x)
         ++ FinancialPlanner.opt_item "status" PStr (status x)
         ++ FinancialPlanner.opt_item "completion_date" PStr (completion_date x))%list.

(** The planner's goals, next to the fields of [FinancialPlanner.t]. *)
Record t : Type := { planner : FinancialPlanner.t; goals : list goal }.

Definition save_goals (self : t) (l : list goal) (d : DataManager.disk)
  : bool * t * DataManager.disk :=
  let '(success, d') :=
    DataManager.save_data (FinancialPlanner.data_manager (planner self))
      (FinancialPlanner.student_id (planner self)) "financial" "goals"
      (PList (map goal_to_json l)) d in
  (success, {| planner := planner self; goals := l |}, d').

Definition has_id (goal_id' : string) (x : goal) : bool :=
  match goal_id x with Some s => String.eqb s goal_id' | None => false end.

(** The goal after [update_financial_goal] assigned to it. *)
Definition updated (x : goal) (current_amount' : Q) (e : env) : goal :=
  let x1 :=
    {| goal_id := goal_id x; goal_name := goal_name x; target_amount := target_amount x;
       current_amount := Some current_amount'; status := status x;
       completion_date := completion_date x |} in
  if Qle_bool (get_or 0%Q (target_amount x1)) current_amount' then
    {| goal_id := goal_id x1; goal_name := goal_name x1; target_amount := target_amount x1;
       current_amount := current_amount x1; status := Some "completed";
       completion_date := Some (Datetime.isoformat (now e)) |}
  else x1.

Definition update_financial_goal (self : t) (goal_id' : string) (current_amount' : Q)
    (e : env) (d : DataManager.disk) : bool * t * DataManager.disk :=
  match Wellness.find_first (has_id goal_id') 0 (goals self) with
  | Some (i, x) => save_goals self (<[ i := updated x current_amount' e ]> (goals self)) d
  | None => (false, self, d)
  end.

Definition delete_financial_goal (self : t) (goal_id' : string) (d : DataManager.disk)
  : bool * t * DataManager.disk :=
  let original_len := List.length (goals self) in
  let goals' := List.filter (fun x => negb (has_id goal_id' x)) (goals self) in
  let self' := {| planner := planner self; goals := goals' |} in
  if Nat.ltb (List.length goals') original_len then save_goals self' goals' d
  else (false, self', d).

End Finance.

(** ** academic_tracker.py: courses, tasks and study sessions *)
Module Academics.
Import Py.

(** Courses and tasks are dictionaries: [update] merges any keys. *)
Definition dict : Type := list (string * pyval).

Record session : Type := {
  session_id : option string;
  session_created_at : option string;
  session_date : option string;
  subject : option string;
  hours : option Q
}.

Record t : Type := {
  student_id : string;
  data_manager : DataManager.t;
  courses : list dict;
  tasks : list dict;
  study_sessions : list session
}.

Definition set_courses (self : t) (l : list dict) : t :=
  {| student_id := student_id self; data_manager := data_manager self;
     courses := l; tasks := tasks self; study_sessions := study_sessions self |}.

Definition set_tasks (self : t) (l : list dict) : t :=
  {| student_id := student_id self; data_manager := data_manager self;
     courses := courses self; tasks := l; study_sessions := study_sessions self |}.

Definition save_courses (self : t) (d : DataManager.disk) : bool * t * DataManager.disk :=
  let '(success, d') :=
    DataManager.save_data (data_manager self) (student_id self) "academic" "courses"
      (PList (map PDict (courses self))) d in
  (success, self, d').

Definition save_tasks (self : t) (d : DataManager.disk) : bool * t * DataManager.disk :=
  let '(success, d') :=
    DataManager.save_data (data_manager self) (student_id self) "academic" "tasks"
      (PList (map PDict (tasks self))) d in
  (success, self, d').

(** [x.get(key) == value] for a string [value]. *)
Definition has_value (key value : string) (x : dict) : bool :=
  match assoc key x with
  | Some (PStr s) => String.eqb s value
  | _ => false
  end.

(** [if key not in x: x[key] = value] *)
Definition set_default (key : string) (value : pyval) (x : dict) : dict :=
  match assoc key x with
  | Some _ => x
  | None => assoc_set key value x
  end.

(** [x.update(updates)] *)
Definition update (x updates : dict) : dict :=
  fold_left (fun acc kv => assoc_set (fst kv) (snd kv) acc) updates x.

Definition get_courses (self : t) (current_only : bool) : list dict :=
  if current_only
  then List.filter (fun course => truthy (get_or (PBool true) (assoc "is_current" course)))
                   (courses self)
  else courses self.

Definition add_course (self : t) (course_data : dict) (uuid : string) (e : env)
    (d : DataManager.disk) : bool * t * DataManager.disk :=
  let course_data := set_default "course_id" (PStr uuid) course_data in
  let course_data :=
    set_default "created_at" (PStr (Datetime.isoformat (now e))) course_data in
  save_courses (set_courses self (courses self ++ [course_data])%list) d.

Definition update_course (self : t) (course_id : string) (updates : dict)
    (d : DataManager.disk) : bool * t * DataManager.disk :=
  match Wellness.find_first (has_value "course_id" course_id) 0 (courses self) with
  | Some (i, course) =>
      save_courses (set_courses self (<[ i := update course updates ]> (courses self))) d
  | None => (false, self, d)
  end.

Definition delete_course (self : t) (course_id : string) (d : DataManager.disk)
  : bool * t * DataManager.disk :=
  let original_len := List.length (courses self) in
  let self' :=
    set_courses self
      (List.filter (fun course => negb (has_value "course_id" course_id course))
                   (courses self)) in
  if Nat.ltb (List.length (courses self')) original_len then save_courses self' d
  else (false, self', d).

Definition get_course_by_code (self : t) (course_code : string) : option dict :=
  option_map snd (Wellness.find_first (has_value "code" course_code) 0 (courses self)).

Definition add_task (self : t) (task_data : dict) (uuid : string) (e : env)
    (d : DataManager.disk) : bool * t * DataManager.disk :=
  let task_data := set_default "task_id" (PStr uuid) task_data in
  let task_data := set_default "created_at" (PStr (Datetime.isoformat (now e))) task_data in
  save_tasks (set_tasks self (tasks self ++ [task_data])%list) d.

Definition update_task (self : t) (task_id : string) (updates : dict)
    (d : DataManager.disk) : bool * t * DataManager.disk :=
  match Wellness.find_first (has_value "task_id" task_id) 0 (tasks self) with
  | Some (i, task) =>
      save_tasks (set_tasks self (<[ i := update task updates ]> (tasks self))) d
  | None => (false, self, d)
  end.

Definition delete_task (self : t) (task_id : string) (d : DataManager.disk)
  : bool * t * DataManager.disk :=
  let original_len := List.length (tasks self) in
  let self' :=
    set_tasks self
      (List.filter (fun task => negb (has_value "task_id" task_id task)) (tasks self)) in
  if Nat.ltb (List.length (tasks self')) original_len then save_tasks self' d
  else (false, self', d).

(** [datetime.fromisoformat(x.get("due_date", now.isoformat()))] *)
Definition due (now : Datetime.datetime) (x : dict) : result Datetime.datetime :=
  match get_or (PStr (Datetime.isoformat now)) (assoc "due_date" x) with
  | PStr s => Datetime.fromisoformat s
  | _ => Raise TypeError
  end.



End Academics.

(** ** data_manager.py: lists stored in a document *)
Module DataLists.
Import Py.













End DataLists.

(** ** student_model.py *)
Module StudentProfile.
Import Py.

Record t : Type := { student_id : string; profile_data : Academics.dict }.

(** The [defaults] of [_set_defaults]; [created_at] is the current time. *)
Definition defaults (e : env) : Academics.dict :=
  [("full_name", PStr "Student");
   ("college_name", PStr "College");
   ("degree", PStr "Degree");
   ("year_of_study", PStr "1st Year");
   ("created_at", PStr (Datetime.isoformat (now e)));
   ("preferences",
    PDict [("theme", PStr "light");
           ("notifications_enabled", PBool true);
           ("privacy_level", PStr "standard")])].

Definition _set_defaults (self : t) (e : env) : t :=
  {| student_id := student_id self;
     profile_data :=
       fold_left (fun data kv => Academics.set_default (fst kv) (snd kv) data)
                 (defaults e) (profile_data self) |}.

Definition init (student_id' : string) (profile_data' : Academics.dict) (e : env) : t :=
  _set_defaults {| student_id := student_id'; profile_data := profile_data' |} e.

Definition get_full_name (self : t) : pyval :=
  get_or (PStr "Student") (assoc "full_name" (profile_data self)).
Definition get_college_name (self : t) : pyval :=
  get_or (PStr "College") (assoc "college_name" (profile_data self)).
Definition get_degree (self : t) : pyval :=
  get_or (PStr "Degree") (assoc "degree" (profile_data self)).
Definition get_year_of_study (self : t) : pyval :=
  get_or (PStr "1st Year") (assoc "year_of_study" (profile_data self)).
Definition get_email (self : t) : pyval :=
  get_or PNone (assoc "email" (profile_data self)).

Definition get_preference (self : t) (key : string) (default : pyval) : result pyval :=
  let preferences := get_or (PDict []) (assoc "preferences" (profile_data self)) in
  dict_get preferences key default.

Definition update_profile (self : t) (updates : Academics.dict) : bool * t :=
  (true, {| student_id := student_id self;
            profile_data := Academics.update (profile_data self) updates |}).

(** [self.profile_data["preferences"][key] = value]: an item assignment
    with a string key, which only a dict accepts. *)
Definition update_preference (self : t) (key : string) (value : pyval) : result (bool * t) :=
  let data := Academics.set_default "preferences" (PDict []) (profile_data self) in
  let* preferences := subscript (PDict data) "preferences" in
  match preferences with
  | PDict items =>
      Ok (true, {| student_id := student_id self;
                   profile_data :=
                     assoc_set "preferences" (PDict (assoc_set key value items)) data |})
  | _ => Raise TypeError
  end.

Definition to_dict (self : t) : Academics.dict := profile_data self.

End StudentProfile.

(** ** ai_advisor.py *)
Module GroqAdvisor.
Import Py.

Definition mental_keywords : list string :=
  ["stress"; "anxiety"; "depression"; "mental health"; "feeling"; "overwhelmed"; "sleep";
   "lonely"; "sad"; "tired"; "exhausted"; "pressure"; "bullying"].

Definition academic_keywords : list string :=
  ["study"; "exam"; "grade"; "class"; "course"; "assignment"; "professor"; "lecture";
   "gpa"; "cgpa"; "attendance"; "project"; "learning"; "semester"].

Definition career_keywords : list string :=
  ["job"; "intern"; "resume"; "interview"; "skill"; "placement"; "company"; "industry";
   "salary"; "profession"; "career"; "opportunity"].

Definition financial_keywords : list string :=
  ["money"; "loan"; "scholarship"; "fee"; "stipend"; "budget"; "expense"; "cost";
   "payment"; "financial"; "fund"; "saving"; "bank"; "rupee"; "rs"].

(** [sum(1 for word in keywords if word in query_lower)] *)
Definition matches (keywords : list string) (query_lower : string) : Z :=
  Z.of_nat (List.length (List.filter (fun word => str_contains word query_lower) keywords)).

Definition classify_query_domain (query : string) : string :=
  let query_lower := lower query in
  let counts :=
    [("mental_health", matches mental_keywords query_lower);
     ("academic", matches academic_keywords query_lower);
     ("career", matches career_keywords query_lower);
     ("financial", matches financial_keywords query_lower)] in
  match counts with
  | [] => ""
  | first :: rest => fst (max_from (fun a b => snd a <? snd b) first rest)
  end.

End GroqAdvisor.

(** * Properties *)

Local Open Scope list_scope.

(** ** Sums and sorting *)

Lemma fold_left_Qplus_acc (l : list Q) (a : Q) :
  (fold_left Qplus l a == a + fold_left Qplus l 0)%Q.
Proof.
  revert a. induction l as [|x l IH]; intros a; simpl.
  - ring.
  - rewrite (IH (a + x)%Q), (IH (0 + x)%Q). ring.
Qed.

Lemma sum_cons (x : Q) (l : list Q) : (Py.sum (x :: l) == x + Py.sum l)%Q.
Proof.
  unfold Py.sum. simpl. rewrite fold_left_Qplus_acc. ring.
Qed.

Lemma sum_app (l1 l2 : list Q) : (Py.sum (l1 ++ l2) == Py.sum l1 + Py.sum l2)%Q.
Proof.
  induction l1 as [|x l1 IH]; simpl.
  - unfold Py.sum at 2. simpl. ring.
  - rewrite !sum_cons, IH. ring.
Qed.


Lemma Qltb_lt (a b : Q) : Py.Qltb a b = true <-> (a < b)%Q.
Proof.
  unfold Py.Qltb. rewrite negb_true_iff. split.
  - intros H. apply Qnot_le_lt. intros Hle.
    apply Qle_bool_iff in Hle. congruence.
  - intros H. destruct (Qle_bool b a) eqn:E; [|reflexivity].
    apply Qle_bool_iff in E. exfalso. apply (Qlt_not_le _ _ H E).
Qed.

Lemma Qltb_ge (a b : Q) : Py.Qltb a b = false <-> (b <= a)%Q.
Proof.
  unfold Py.Qltb. rewrite negb_false_iff. apply Qle_bool_iff.
Qed.

Lemma Qeqb_eq (a b : Q) : Py.Qeqb a b = true <-> (a == b)%Q.
Proof. apply Qeq_bool_iff. Qed.

Lemma Qeqb_neq (a b : Q) : Py.Qeqb a b = false <-> ~ (a == b)%Q.
Proof.
  unfold Py.Qeqb. split.
  - intros H E. apply Qeq_bool_iff in E. congruence.
  - intros H. destruct (Qeq_bool a b) eqn:E; [|reflexivity].
    apply Qeq_bool_iff in E. contradiction.
Qed.

Section SortingFacts.
Context {A : Type} (key : A -> Z).

Lemma insert_Permutation (x : A) (l : list A) :
  Permutation (Py.insert Z.leb key x l) (x :: l).
Proof.
  induction l as [|y r IH]; simpl.
  - apply Permutation_refl.
  - destruct (Z.leb (key x) (key y)).
    + apply Permutation_refl.
    + apply Permutation_trans with (y :: x :: r).
      * apply perm_skip, IH.
      * apply perm_swap.
Qed.

Lemma sorted_Permutation (l : list A) : Permutation (Py.sorted Z.leb key l) l.
Proof.
  induction l as [|x r IH]; simpl.
  - apply perm_nil.
  - apply Permutation_trans with (x :: Py.sorted Z.leb key r).
    + apply insert_Permutation.
    + apply perm_skip, IH.
Qed.

Lemma insert_ascending (x : A) (l : list A) :
  StronglySorted (fun a b => key a <= key b) l ->
  StronglySorted (fun a b => key a <= key b) (Py.insert Z.leb key x l).
Proof.
  induction 1 as [|y r Hr IH Hy]; simpl.
  - repeat constructor.
  - destruct (Z.leb (key x) (key y)) eqn:E.
    + apply Z.leb_le in E. constructor.
      * constructor; assumption.
      * constructor; [exact E|].
        eapply List.Forall_impl; [|exact Hy]. simpl. intros a Ha. lia.
    + apply Z.leb_gt in E. constructor; [exact IH|].
      apply (Permutation_Forall (Permutation_sym (insert_Permutation x r))).
      constructor; [lia|exact Hy].
Qed.

Lemma sorted_ascending (l : list A) :
  StronglySorted (fun a b => key a <= key b) (Py.sorted Z.leb key l).
Proof.
  induction l as [|x r IH]; simpl.
  - constructor.
  - apply insert_ascending, IH.
Qed.

(** Stability: the elements of any one key keep their order. *)
Lemma insert_stable (k : Z) (x : A) (l : list A) :
  List.filter (fun a => key a =? k) (Py.insert Z.leb key x l)
  = List.filter (fun a => key a =? k) (x :: l).
Proof.
  induction l as [|y r IH]; [reflexivity|].
  simpl. destruct (Z.leb (key x) (key y)) eqn:E; [reflexivity|].
  apply Z.leb_gt in E. simpl. rewrite IH. simpl.
  destruct (key x =? k) eqn:Ex, (key y =? k) eqn:Ey; try reflexivity.
  apply Z.eqb_eq in Ex, Ey. lia.
Qed.

Lemma sorted_stable (k : Z) (l : list A) :
  List.filter (fun a => key a =? k) (Py.sorted Z.leb key l)
  = List.filter (fun a => key a =? k) l.
Proof.
  induction l as [|x r IH]; [reflexivity|].
  simpl Py.sorted. rewrite insert_stable. simpl. rewrite IH. reflexivity.
Qed.

Lemma filter_rev_list (p : A -> bool) (l : list A) :
  List.filter p (rev l) = rev (List.filter p l).
Proof.
  induction l as [|x r IH]; [reflexivity|].
  simpl. rewrite List.filter_app, IH. simpl.
  destruct (p x); simpl; [reflexivity|apply app_nil_r].
Qed.

Lemma sorted_reverse_Permutation (l : list A) :
  Permutation (Py.sorted_reverse Z.leb key l) l.
Proof.
  unfold Py.sorted_reverse.
  apply Permutation_trans with (Py.sorted Z.leb key (rev l)).
  - apply Permutation_sym, Permutation_rev.
  - apply Permutation_trans with (rev l).
    + apply sorted_Permutation.
    + apply Permutation_sym, Permutation_rev.
Qed.

Lemma StronglySorted_snoc (R : A -> A -> Prop) (l : list A) (x : A) :
  StronglySorted R l -> Forall (fun a => R a x) l -> StronglySorted R (l ++ [x]).
Proof.
  induction 1 as [|y r Hr IH Hy]; intros Hall; simpl.
  - repeat constructor.
  - inversion Hall as [|? ? Hyx Hrx]; subst. constructor.
    + apply IH, Hrx.
    + apply Forall_app. split; [exact Hy|]. constructor; [exact Hyx|constructor].
Qed.

Lemma rev_descending (l : list A) :
  StronglySorted (fun a b => key a <= key b) l ->
  StronglySorted (fun a b => key b <= key a) (rev l).
Proof.
  induction 1 as [|x r Hr IH Hx]; simpl.
  - constructor.
  - apply StronglySorted_snoc; [exact IH|]. apply Forall_rev. exact Hx.
Qed.

Lemma sorted_reverse_descending (l : list A) :
  StronglySorted (fun a b => key b <= key a) (Py.sorted_reverse Z.leb key l).
Proof.
  unfold Py.sorted_reverse. apply rev_descending, sorted_ascending.
Qed.

Lemma sorted_reverse_stable (k : Z) (l : list A) :
  List.filter (fun a => key a =? k) (Py.sorted_reverse Z.leb key l)
  = List.filter (fun a => key a =? k) l.
Proof.
  unfold Py.sorted_reverse.
  rewrite filter_rev_list, sorted_stable, filter_rev_list. apply rev_involutive.
Qed.

End SortingFacts.


(** ** Weighted CGPA (academic_tracker.py) *)







Definition semester_of (index : Z) (s c : Q) : AcademicTracker.semester :=
  {| AcademicTracker.semester_name := None;
     AcademicTracker.semester_index := Some index;
     AcademicTracker.sgpa := Some s; AcademicTracker.credits := Some c;
     AcademicTracker.cgpa := None; AcademicTracker.date_added := None |}.

Definition tracker_of (l : list AcademicTracker.semester) : AcademicTracker.t :=
  {| AcademicTracker.student_id := "s1";
     AcademicTracker.data_manager := DataManager.init "data";
     AcademicTracker.performance := l |}.

Definition empty_disk : DataManager.disk :=
  {| DataManager.files := ∅; DataManager.read_only := false |}.




(** ** Current CGPA (academic_tracker.py) *)

Section MaxFrom.
Context {A : Type} (key : A -> Z).

Let ltb (a b : A) : bool := Z.ltb (key a) (key b).

(** [max(l, key=...)] returns the first element of the largest key. *)
Lemma max_from_first (best : A) (l : list A) :
  exists l1 x l2,
    best :: l = l1 ++ x :: l2
    /\ Forall (fun y => key y < key x) l1
    /\ Forall (fun y => key y <= key x) l2
    /\ Py.max_from ltb best l = x.
Proof.
  revert best. induction l as [|y r IH]; intros best.
  - exists [], best, []. repeat constructor.
  - simpl. change (ltb best y) with (Z.ltb (key best) (key y)).
    destruct (Z.ltb (key best) (key y)) eqn:E.
    + apply Z.ltb_lt in E.
      destruct (IH y) as (l1 & x & l2 & Hsplit & H1 & H2 & Hmax).
      exists (best :: l1), x, l2. split; [simpl; congruence|].
      split; [|split; assumption].
      constructor; [|exact H1].
      destruct l1 as [|z l1]; simpl in Hsplit.
      * injection Hsplit as -> _. exact E.
      * injection Hsplit as -> _. inversion H1; subst. lia.
    + apply Z.ltb_ge in E.
      destruct (IH best) as (l1 & x & l2 & Hsplit & H1 & H2 & Hmax).
      destruct l1 as [|z l1]; simpl in Hsplit.
      * injection Hsplit as <- <-.
        exists [], best, (y :: r). split; [reflexivity|].
        split; [constructor|]. split; [|exact Hmax].
        constructor; [exact E|exact H2].
      * injection Hsplit as <- ->.
        exists (best :: y :: l1), x, l2. split; [reflexivity|].
        inversion H1; subst.
        split; [|split; assumption].
        constructor; [assumption|]. constructor; [lia|assumption].
Qed.

(** A strict maximum is returned wherever it stands. *)
Lemma max_from_strict (best : A) (l a b : list A) (x : A) :
  best :: l = a ++ x :: b ->
  Forall (fun y => key y < key x) (a ++ b) ->
  Py.max_from ltb best l = x.
Proof.
  intros Hsplit Hlt.
  destruct (max_from_first best l) as (l1 & m & l2 & Hsplit' & H1 & H2 & Hmax).
  rewrite Hmax. rewrite Hsplit in Hsplit'.
  assert (Hxm : key x <= key m).
  { assert (Hin : In x (l1 ++ m :: l2)).
    { rewrite <- Hsplit'. apply in_elt. }
    apply in_app_or in Hin. destruct Hin as [Hin|[->|Hin]].
    - rewrite List.Forall_forall in H1. specialize (H1 _ Hin). lia.
    - lia.
    - rewrite List.Forall_forall in H2. apply H2, Hin. }
  assert (Hm : In m (a ++ x :: b)).
  { rewrite Hsplit'. apply in_elt. }
  apply in_app_or in Hm. rewrite List.Forall_forall in Hlt.
  destruct Hm as [Hm|[->|Hm]]; [|reflexivity|].
  - specialize (Hlt m (in_or_app _ _ _ (or_introl Hm))). lia.
  - specialize (Hlt m (in_or_app _ _ _ (or_intror Hm))). lia.
Qed.

End MaxFrom.

(** C7, as the code has it: for a non-empty performance list the result
    is the [cgpa] field ([0.0] when absent) of the first entry, in list
    order, among those of the largest [semester_index] (an absent index
    counts as [0]); when a single entry has the largest index the result
    is the same for every order of the list. *)
Theorem get_current_cgpa_first_maximum (self : AcademicTracker.t) :
  AcademicTracker.performance self <> [] ->
  exists l1 x l2,
    AcademicTracker.performance self = l1 ++ x :: l2
    /\ Forall (fun y => AcademicTracker.index_key y < AcademicTracker.index_key x) l1
    /\ Forall (fun y => AcademicTracker.index_key y <= AcademicTracker.index_key x) l2
    /\ AcademicTracker.get_current_cgpa self = Py.get_or 0%Q (AcademicTracker.cgpa x)
    /\ (Forall (fun y => AcademicTracker.index_key y < AcademicTracker.index_key x) l2 ->
        forall reordered,
          Permutation (AcademicTracker.performance self) reordered ->
          AcademicTracker.get_current_cgpa (AcademicTracker.set_performance self reordered)
          = Py.get_or 0%Q (AcademicTracker.cgpa x)).
Proof.
  intros Hne. unfold AcademicTracker.get_current_cgpa.
  destruct (AcademicTracker.performance self) as [|best l] eqn:Ep; [congruence|].
  destruct (max_from_first AcademicTracker.index_key best l)
    as (l1 & x & l2 & Hsplit & H1 & H2 & Hmax).
  exists l1, x, l2. split; [exact Hsplit|]. split; [exact H1|]. split; [exact H2|].
  split; [rewrite Hmax; reflexivity|].
  intros H2' reordered Hperm. simpl.
  rewrite Hsplit in Hperm.
  assert (Hin : In x reordered).
  { eapply Permutation_in; [exact Hperm|]. apply in_elt. }
  destruct (in_split _ _ Hin) as (a & b & ->).
  apply Permutation_app_inv in Hperm.
  assert (Hlt : Forall (fun y => AcademicTracker.index_key y < AcademicTracker.index_key x)
                       (a ++ b)).
  { apply (Permutation_Forall Hperm). apply Forall_app. split; assumption. }
  destruct a as [|a0 a]; simpl.
  - rewrite (max_from_strict AcademicTracker.index_key x b [] b x eq_refl Hlt).
    reflexivity.
  - rewrite (max_from_strict AcademicTracker.index_key a0 (a ++ x :: b) (a0 :: a) b x
               eq_refl Hlt).
    reflexivity.
Qed.

Definition entry_with_cgpa (index : Z) (s c v : Q) : AcademicTracker.semester :=
  AcademicTracker.set_cgpa (semester_of index s c) v.

(** The example of the specification: indices 1, 2, 3 with cgpa 7.8,
    8.1, 8.4, stored out of order. *)
Definition out_of_order : list AcademicTracker.semester :=
  [entry_with_cgpa 2 (84 # 10) 20 (81 # 10); entry_with_cgpa 3 9 20 (84 # 10);
   entry_with_cgpa 1 (78 # 10) 20 (78 # 10)].

Lemma get_current_cgpa_first_maximum_witness :
  AcademicTracker.get_current_cgpa (tracker_of out_of_order) = (84 # 10)%Q
  /\ AcademicTracker.get_current_cgpa (tracker_of (rev out_of_order)) = (84 # 10)%Q.
Proof.
  destruct (get_current_cgpa_first_maximum (tracker_of out_of_order))
    as (l1 & x & l2 & Hsplit & H1 & H2 & Hmax & Hany).
  - discriminate.
  - split; [reflexivity|].
    destruct l1 as [|a [|b l1]]; simpl in Hsplit.
    + injection Hsplit as <- <-. inversion H2 as [|? ? Hle]; subst.
      vm_compute in Hle. contradiction.
    + injection Hsplit as <- <- <-.
      apply (Hany ltac:(repeat constructor) (rev out_of_order)).
      apply Permutation_rev.
    + injection Hsplit as <- <- Hrest.
      inversion H1 as [|? ? _ Hb]; subst. inversion Hb as [|? ? Hlt _]; subst.
      destruct l1; simpl in Hrest.
      * injection Hrest as <- <-. vm_compute in Hlt. discriminate.
      * injection Hrest as _ Hnil. destruct l1; discriminate.
Defined.

(** ** Two entries of the same [semester_index]: the user left the
    semester number of the form at its default for both. *)
Definition tied_first : AcademicTracker.semester := entry_with_cgpa 1 8 20 8.
Definition tied_second : AcademicTracker.semester := entry_with_cgpa 1 6 20 7.

(** The result then depends on the order of the list. *)
Lemma get_current_cgpa_tie_depends_on_order :
  Permutation [tied_first; tied_second] [tied_second; tied_first]
  /\ AcademicTracker.get_current_cgpa (tracker_of [tied_first; tied_second]) = 8%Q
  /\ AcademicTracker.get_current_cgpa (tracker_of [tied_second; tied_first]) = 7%Q
  /\ AcademicTracker.get_current_cgpa (tracker_of [tied_first; tied_second])
     <> AcademicTracker.get_current_cgpa (tracker_of [tied_second; tied_first]).
Proof.
  split; [apply perm_swap|]. split; [reflexivity|]. split; [reflexivity|].
  vm_compute. discriminate.
Qed.

(** ** The [data] attribute of the data manager (data_manager.py) *)

Lemma init_has_no_data (data_dir : string) :
  DataManager.getattr (DataManager.init data_dir) "data" = Py.Raise (Py.AttributeError "data").
Proof.
  unfold DataManager.getattr, DataManager.init. simpl.
  rewrite lookup_singleton_ne; [reflexivity|discriminate].
Qed.

Lemma get_data_of_init (data_dir student_id data_type : string) (default : Py.pyval) :
  DataManager.get_data (DataManager.init data_dir) student_id data_type default = default.
Proof.
  unfold DataManager.get_data. rewrite init_has_no_data. reflexivity.
Qed.

(** A planner saving one transaction after the other. *)
Fixpoint add_all (fp : FinancialPlanner.t)
    (stored : list (FinancialPlanner.transaction * string * env))
    (d : DataManager.disk) : FinancialPlanner.t * DataManager.disk :=
  match stored with
  | [] => (fp, d)
  | (x, uuid, e) :: r =>
      let '(_, fp', d') := FinancialPlanner.add_transaction fp x uuid e d in
      add_all fp' r d'
  end.

Lemma add_transaction_keeps_manager fp x uuid e d :
  FinancialPlanner.data_manager (snd (fst (FinancialPlanner.add_transaction fp x uuid e d)))
  = FinancialPlanner.data_manager fp.
Proof.
  unfold FinancialPlanner.add_transaction.
  destruct (DataManager.save_data _ _ _ _ _ d). reflexivity.
Qed.

Lemma add_all_keeps_manager stored : forall fp d,
  FinancialPlanner.data_manager (fst (add_all fp stored d))
  = FinancialPlanner.data_manager fp.
Proof.
  induction stored as [|[[x uuid] e] r IH]; intros fp d; [reflexivity|].
  simpl. pose proof (add_transaction_keeps_manager fp x uuid e d) as Hk.
  destruct (FinancialPlanner.add_transaction fp x uuid e d) as [[ok fp'] d'].
  simpl in Hk. rewrite IH. exact Hk.
Qed.

Lemma no_transactions_of_init (fp : FinancialPlanner.t) (data_dir : string) :
  FinancialPlanner.data_manager fp = DataManager.init data_dir ->
  FinancialPlanner.get_all_transactions fp = Py.PList []
  /\ FinancialPlanner.get_expenses_by_category fp = Py.PList [].
Proof.
  intros Hdm.
  assert (Hall : FinancialPlanner.get_all_transactions fp = Py.PList []).
  { unfold FinancialPlanner.get_all_transactions. rewrite Hdm.
    simpl. apply get_data_of_init. }
  split; [exact Hall|].
  unfold FinancialPlanner.get_expenses_by_category. rewrite Hall. reflexivity.
Qed.

(** The transactions do reach the disk: after a successful save the
    document holds the whole list. *)
Lemma add_transaction_is_stored (data_dir sid : string) txs budget x uuid e d :
  DataManager.read_only d = false ->
  let fp := {| FinancialPlanner.student_id := sid;
               FinancialPlanner.data_manager := DataManager.init data_dir;
               FinancialPlanner.transactions := txs;
               FinancialPlanner.budget := budget |} in
  let '(ok, fp', d') := FinancialPlanner.add_transaction fp x uuid e d in
  ok = true
  /\ DataManager.load_data (DataManager.init data_dir) sid "financial" "transactions" d'
     = Py.PList (map FinancialPlanner.transaction_to_json (FinancialPlanner.transactions fp')).
Proof.
  intros Hrw. simpl.
  unfold FinancialPlanner.add_transaction, DataManager.save_data, DataManager.load_data,
    DataManager.data_dir_of, DataManager.getattr, DataManager.init.
  simpl. rewrite lookup_singleton_eq. simpl. rewrite Hrw. simpl.
  split; [reflexivity|]. rewrite lookup_insert_eq. reflexivity.
Qed.

(** C10: [get_data] of a constructed data manager returns its default,
    for every student id and data type; so [get_all_transactions] and
    [get_expenses_by_category] return the empty list, whatever
    transactions were saved before and whatever the disk holds. *)
Theorem get_data_returns_default
    (data_dir student_id data_type : string) (default : Py.pyval)
    (budget : list (string * Q))
    (stored : list (FinancialPlanner.transaction * string * env))
    (d : DataManager.disk) :
  DataManager.get_data (DataManager.init data_dir) student_id data_type default = default
  /\ FinancialPlanner.get_all_transactions
       (fst (add_all {| FinancialPlanner.student_id := student_id;
                        FinancialPlanner.data_manager := DataManager.init data_dir;
                        FinancialPlanner.transactions := [];
                        FinancialPlanner.budget := budget |} stored d))
     = Py.PList []
  /\ FinancialPlanner.get_expenses_by_category
       (fst (add_all {| FinancialPlanner.student_id := student_id;
                        FinancialPlanner.data_manager := DataManager.init data_dir;
                        FinancialPlanner.transactions := [];
                        FinancialPlanner.budget := budget |} stored d))
     = Py.PList [].
Proof.
  split; [apply get_data_of_init|].
  apply (no_transactions_of_init _ data_dir).
  rewrite add_all_keeps_manager. reflexivity.
Qed.

(** ** Budget adherence (financial_planner.py) *)

Lemma assoc_set_sum (c : string) (w : Q) (sp : list (string * Q)) :
  (Py.sum (map snd (Py.assoc_set c w sp))
   == Py.sum (map snd sp) - Py.get_or 0 (Py.assoc c sp) + w)%Q.
Proof.
  induction sp as [|[k v] r IH]; simpl.
  - rewrite sum_cons. unfold Py.sum. simpl. ring.
  - destruct (String.eqb c k); simpl.
    + rewrite !sum_cons. simpl. ring.
    + rewrite !sum_cons, IH. simpl. ring.
Qed.

Lemma add_to_sum (c : string) (a : Q) (sp : list (string * Q)) :
  (Py.sum (map snd (FinancialPlanner.add_to c a sp)) == Py.sum (map snd sp) + a)%Q.
Proof.
  unfold FinancialPlanner.add_to.
  destruct (Py.assoc c sp) as [v|] eqn:E; rewrite assoc_set_sum, E; simpl; ring.
Qed.

Lemma fold_add_to_sum (l : list FinancialPlanner.transaction) :
  forall sp : list (string * Q),
    (Py.sum (map snd
       (fold_left
          (fun spending x =>
             FinancialPlanner.add_to (Py.get_or "Other"%string (FinancialPlanner.category x))
               (Qabs (Py.get_or 0%Q (FinancialPlanner.amount x))) spending)
          l sp))
     == Py.sum (map snd sp)
        + Py.sum (map (fun x => Qabs (Py.get_or 0%Q (FinancialPlanner.amount x))) l))%Q.
Proof.
  induction l as [|x r IH]; intros sp; simpl.
  - unfold Py.sum at 3. simpl. ring.
  - rewrite IH, add_to_sum, sum_cons. ring.
Qed.

(** The expenses the code counts: a negative amount and a date string
    not below the first instant of the current month. *)
Definition counted (e : env) (x : FinancialPlanner.transaction) : bool :=
  String.leb (FinancialPlanner.month_start (now e))
             (Py.get_or ""%string (FinancialPlanner.date x))
  && Py.Qltb (Py.get_or 0%Q (FinancialPlanner.amount x)) 0.

Definition total_counted (self : FinancialPlanner.t) (e : env) : Q :=
  Py.sum (map (fun x => Qabs (Py.get_or 0%Q (FinancialPlanner.amount x)))
              (List.filter (counted e) (FinancialPlanner.transactions self))).

Definition total_budget (self : FinancialPlanner.t) : Q :=
  Py.sum (map snd (FinancialPlanner.budget self)).

Lemma actual_spending_total (self : FinancialPlanner.t) (e : env) :
  (Py.sum (map snd (FinancialPlanner.get_actual_spending self e)) == total_counted self e)%Q.
Proof.
  unfold FinancialPlanner.get_actual_spending, total_counted.
  rewrite fold_add_to_sum.
  change (Py.sum (map snd (@nil (string * Q)))) with 0%Q. apply Qplus_0_l.
Qed.

Lemma max2_compat (a b b' : Q) : (b == b')%Q -> (Py.max2 a b == Py.max2 a b')%Q.
Proof.
  intros H. unfold Py.max2.
  destruct (Py.Qltb a b) eqn:E1, (Py.Qltb a b') eqn:E2; try assumption; try reflexivity.
  - apply Qltb_lt in E1. apply Qltb_ge in E2. rewrite H in E1.
    exfalso. apply (Qlt_not_le _ _ E1 E2).
  - apply Qltb_ge in E1. apply Qltb_lt in E2. rewrite <- H in E2.
    exfalso. apply (Qlt_not_le _ _ E2 E1).
Qed.

Lemma min2_compat (a b b' : Q) : (b == b')%Q -> (Py.min2 a b == Py.min2 a b')%Q.
Proof.
  intros H. unfold Py.min2.
  destruct (Py.Qltb b a) eqn:E1, (Py.Qltb b' a) eqn:E2; try assumption; try reflexivity.
  - apply Qltb_lt in E1. apply Qltb_ge in E2. rewrite H in E1.
    exfalso. apply (Qlt_not_le _ _ E1 E2).
  - apply Qltb_ge in E1. apply Qltb_lt in E2. rewrite <- H in E2.
    exfalso. apply (Qlt_not_le _ _ E2 E1).
Qed.

(** What [get_budget_adherence] computes: never an exception; [0] for
    an empty budget or a zero budget total; otherwise the clamped
    percentage of the budget total left by the counted expenses. *)
Lemma budget_adherence_formula (self : FinancialPlanner.t) (e : env) :
  exists v : Q,
    FinancialPlanner.get_budget_adherence self e = Py.Ok v
    /\ (FinancialPlanner.budget self = [] -> v = 0%Q)
    /\ ((total_budget self == 0)%Q -> v = 0%Q)
    /\ (FinancialPlanner.budget self <> [] -> ~ (total_budget self == 0)%Q ->
        (v == Py.max2 0 (Py.min2 100
                ((1 - total_counted self e / total_budget self) * 100)))%Q)
    /\ (FinancialPlanner.budget self <> [] -> ~ (total_budget self == 0)%Q ->
        (total_counted self e == 0)%Q -> (v == 100)%Q).
Proof.
  unfold FinancialPlanner.get_budget_adherence. fold (total_budget self).
  destruct (FinancialPlanner.budget self) as [|b bs] eqn:Eb.
  - exists 0%Q. split; [reflexivity|]. repeat split; intros; congruence.
  - destruct (Py.Qeqb (total_budget self) 0) eqn:Ez.
    + apply Qeqb_eq in Ez. exists 0%Q. split; [reflexivity|].
      split; [reflexivity|]. split; [reflexivity|]. split; intros; contradiction.
    + unfold Py.truediv. rewrite Ez. apply Qeqb_neq in Ez. simpl.
      eexists. split; [reflexivity|].
      split; [discriminate|]. split; [intros; contradiction|].
      assert (Hf : (Py.max2 0 (Py.min2 100
                 ((1 - Py.sum (map snd (FinancialPlanner.get_actual_spending self e))
                       / total_budget self) * 100))
               == Py.max2 0 (Py.min2 100
                 ((1 - total_counted self e / total_budget self) * 100)))%Q).
      { apply max2_compat, min2_compat. rewrite actual_spending_total. reflexivity. }
      split; [intros _ _; exact Hf|].
      intros _ _ Hzero. rewrite Hf.
      rewrite (max2_compat 0 _ 100); [reflexivity|].
      rewrite (min2_compat 100 _ 100); [reflexivity|].
      rewrite Hzero. field. exact Ez.
Qed.

(** A date string lies in the calendar month of [t] when it starts with
    the year and month of [t]. *)
Definition within_current_month (t : Datetime.datetime) (d : string) : bool :=
  String.prefix (Datetime.zero_padded 4 (Datetime.year t) ++ "-"
                 ++ Datetime.zero_padded 2 (Datetime.month t))%string d.

(** The total of the claim: the expenses dated within the current
    calendar month. *)
Definition total_spent_in_month (self : FinancialPlanner.t) (e : env) : Q :=
  Py.sum (map (fun x => Qabs (Py.get_or 0%Q (FinancialPlanner.amount x)))
              (List.filter
                 (fun x => within_current_month (now e)
                             (Py.get_or ""%string (FinancialPlanner.date x))
                           && Py.Qltb (Py.get_or 0%Q (FinancialPlanner.amount x)) 0)
                 (FinancialPlanner.transactions self))).

(** A budget of 1000 for food and one expense of 500, dated in May, seen
    on the 15th of April. *)
Definition may_expense_planner : FinancialPlanner.t :=
  {| FinancialPlanner.student_id := "s1";
     FinancialPlanner.data_manager := DataManager.init "data";
     FinancialPlanner.transactions :=
       [{| FinancialPlanner.transaction_id := None; FinancialPlanner.created_at := None;
           FinancialPlanner.date := Some "2025-05-03"%string;
           FinancialPlanner.amount := Some (-500)%Q;
           FinancialPlanner.description := None;
           FinancialPlanner.category := Some "Food"%string |}];
     FinancialPlanner.budget := [("Food"%string, 1000%Q)] |}.

Definition mid_april : env := {| now := Datetime.make 2025 4 15; rng := [] |}.

(** C2 at that input: nothing was spent within April, so the claim gives
    100, but the code counts the expense of May and returns 50. *)
Theorem get_budget_adherence_counts_later_months :
  (exists v : Q,
     FinancialPlanner.get_budget_adherence may_expense_planner mid_april = Py.Ok v
     /\ (v == 50)%Q)
  /\ (total_spent_in_month may_expense_planner mid_april == 0)%Q
  /\ (Py.max2 0 (Py.min2 100
        ((1 - total_spent_in_month may_expense_planner mid_april
              / total_budget may_expense_planner) * 100)) == 100)%Q.
Proof.
  split; [|split].
  - eexists. split; [vm_compute; reflexivity|]. reflexivity.
  - reflexivity.
  - reflexivity.
Qed.

(** ** Sample data for empty collections (financial_planner.py,
    mental_wellness.py) *)

(** C8, as the code has it: on a non-empty stored collection
    [get_recent_transactions] and [get_mood_history] return the same
    list whatever the clock and the random generator are, and leave the
    generator untouched. *)
Theorem history_of_stored_records
    (fp : FinancialPlanner.t) (mw : MentalWellnessCoach.t) (limit : Z) (e1 e2 : env) :
  (FinancialPlanner.transactions fp <> [] ->
   FinancialPlanner.get_recent_transactions fp limit e1
   = (fst (FinancialPlanner.get_recent_transactions fp limit e2), rng e1))
  /\ (MentalWellnessCoach.mood_entries mw <> [] ->
      MentalWellnessCoach.get_mood_history mw e1
      = (fst (MentalWellnessCoach.get_mood_history mw e2), rng e1)).
Proof.
  split; intros Hne.
  - unfold FinancialPlanner.get_recent_transactions.
    destruct (FinancialPlanner.transactions fp); [congruence|reflexivity].
  - unfold MentalWellnessCoach.get_mood_history.
    destruct (MentalWellnessCoach.mood_entries mw); [congruence|reflexivity].
Qed.

Definition one_mood_entry : MentalWellnessCoach.mood_entry :=
  {| MentalWellnessCoach.entry_id := None; MentalWellnessCoach.created_at := None;
     MentalWellnessCoach.date := Some "2025-04-14"%string;
     MentalWellnessCoach.score := Some 7%Q;
     MentalWellnessCoach.stress_factors := None;
     MentalWellnessCoach.sleep_hours := None |}.

Definition coach_of (l : list MentalWellnessCoach.mood_entry) : MentalWellnessCoach.t :=
  {| MentalWellnessCoach.student_id := "s1";
     MentalWellnessCoach.data_manager := DataManager.init "data";
     MentalWellnessCoach.mood_entries := l |}.

Definition planner_of (l : list FinancialPlanner.transaction) : FinancialPlanner.t :=
  {| FinancialPlanner.student_id := "s1";
     FinancialPlanner.data_manager := DataManager.init "data";
     FinancialPlanner.transactions := l; FinancialPlanner.budget := [] |}.

Lemma history_of_stored_records_witness :
  FinancialPlanner.get_recent_transactions may_expense_planner 10
    {| now := Datetime.make 2025 4 15; rng := [3; 1; 4] |}
  = (FinancialPlanner.transactions may_expense_planner, [3; 1; 4])
  /\ MentalWellnessCoach.get_mood_history (coach_of [one_mood_entry])
       {| now := Datetime.make 2025 4 15; rng := [3; 1; 4] |}
     = ([{| MentalWellnessCoach.point_date := "2025-04-14"%string;
            MentalWellnessCoach.point_score := 7%Q |}], [3; 1; 4]).
Proof.
  destruct (history_of_stored_records may_expense_planner (coach_of [one_mood_entry]) 10
              {| now := Datetime.make 2025 4 15; rng := [3; 1; 4] |} mid_april)
    as [Hrecent Hmood].
  split.
  - rewrite Hrecent; [reflexivity|discriminate].
  - rewrite Hmood; [reflexivity|discriminate].
Defined.

(** With nothing stored, the same stored state and the same clock give
    different lists when the generator differs, and the generator is
    consumed. *)
Lemma sample_history_depends_on_generator :
  fst (MentalWellnessCoach.get_mood_history (coach_of [])
         {| now := Datetime.make 2025 4 15; rng := [0] |})
  <> fst (MentalWellnessCoach.get_mood_history (coach_of [])
            {| now := Datetime.make 2025 4 15; rng := [1] |})
  /\ fst (FinancialPlanner.get_recent_transactions (planner_of []) 10
            {| now := Datetime.make 2025 4 15; rng := [0; 7] |})
     <> fst (FinancialPlanner.get_recent_transactions (planner_of []) 10
               {| now := Datetime.make 2025 4 15; rng := [0; 8] |})
  /\ snd (MentalWellnessCoach.get_mood_history (coach_of [])
            {| now := Datetime.make 2025 4 15; rng := [0; 1; 2] |})
     <> [0; 1; 2].
Proof.
  split; [|split].
  - intros H.
    apply (f_equal (fun l => option_map MentalWellnessCoach.point_score (hd_error l))) in H.
    vm_compute in H. discriminate.
  - intros H.
    apply (f_equal (fun l => option_map FinancialPlanner.amount (nth_error l 1))) in H.
    vm_compute in H. discriminate.
  - vm_compute. discriminate.
Qed.

(** ** Recommendations (prediction_engine.py) *)

Definition no_documents : PredictiveEngine.documents :=
  {| PredictiveEngine.tasks := []; PredictiveEngine.performance := [];
     PredictiveEngine.study_hours := []; PredictiveEngine.transactions := [];
     PredictiveEngine.budget := []; PredictiveEngine.financial_aid := [];
     PredictiveEngine.financial_goals := []; PredictiveEngine.mood := [];
     PredictiveEngine.sleep := [];
     PredictiveEngine.career_data := {| PredictiveEngine.interests := None |};
     PredictiveEngine.skills := []; PredictiveEngine.experiences := [] |}.

Definition with_tasks (l : list PredictiveEngine.task) (docs : PredictiveEngine.documents)
  : PredictiveEngine.documents :=
  {| PredictiveEngine.tasks := l;
     PredictiveEngine.performance := PredictiveEngine.performance docs;
     PredictiveEngine.study_hours := PredictiveEngine.study_hours docs;
     PredictiveEngine.transactions := PredictiveEngine.transactions docs;
     PredictiveEngine.budget := PredictiveEngine.budget docs;
     PredictiveEngine.financial_aid := PredictiveEngine.financial_aid docs;
     PredictiveEngine.financial_goals := PredictiveEngine.financial_goals docs;
     PredictiveEngine.mood := PredictiveEngine.mood docs;
     PredictiveEngine.sleep := PredictiveEngine.sleep docs;
     PredictiveEngine.career_data := PredictiveEngine.career_data docs;
     PredictiveEngine.skills := PredictiveEngine.skills docs;
     PredictiveEngine.experiences := PredictiveEngine.experiences docs |}.

Definition with_performance (l : list AcademicTracker.semester)
    (docs : PredictiveEngine.documents) : PredictiveEngine.documents :=
  {| PredictiveEngine.tasks := PredictiveEngine.tasks docs;
     PredictiveEngine.performance := l;
     PredictiveEngine.study_hours := PredictiveEngine.study_hours docs;
     PredictiveEngine.transactions := PredictiveEngine.transactions docs;
     PredictiveEngine.budget := PredictiveEngine.budget docs;
     PredictiveEngine.financial_aid := PredictiveEngine.financial_aid docs;
     PredictiveEngine.financial_goals := PredictiveEngine.financial_goals docs;
     PredictiveEngine.mood := PredictiveEngine.mood docs;
     PredictiveEngine.sleep := PredictiveEngine.sleep docs;
     PredictiveEngine.career_data := PredictiveEngine.career_data docs;
     PredictiveEngine.skills := PredictiveEngine.skills docs;
     PredictiveEngine.experiences := PredictiveEngine.experiences docs |}.

(** A task due on the given day, with or without its course code. *)
Definition task_due (due : string) (code : option string) : PredictiveEngine.task :=
  {| PredictiveEngine.due_date := Some due; PredictiveEngine.status := Some "pending"%string;
     PredictiveEngine.task_type := Some "Assignment"%string;
     PredictiveEngine.task_title := Some "Problem set"%string;
     PredictiveEngine.course_code := code |}.

Definition april_15 : Datetime.datetime := Datetime.make 2025 4 15.

(** C5, as the code has it: when the cache is not used, the exception of
    the first generator that raises, in the order academic, financial,
    wellness, career, is raised by [get_personalized_recommendations];
    nothing of the other generators is returned. *)
Theorem generator_failure_propagates
    (self : PredictiveEngine.t) (docs : PredictiveEngine.documents)
    (now : Datetime.datetime) (e : Py.exn) :
  PredictiveEngine.cache_is_recent self now = false ->
  PredictiveEngine._generate_academic_recommendations docs now = Py.Raise e
  \/ (Py.is_ok (PredictiveEngine._generate_academic_recommendations docs now) = true
      /\ PredictiveEngine._generate_financial_recommendations docs now = Py.Raise e)
  \/ (Py.is_ok (PredictiveEngine._generate_academic_recommendations docs now) = true
      /\ Py.is_ok (PredictiveEngine._generate_financial_recommendations docs now) = true
      /\ PredictiveEngine._generate_wellness_recommendations docs now = Py.Raise e)
  \/ (Py.is_ok (PredictiveEngine._generate_academic_recommendations docs now) = true
      /\ Py.is_ok (PredictiveEngine._generate_financial_recommendations docs now) = true
      /\ Py.is_ok (PredictiveEngine._generate_wellness_recommendations docs now) = true
      /\ PredictiveEngine._generate_career_recommendations self docs = Py.Raise e) ->
  PredictiveEngine.get_personalized_recommendations self docs now = Py.Raise e.
Proof.
  intros Hcache Hfail. unfold PredictiveEngine.get_personalized_recommendations.
  rewrite Hcache.
  destruct Hfail as [Ha|[[Ha Hf]|[(Ha & Hf & Hw)|(Ha & Hf & Hw & Hc)]]].
  - rewrite Ha. reflexivity.
  - destruct (PredictiveEngine._generate_academic_recommendations docs now);
      [|discriminate]. simpl. rewrite Hf. reflexivity.
  - destruct (PredictiveEngine._generate_academic_recommendations docs now);
      [|discriminate].
    destruct (PredictiveEngine._generate_financial_recommendations docs now);
      [|discriminate]. simpl. rewrite Hw. reflexivity.
  - destruct (PredictiveEngine._generate_academic_recommendations docs now);
      [|discriminate].
    destruct (PredictiveEngine._generate_financial_recommendations docs now);
      [|discriminate].
    destruct (PredictiveEngine._generate_wellness_recommendations docs now);
      [|discriminate]. simpl. rewrite Hc. reflexivity.
Qed.

(** One task due in two days whose record has no course code. *)
Lemma generator_failure_propagates_witness :
  PredictiveEngine.get_personalized_recommendations
    (PredictiveEngine.init "s1" (Some {| PredictiveEngine.year_of_study := None |}))
    (with_tasks [task_due "2025-04-17" None] no_documents) april_15
  = Py.Raise (Py.KeyError "course_code").
Proof.
  apply generator_failure_propagates.
  - reflexivity.
  - left. vm_compute. reflexivity.
Defined.

(** An engine built for a student whose profile could not be loaded, and
    no experience on record: the financial and wellness generators have
    recommendations, the career generator raises, and so does the call. *)
Lemma missing_profile_raises :
  PredictiveEngine._generate_academic_recommendations no_documents april_15 = Py.Ok []
  /\ (exists r l, PredictiveEngine._generate_financial_recommendations no_documents april_15
                  = Py.Ok (r :: l))
  /\ (exists r l, PredictiveEngine._generate_wellness_recommendations no_documents april_15
                  = Py.Ok (r :: l))
  /\ PredictiveEngine._generate_career_recommendations
       (PredictiveEngine.init "s1" None) no_documents
     = Py.Raise (Py.AttributeError "get")
  /\ PredictiveEngine.get_personalized_recommendations
       (PredictiveEngine.init "s1" None) no_documents april_15
     = Py.Raise (Py.AttributeError "get").
Proof.
  split; [reflexivity|]. split; [eexists _, _; reflexivity|].
  split; [eexists _, _; reflexivity|]. split; reflexivity.
Qed.

(** One run of the four generators, in the order of the code. *)
Definition generation (self : PredictiveEngine.t) (docs : PredictiveEngine.documents)
    (now : Datetime.datetime) (l : list PredictiveEngine.recommendation) : Prop :=
  exists a f w c,
    PredictiveEngine._generate_academic_recommendations docs now = Py.Ok a
    /\ PredictiveEngine._generate_financial_recommendations docs now = Py.Ok f
    /\ PredictiveEngine._generate_wellness_recommendations docs now = Py.Ok w
    /\ PredictiveEngine._generate_career_recommendations self docs = Py.Ok c
    /\ l = a ++ f ++ w ++ c.

(** The engines a session can hold: a constructed one, and what a call
    that returned leaves behind. *)
Inductive reachable : PredictiveEngine.t -> Prop :=
| reach_init (id : string) (loaded_profile : option PredictiveEngine.profile) :
    reachable (PredictiveEngine.init id loaded_profile)
| reach_call (self : PredictiveEngine.t) (docs : PredictiveEngine.documents)
    (now : Datetime.datetime) (recs : list PredictiveEngine.recommendation)
    (self' : PredictiveEngine.t) :
    reachable self ->
    PredictiveEngine.get_personalized_recommendations self docs now = Py.Ok (recs, self') ->
    reachable self'.

(** A list is a sorted generation when it is the sort of one run of the
    generators. *)
Definition sorted_generation (l : list PredictiveEngine.recommendation) : Prop :=
  exists s0 docs0 now0 g,
    generation s0 docs0 now0 g
    /\ l = Py.sorted_reverse Z.leb PredictiveEngine.rank g.

Definition cache_generated (self : PredictiveEngine.t) : Prop :=
  match PredictiveEngine.recommendations_cache self with
  | Some l => sorted_generation l
  | None => True
  end.

Lemma get_personalized_recommendations_cases self docs now recs self' :
  PredictiveEngine.get_personalized_recommendations self docs now = Py.Ok (recs, self') ->
  (PredictiveEngine.cache_is_recent self now = true
   /\ PredictiveEngine.recommendations_cache self = Some recs /\ self' = self)
  \/ (PredictiveEngine.cache_is_recent self now = false
      /\ (exists g, generation self docs now g
                    /\ recs = Py.sorted_reverse Z.leb PredictiveEngine.rank g)
      /\ PredictiveEngine.recommendations_cache self' = Some recs).
Proof.
  unfold PredictiveEngine.get_personalized_recommendations.
  destruct (PredictiveEngine.cache_is_recent self now) eqn:Ec.
  - intros H. injection H as <- <-. left. split; [reflexivity|]. split; [|reflexivity].
    unfold PredictiveEngine.cache_is_recent in Ec.
    destruct (PredictiveEngine.recommendations_cache self) as [[|x l]|];
      try discriminate. reflexivity.
  - intros H. right. split; [reflexivity|].
    destruct (PredictiveEngine._generate_academic_recommendations docs now) as [a|] eqn:Ea;
      [|discriminate].
    destruct (PredictiveEngine._generate_financial_recommendations docs now) as [f|] eqn:Ef;
      [|discriminate].
    destruct (PredictiveEngine._generate_wellness_recommendations docs now) as [w|] eqn:Ew;
      [|discriminate].
    destruct (PredictiveEngine._generate_career_recommendations self docs) as [c|] eqn:Eg;
      [|discriminate].
    simpl in H. injection H as <- <-. split; [|reflexivity].
    exists (a ++ f ++ w ++ c). split; [|reflexivity].
    exists a, f, w, c. repeat split; assumption.
Qed.

Lemma reachable_cache_generated self : reachable self -> cache_generated self.
Proof.
  induction 1 as [id p|self docs now recs self' Hr IH Hcall].
  - exact I.
  - apply get_personalized_recommendations_cases in Hcall.
    destruct Hcall as [(_ & _ & ->)|(_ & (g & Hg & ->) & Hcache)]; [exact IH|].
    unfold cache_generated. rewrite Hcache. exists self, docs, now, g.
    split; [exact Hg|reflexivity].
Qed.

(** The priorities the generators assign. *)
Definition known_priority (x : PredictiveEngine.recommendation) : Prop :=
  PredictiveEngine.priority x = Some "high"%string
  \/ PredictiveEngine.priority x = Some "medium"%string
  \/ PredictiveEngine.priority x = Some "low"%string.

Ltac generator_cases H :=
  unfold Py.bind in H;
  repeat match goal with
         | H' : match ?c with _ => _ end = Py.Ok _ |- _ =>
             destruct c eqn:?; try discriminate H'; cbv beta iota in H'
         | H' : (if ?c then _ else _) = Py.Ok _ |- _ =>
             destruct c eqn:?; try discriminate H'; cbv beta iota in H'
         end;
  repeat match goal with
         | H' : Py.Ok _ = Py.Ok _ |- _ => injection H' as <-
         end.

Ltac known_priorities :=
  repeat (apply Forall_app; split);
  repeat match goal with
         | |- Forall _ (if ?c then _ else _) => destruct c
         | |- Forall _ (match ?c with _ => _ end) => destruct c
         end;
  repeat first [apply List.Forall_nil | apply List.Forall_cons];
  unfold known_priority; simpl;
  repeat match goal with |- context [if ?c then _ else _] => destruct c end;
  auto.

Lemma academic_priorities docs now l :
  PredictiveEngine._generate_academic_recommendations docs now = Py.Ok l ->
  Forall known_priority l.
Proof.
  intros H. unfold PredictiveEngine._generate_academic_recommendations in H.
  generator_cases H; known_priorities.
Qed.

Lemma financial_priorities docs now l :
  PredictiveEngine._generate_financial_recommendations docs now = Py.Ok l ->
  Forall known_priority l.
Proof.
  intros H. unfold PredictiveEngine._generate_financial_recommendations in H.
  generator_cases H; known_priorities.
Qed.

Lemma wellness_priorities docs now l :
  PredictiveEngine._generate_wellness_recommendations docs now = Py.Ok l ->
  Forall known_priority l.
Proof.
  intros H. unfold PredictiveEngine._generate_wellness_recommendations in H.
  generator_cases H; known_priorities.
Qed.

Lemma career_priorities self docs l :
  PredictiveEngine._generate_career_recommendations self docs = Py.Ok l ->
  Forall known_priority l.
Proof.
  intros H. unfold PredictiveEngine._generate_career_recommendations in H.
  generator_cases H; known_priorities.
Qed.

Lemma rank_high (x : PredictiveEngine.recommendation) :
  PredictiveEngine.rank x = 3 <-> PredictiveEngine.priority x = Some "high"%string.
Proof.
  unfold PredictiveEngine.rank, PredictiveEngine.priority_order.
  destruct (PredictiveEngine.priority x) as [s|]; simpl.
  - destruct (String.eqb_spec s "high") as [->|Hh]; [split; reflexivity|].
    destruct (String.eqb s "medium"); [split; [discriminate|congruence]|].
    destruct (String.eqb s "low"); simpl; (split; [discriminate|congruence]).
  - split; discriminate.
Qed.

Lemma rank_at_most_3 (x : PredictiveEngine.recommendation) : PredictiveEngine.rank x <= 3.
Proof.
  unfold PredictiveEngine.rank, PredictiveEngine.priority_order.
  destruct (PredictiveEngine.priority x) as [s|]; simpl.
  - destruct (String.eqb s "high"); [simpl; lia|].
    destruct (String.eqb s "medium"); [simpl; lia|].
    destruct (String.eqb s "low"); simpl; lia.
  - lia.
Qed.

(** In a list sorted by descending rank the entries of rank 3 come
    first. *)
Lemma descending_high_first (l : list PredictiveEngine.recommendation) :
  StronglySorted (fun a b => PredictiveEngine.rank b <= PredictiveEngine.rank a) l ->
  exists highs rest,
    l = highs ++ rest
    /\ Forall (fun x => PredictiveEngine.priority x = Some "high"%string) highs
    /\ Forall (fun x => PredictiveEngine.priority x <> Some "high"%string) rest.
Proof.
  induction 1 as [|x r Hr IH Hx].
  - exists [], []. repeat constructor.
  - destruct (Z.eq_dec (PredictiveEngine.rank x) 3) as [E|E].
    + destruct IH as (highs & rest & -> & Hh & Hrest).
      exists (x :: highs), rest. split; [reflexivity|]. split; [|exact Hrest].
      constructor; [apply rank_high, E|exact Hh].
    + exists [], (x :: r). split; [reflexivity|]. split; [constructor|].
      constructor.
      * intros Hp. apply rank_high in Hp. contradiction.
      * eapply List.Forall_impl; [|exact Hx]. simpl. intros y Hy Hp.
        apply rank_high in Hp. pose proof (rank_at_most_3 x). lia.
Qed.

Lemma sorted_generation_facts (recs : list PredictiveEngine.recommendation)
    (a f w c : list PredictiveEngine.recommendation) :
  recs = Py.sorted_reverse Z.leb PredictiveEngine.rank (a ++ f ++ w ++ c) ->
  Permutation recs (a ++ f ++ w ++ c)
  /\ StronglySorted (fun x y => PredictiveEngine.rank y <= PredictiveEngine.rank x) recs
  /\ (forall k, List.filter (fun x => PredictiveEngine.rank x =? k) recs
                = List.filter (fun x => PredictiveEngine.rank x =? k) (a ++ f ++ w ++ c))
  /\ (exists highs rest,
        recs = highs ++ rest
        /\ Forall (fun x => PredictiveEngine.priority x = Some "high"%string) highs
        /\ Forall (fun x => PredictiveEngine.priority x <> Some "high"%string) rest).
Proof.
  intros ->. split; [apply sorted_reverse_Permutation|].
  split; [apply sorted_reverse_descending|].
  split; [intros k; apply sorted_reverse_stable|].
  apply descending_high_first, sorted_reverse_descending.
Qed.

(** [rec.get('priority') == p] *)
Definition has_priority (p : string) (x : PredictiveEngine.recommendation) : bool :=
  match PredictiveEngine.priority x with
  | Some q => String.eqb q p
  | None => false
  end.

Lemma rank_table (x : PredictiveEngine.recommendation) :
  (PredictiveEngine.priority x = Some "high"%string -> PredictiveEngine.rank x = 3)
  /\ (PredictiveEngine.priority x = Some "medium"%string -> PredictiveEngine.rank x = 2)
  /\ (PredictiveEngine.priority x = Some "low"%string -> PredictiveEngine.rank x = 1).
Proof.
  unfold PredictiveEngine.rank.
  split; [|split]; intros ->; reflexivity.
Qed.

Lemma known_rank (k : Z) (p : string) (l : list PredictiveEngine.recommendation) :
  In (p, k) [("high"%string, 3); ("medium"%string, 2); ("low"%string, 1)] ->
  Forall known_priority l ->
  List.filter (fun x => PredictiveEngine.rank x =? k) l = List.filter (has_priority p) l.
Proof.
  intros Hin Hl. induction Hl as [|x r Hx Hr IH]; [reflexivity|].
  simpl. rewrite IH.
  replace (PredictiveEngine.rank x =? k) with (has_priority p x); [reflexivity|].
  unfold has_priority, PredictiveEngine.rank.
  simpl in Hin.
  destruct Hin as [E|[E|[E|[]]]]; injection E as <- <-;
    destruct Hx as [-> | [-> | ->]]; reflexivity.
Qed.

Lemma descending_blocks (l : list PredictiveEngine.recommendation) :
  StronglySorted (fun a b => PredictiveEngine.rank b <= PredictiveEngine.rank a) l ->
  Forall known_priority l ->
  l = List.filter (fun x => PredictiveEngine.rank x =? 3) l
      ++ List.filter (fun x => PredictiveEngine.rank x =? 2) l
      ++ List.filter (fun x => PredictiveEngine.rank x =? 1) l.
Proof.
  induction 1 as [|x r Hr IH Hx]; [reflexivity|].
  intros Hk. inversion Hk as [|? ? Hkx Hkr]; subst.
  specialize (IH Hkr).
  assert (Hnone : forall k, PredictiveEngine.rank x < k ->
            List.filter (fun y => PredictiveEngine.rank y =? k) r = []).
  { intros k Hlt. clear IH Hr Hkr Hk. induction Hx as [|y r' Hy Hr' IH']; [reflexivity|].
    simpl. destruct (Z.eqb_spec (PredictiveEngine.rank y) k); [lia|]. exact IH'. }
  simpl.
  assert (Hrank : PredictiveEngine.rank x = 3 \/ PredictiveEngine.rank x = 2
                  \/ PredictiveEngine.rank x = 1).
  { destruct (rank_table x) as (H3 & H2 & H1).
    destruct Hkx as [E|[E|E]]; auto. }
  destruct Hrank as [E|[E|E]]; rewrite E; simpl.
  - f_equal. exact IH.
  - rewrite (Hnone 3) by lia. simpl. f_equal.
    rewrite (Hnone 3) in IH by lia. exact IH.
  - rewrite (Hnone 3), (Hnone 2) by lia. simpl. f_equal.
    rewrite (Hnone 3), (Hnone 2) in IH by lia. exact IH.
Qed.

Lemma generation_known self docs now g :
  generation self docs now g -> Forall known_priority g.
Proof.
  intros (a & f & w & c & Ha & Hf & Hw & Hc & ->).
  repeat (apply Forall_app; split);
    eauto using academic_priorities, financial_priorities, wellness_priorities,
      career_priorities.
Qed.

Lemma sorted_generation_blocks (recs g : list PredictiveEngine.recommendation) :
  Forall known_priority g ->
  recs = Py.sorted_reverse Z.leb PredictiveEngine.rank g ->
  recs = List.filter (has_priority "high") g
         ++ List.filter (has_priority "medium") g
         ++ List.filter (has_priority "low") g.
Proof.
  intros Hg ->.
  assert (Hk : Forall known_priority (Py.sorted_reverse Z.leb PredictiveEngine.rank g)).
  { rewrite List.Forall_forall in *. intros x Hx. apply Hg.
    exact (Permutation_in x (sorted_reverse_Permutation PredictiveEngine.rank g) Hx). }
  rewrite (descending_blocks _ (sorted_reverse_descending PredictiveEngine.rank g) Hk) at 1.
  rewrite !sorted_reverse_stable.
  rewrite (known_rank 3 "high"), (known_rank 2 "medium"), (known_rank 1 "low");
    simpl; auto.
Qed.

(** The ranks as the specification gives them: high 3, medium 2, low 1;
    a recommendation without a priority counts as low, and a priority
    outside the three has rank 0. *)
Definition priority_rank (x : PredictiveEngine.recommendation) : Z :=
  match PredictiveEngine.priority x with
  | Some p => if String.eqb p "high" then 3
              else if String.eqb p "medium" then 2
              else if String.eqb p "low" then 1 else 0
  | None => 1
  end.

Lemma rank_is_priority_rank (x : PredictiveEngine.recommendation) :
  PredictiveEngine.rank x = priority_rank x.
Proof.
  unfold PredictiveEngine.rank, priority_rank, PredictiveEngine.priority_order.
  destruct (PredictiveEngine.priority x) as [p|]; [|reflexivity]. simpl.
  destruct (String.eqb p "high"); [reflexivity|].
  destruct (String.eqb p "medium"); [reflexivity|].
  destruct (String.eqb p "low"); reflexivity.
Qed.

(** C6: the list a call returns is one run of the generators, academic
    then financial then wellness then career (the run of this call
    unless the cache of an earlier call is returned), sorted by
    descending priority rank, where high has rank 3, medium rank 2 and
    low rank 1, with the entries of each rank in their generation order:
    it is the high-priority entries of the run, then its medium-priority
    entries, then its low-priority entries, each group in generation
    order. *)
Theorem recommendations_sorted_by_priority
    (self : PredictiveEngine.t) (docs : PredictiveEngine.documents)
    (now : Datetime.datetime) (recs : list PredictiveEngine.recommendation)
    (self' : PredictiveEngine.t) :
  reachable self ->
  PredictiveEngine.get_personalized_recommendations self docs now = Py.Ok (recs, self') ->
  exists s0 docs0 now0 a f w c,
    PredictiveEngine._generate_academic_recommendations docs0 now0 = Py.Ok a
    /\ PredictiveEngine._generate_financial_recommendations docs0 now0 = Py.Ok f
    /\ PredictiveEngine._generate_wellness_recommendations docs0 now0 = Py.Ok w
    /\ PredictiveEngine._generate_career_recommendations s0 docs0 = Py.Ok c
    /\ (PredictiveEngine.cache_is_recent self now = false ->
        s0 = self /\ docs0 = docs /\ now0 = now)
    /\ (forall x, PredictiveEngine.rank x = priority_rank x)
    /\ Permutation recs (a ++ f ++ w ++ c)
    /\ StronglySorted (fun x y => PredictiveEngine.rank y <= PredictiveEngine.rank x) recs
    /\ (forall k, List.filter (fun x => PredictiveEngine.rank x =? k) recs
                  = List.filter (fun x => PredictiveEngine.rank x =? k) (a ++ f ++ w ++ c))
    /\ (exists highs rest,
          recs = highs ++ rest
          /\ Forall (fun x => PredictiveEngine.priority x = Some "high"%string) highs
          /\ Forall (fun x => PredictiveEngine.priority x <> Some "high"%string) rest)
    /\ recs = List.filter (has_priority "high") (a ++ f ++ w ++ c)
              ++ List.filter (has_priority "medium") (a ++ f ++ w ++ c)
              ++ List.filter (has_priority "low") (a ++ f ++ w ++ c).
Proof.
  intros Hreach Hcall.
  assert (Hgen : exists s0 docs0 now0 g,
             generation s0 docs0 now0 g
             /\ recs = Py.sorted_reverse Z.leb PredictiveEngine.rank g
             /\ (PredictiveEngine.cache_is_recent self now = false ->
                 s0 = self /\ docs0 = docs /\ now0 = now)).
  { apply get_personalized_recommendations_cases in Hcall.
    destruct Hcall as [(Hrecent & Hcache & _)|(Hfresh & (g & Hg & Hsorted) & _)].
    - pose proof (reachable_cache_generated self Hreach) as Hinv.
      unfold cache_generated in Hinv. rewrite Hcache in Hinv.
      destruct Hinv as (s0 & docs0 & now0 & g & Hg & Hs).
      exists s0, docs0, now0, g. split; [exact Hg|]. split; [exact Hs|congruence].
    - exists self, docs, now, g. split; [exact Hg|]. split; [exact Hsorted|].
      intros _; repeat split. }
  destruct Hgen as (s0 & docs0 & now0 & g & Hg & Hs & Hfresh).
  pose proof (generation_known _ _ _ _ Hg) as Hk.
  destruct Hg as (a & f & w & c & Ha & Hf & Hw & Hc & ->).
  exists s0, docs0, now0, a, f, w, c.
  split; [exact Ha|]. split; [exact Hf|]. split; [exact Hw|]. split; [exact Hc|].
  split; [exact Hfresh|]. split; [exact rank_is_priority_rank|].
  destruct (sorted_generation_facts recs a f w c Hs) as (H1 & H2 & H3 & H4).
  split; [exact H1|]. split; [exact H2|]. split; [exact H3|]. split; [exact H4|].
  apply sorted_generation_blocks; assumption.
Qed.

(** The example of the specification: four tasks due within three days
    and a CGPA that went down. *)
Definition busy_student : PredictiveEngine.documents :=
  with_performance [entry_with_cgpa 1 9 20 9; entry_with_cgpa 2 7 20 8]
    (with_tasks [task_due "2025-04-16" (Some "CS101"%string);
                 task_due "2025-04-16" (Some "CS102"%string);
                 task_due "2025-04-17" (Some "MA101"%string);
                 task_due "2025-04-17" (Some "PH101"%string)] no_documents).

Lemma recommendations_sorted_by_priority_witness :
  exists recs self',
    PredictiveEngine.get_personalized_recommendations
      (PredictiveEngine.init "s1" (Some {| PredictiveEngine.year_of_study := None |}))
      busy_student april_15 = Py.Ok (recs, self')
    /\ map PredictiveEngine.title (firstn 2 recs)
       = ["Multiple Deadlines Approaching"; "CGPA Declining"]%string
    /\ map PredictiveEngine.priority recs
       = [Some "high"; Some "high"; Some "high"; Some "medium"; Some "medium";
          Some "medium"; Some "low"; Some "low"]%string
    /\ StronglySorted (fun x y => PredictiveEngine.rank y <= PredictiveEngine.rank x) recs.
Proof.
  eexists _, _. split; [vm_compute; reflexivity|]. split; [reflexivity|].
  split; [reflexivity|].
  destruct (recommendations_sorted_by_priority
              (PredictiveEngine.init "s1" (Some {| PredictiveEngine.year_of_study := None |}))
              busy_student april_15 _ _ (reach_init _ _) eq_refl)
    as (s0 & docs0 & now0 & a & f & w & c & _ & _ & _ & _ & _ & _ & _ & Hsorted & _).
  exact Hsorted.
Defined.

(** ** The getters of the AI agent (app.py) *)

(** The body of a successful response whose message content is the
    given text. *)
Definition body_with_content (content : string) : Py.pyval :=
  Py.PDict [("choices"%string,
             Py.PList [Py.PDict [("message"%string,
                                  Py.PDict [("content"%string, Py.PStr content)])]])].

Definition engineering_student : App.profile_data :=
  {| App.degree := Some "B.Tech Computer Science"%string;
     App.year_of_study := Some "2nd Year"%string;
     App.college := Some "IIT Madras"%string |}.

(** [cached_content] as the application creates it. *)
Definition initial_entries : gmap string Py.pyval :=
  <[ "academic_trends"%string := Py.PNone ]>
  (<[ "financial_tips"%string := Py.PNone ]>
  (<[ "wellness_tips"%string := Py.PNone ]>
  (<[ "career_insights"%string := Py.PNone ]>
  (<[ "resources"%string := Py.PDict [] ]> ∅)))).

(** A logged-in session with an API key and nothing cached. *)
Definition keyed_session (updated : option Datetime.datetime) : App.session :=
  {| App.ai_agent := App.init (Some "gsk-key"%string);
     App.student_profile := Some engineering_student;
     App.financial_planner := None; App.mental_wellness := None;
     App.career_guide := None; App.entries := initial_entries;
     App.last_updated := updated |}.

Definition unreachable_service : App.network := {| App.outcomes := []; App.sent := [] |}.

(** The ways a call to the completion service fails: the transport
    raises, the status is not 200, the body is not JSON, the body is
    falsy, the body has no [choices[0].message.content], or the content
    is not a string that [json.loads] accepts (after the bracketed part
    is cut out). *)
Inductive call_fails (loads : string -> option Py.pyval) : App.http_outcome -> Prop :=
| fails_transport : call_fails loads App.TransportError
| fails_status (code : Z) (body : option Py.pyval) :
    code <> 200 -> call_fails loads (App.Response code body)
| fails_body : call_fails loads (App.Response 200 None)
| fails_falsy (body : Py.pyval) :
    Py.truthy body = false -> call_fails loads (App.Response 200 (Some body))
| fails_shape (body : Py.pyval) (e : Py.exn) :
    App.extract_content body = Py.Raise e ->
    call_fails loads (App.Response 200 (Some body))
| fails_decode (body content : Py.pyval) (e : Py.exn) :
    App.extract_content body = Py.Ok content ->
    App.decode_content loads content = Py.Raise e ->
    call_fails loads (App.Response 200 (Some body)).

Lemma answer_falls_back loads self req (fallback : Py.result Py.pyval) net :
  Forall (call_fails loads) (App.outcomes net) ->
  fst (App.answer loads self req fallback net) = fallback
  /\ Forall (call_fails loads) (App.outcomes (snd (App.answer loads self req fallback net))).
Proof.
  intros Hall. unfold App.answer. destruct req as [r|e]; [|split; [reflexivity|exact Hall]].
  unfold App._make_groq_request.
  destruct (App.initialized self); simpl; [|split; [reflexivity|exact Hall]].
  unfold App.post. destruct (App.outcomes net) as [|o rest] eqn:Eo; simpl.
  - split; [reflexivity|constructor].
  - inversion Hall as [|? ? Ho Hrest]; subst.
    inversion Ho; subst; simpl;
      repeat match goal with
        | H : ?c <> 200 |- _ =>
            destruct (c =? 200) eqn:Ec; [apply Z.eqb_eq in Ec; contradiction|clear H]; simpl
        | H : Py.truthy _ = false |- _ => rewrite H; clear H
        | H : App.extract_content _ = _ |- _ => rewrite H; clear H
        | H : App.decode_content _ _ = _ |- _ => rewrite H; clear H
        end;
      try (split; [reflexivity|exact Hrest]);
      destruct (Py.truthy _); split; try reflexivity; exact Hrest.
Qed.



(** What a getter hands to [json.loads]: the part of the content from
    its first ["["] to its last ["]"], the whole content when there is
    no such part. *)
Definition decoded_part (content : string) : string :=
  Py.get_or content (App.search_bracketed content).

(** The call succeeds: status 200, a truthy JSON body whose
    [choices[0].message.content] is a string, and [json.loads] accepts
    the decoded part of it, with value [v]. *)
Definition call_answers (loads : string -> option Py.pyval) (o : App.http_outcome)
    (v : Py.pyval) : Prop :=
  exists body content,
    o = App.Response 200 (Some body)
    /\ Py.truthy body = true
    /\ App.extract_content body = Py.Ok (Py.PStr content)
    /\ loads (decoded_part content) = Some v.



Lemma call_fails_not_answers loads o v : call_fails loads o -> ~ call_answers loads o v.
Proof.
  intros Hf (body & content & -> & Ht & Hc & Hl).
  inversion Hf; subst; try congruence.
  match goal with
  | H1 : App.extract_content body = Py.Ok ?c, H2 : App.decode_content _ ?c = _ |- _ =>
      rewrite Hc in H1; injection H1 as <-; unfold App.decode_content in H2;
      fold (decoded_part content) in H2; rewrite Hl in H2; discriminate H2
  end.
Qed.



(** Whatever the service answers, these four getters return. *)
Lemma answer_returns loads self req (fallback : Py.result Py.pyval) net :
  Py.is_ok fallback = true ->
  Py.is_ok (fst (App.answer loads self req fallback net)) = true.
Proof.
  intros Hf. unfold App.answer. destruct req as [r|e]; [|exact Hf].
  destruct (App._make_groq_request self r net) as [response net'].
  destruct (Py.truthy response); [|exact Hf].
  destruct (App.extract_content response) as [content|]; [|exact Hf].
  destruct (App.decode_content loads content); [reflexivity|exact Hf].
Qed.

Lemma profile_getters_return loads self p degree year financial_data mood_data prefs net :
  Py.is_ok (fst (App.get_academic_trends loads self degree year net)) = true
  /\ Py.is_ok (fst (App.get_financial_advice loads self p financial_data net)) = true
  /\ Py.is_ok (fst (App.get_wellness_tips loads self p mood_data net)) = true
  /\ Py.is_ok (fst (App.get_career_insights loads self p prefs net)) = true.
Proof.
  unfold App.get_academic_trends, App.get_financial_advice, App.get_wellness_tips,
    App.get_career_insights.
  destruct (App.initialized self); unfold negb.
  - split; [|split; [|split]]; apply answer_returns; reflexivity.
  - split; [|split; [|split]]; reflexivity.
Qed.


Definition queued (l : list App.http_outcome) : App.network :=
  {| App.outcomes := l; App.sent := [] |}.

(** A JSON string literal: the text between double quotes. *)
Definition quoted (s : string) : string :=
  String "034" (s ++ String "034" EmptyString).




(** What is decoded is the bracketed part, not the content: a JSON
    object holding a list is answered by that list, and a JSON object
    holding two lists by the fallback, because the text from the first
    bracket to the last is not JSON. *)
Lemma bracketed_part_is_decoded :
  fst (App.get_academic_trends Json.loads (App.init (Some "gsk-key"%string))
         (Some "B.Tech Computer Science"%string) (Some "2nd Year"%string)
         (queued [App.Response 200
                    (Some (body_with_content ("{" ++ quoted "items" ++ ": [1, 2]}")))]))
  = Py.Ok (Py.PList [Py.PNum 1; Py.PNum 2])
  /\ Json.loads ("{" ++ quoted "a" ++ ": [1], " ++ quoted "b" ++ ": [2]}")
     = Some (Py.PDict [("a"%string, Py.PList [Py.PNum 1]);
                       ("b"%string, Py.PList [Py.PNum 2])])
  /\ fst (App.get_academic_trends Json.loads (App.init (Some "gsk-key"%string))
            (Some "B.Tech Computer Science"%string) (Some "2nd Year"%string)
            (queued [App.Response 200
                       (Some (body_with_content
                                ("{" ++ quoted "a" ++ ": [1], " ++ quoted "b" ++ ": [2]}")))]))
     = Py.Ok (App.fallback_academic_trends App.Engineering).
Proof.
  split; [vm_compute; reflexivity|]. split; vm_compute; reflexivity.
Qed.

(** The fallback of the news getter is chosen by topic, from the cache
    first: with nothing cached, the three static items of the topic; an
    empty list for a topic without static items. *)
Lemma news_fallback_by_topic :
  (forall topic, In topic ["education"; "finance"; "wellness"; "career"; "resources"]%string ->
     exists x y z, App.fetch_trending_news topic 3 initial_entries = Py.Ok (Py.PList [x; y; z]))
  /\ App.fetch_trending_news "sports" 3 initial_entries = Py.Ok (Py.PList []).
Proof.
  split; [|reflexivity].
  intros topic Hin. simpl in Hin.
  destruct Hin as [<-|[<-|[<-|[<-|[<-|[]]]]]]; eexists _, _, _; reflexivity.
Qed.

(** ** The content cache (app.py) *)

Definition news_topics : list string := ["education"; "finance"; "wellness"; "career"]%string.

Ltac a_news_topic :=
  unfold news_topics; simpl; repeat (first [left; reflexivity | right]).

Lemma guarded_answer_falls_back loads self req (fallback : Py.result Py.pyval) net :
  Forall (call_fails loads) (App.outcomes net) ->
  exists net',
    (if negb (App.initialized self) then (fallback, net)
     else App.answer loads self req fallback net) = (fallback, net')
    /\ Forall (call_fails loads) (App.outcomes net').
Proof.
  intros Hall. destruct (negb (App.initialized self)).
  - exists net. split; [reflexivity|exact Hall].
  - destruct (answer_falls_back loads self req fallback net Hall) as [H1 H2].
    exists (snd (App.answer loads self req fallback net)).
    split; [|exact H2]. rewrite <- H1 at 2. apply surjective_pairing.
Qed.

(** A [store] whose getter falls back. *)
Lemma store_value key (v : Py.pyval) net' r s continue :
  r = (Py.Ok v, net') ->
  App.store key r s continue = continue (App.set_entry key v s) net'.
Proof. intros ->. reflexivity. Qed.

(** The invocation changes nothing: the cache is fresh and the refresh
    not forced, the agent has no key, or no student is logged in. *)
Definition refresh_skipped (force : bool) (s : App.session) (e : env) : bool :=
  App.is_fresh force s (now e)
  || negb (App.initialized (App.ai_agent s))
  || match App.student_profile s with Some _ => false | None => true end.

(** [fetch_trending_news(topic)] returns: the cached news of the topic,
    when there are any, can be sliced. *)
Definition news_fallback_returns (m : gmap string Py.pyval) (topic : string) : bool :=
  Py.is_ok (App.fetch_trending_news topic 3 m).

(** A refresh that ended without setting [last_updated] to [t]: the
    news getter of some topic raised, which it does only when its
    fallback raises; [last_updated] is then what it was in [s0]. *)
Definition completed_or_raised (s0 : App.session) (t : Datetime.datetime)
    (res : App.session * App.network) : Prop :=
  App.last_updated (fst res) = Some t
  \/ (App.last_updated (fst res) = App.last_updated s0
      /\ exists topic,
           In topic news_topics
           /\ news_fallback_returns (App.entries (fst res)) topic = false).

Lemma store_returned key r s continue s0 t :
  Py.is_ok (fst r) = true ->
  (forall v net', completed_or_raised s0 t (continue (App.set_entry key v s) net')) ->
  completed_or_raised s0 t (App.store key r s continue).
Proof.
  intros Hok Hc. destruct r as [[v|x] net']; [apply Hc|discriminate Hok].
Qed.

Lemma answer_or_fallback loads self req (fallback : Py.result Py.pyval) net :
  fst (App.answer loads self req fallback net) = fallback
  \/ exists v, fst (App.answer loads self req fallback net) = Py.Ok v.
Proof.
  unfold App.answer. destruct req as [r|x]; [|left; reflexivity].
  destruct (App._make_groq_request self r net) as [response net'].
  destruct (Py.truthy response); [|left; reflexivity].
  destruct (App.extract_content response) as [content|]; [|left; reflexivity].
  destruct (App.decode_content loads content) as [v|]; [right; exists v|left]; reflexivity.
Qed.

Lemma get_latest_news_raises loads self category entries net x :
  fst (App.get_latest_news loads self category entries net) = Py.Raise x ->
  App.fetch_trending_news category 3 entries = Py.Raise x.
Proof.
  unfold App.get_latest_news. destruct (negb (App.initialized self)); [intros H; exact H|].
  destruct (answer_or_fallback loads self
              (Py.Ok (App.chat "You're a news specialist for Indian college students."
                        (App.latest_news_prompt category) 300))
              (App.fetch_trending_news category 3 entries) net) as [E|[v E]];
    rewrite E; [intros H; exact H|discriminate].
Qed.

Lemma store_news loads self topic key s net continue s0 t :
  In topic news_topics ->
  App.last_updated s = App.last_updated s0 ->
  (forall v net', completed_or_raised s0 t (continue (App.set_entry key v s) net')) ->
  completed_or_raised s0 t
    (App.store key (App.get_latest_news loads self topic (App.entries s) net) s continue).
Proof.
  intros Hin Hu Hc.
  destruct (App.get_latest_news loads self topic (App.entries s) net) as [[v|x] net'] eqn:E;
    [apply Hc|].
  right. simpl. split; [exact Hu|]. exists topic. split; [exact Hin|].
  unfold news_fallback_returns.
  rewrite (get_latest_news_raises loads self topic (App.entries s) net x);
    [reflexivity|rewrite E; reflexivity].
Qed.

(** Every invocation is skipped, or completes and sets [last_updated],
    or ends on the exception of a news fallback. *)
Lemma update_content_cache_cases loads force s e net :
  (refresh_skipped force s e = true
   /\ App.update_content_cache loads force s e net = (s, rng e, net))
  \/ (refresh_skipped force s e = false
      /\ completed_or_raised s (now e)
           (fst (fst (App.update_content_cache loads force s e net)),
            snd (App.update_content_cache loads force s e net))).
Proof.
  unfold refresh_skipped, App.update_content_cache.
  destruct (App.is_fresh force s (now e)); [left; split; reflexivity|].
  destruct (App.initialized (App.ai_agent s)) eqn:Ei; [|left; split; reflexivity].
  destruct (App.student_profile s) as [profile|]; [|left; split; reflexivity].
  right. split; [reflexivity|]. cbv zeta. simpl negb. cbv iota.
  destruct (match App.mental_wellness s with
            | Some mw => let '(l, g') := MentalWellnessCoach.get_mood_history mw e in (Some l, g')
            | None => (None, rng e)
            end) as [mood_data g].
  match goal with
  | |- completed_or_raised _ _ (fst (fst (let '(s', net') := ?chain in (s', g, net'))), _) =>
      enough (Hchain : completed_or_raised s (now e) chain);
        [destruct chain; exact Hchain|]
  end.
  apply store_returned;
    [apply (profile_getters_return loads (App.ai_agent s)
              {| App.degree := None; App.year_of_study := None; App.college := None |}
              _ _ Py.PNone None None)|intros v1 net1].
  apply store_returned;
    [apply (profile_getters_return loads (App.ai_agent s) _ None None _ None None)
    |intros v2 net2].
  apply store_returned;
    [apply (profile_getters_return loads (App.ai_agent s) _ None None Py.PNone _ None)
    |intros v3 net3].
  apply store_returned;
    [apply (profile_getters_return loads (App.ai_agent s) _ None None Py.PNone None _)
    |intros v4 net4].
  apply (store_news loads (App.ai_agent s) "education"); [a_news_topic|reflexivity|intros v5 net5].
  apply (store_news loads (App.ai_agent s) "finance"); [a_news_topic|reflexivity|intros v6 net6].
  apply (store_news loads (App.ai_agent s) "wellness"); [a_news_topic|reflexivity|intros v7 net7].
  apply (store_news loads (App.ai_agent s) "career"); [a_news_topic|reflexivity|intros v8 net8].
  left. reflexivity.
Qed.

Lemma fetch_trending_news_lookup (topic : string) (n : nat) (m1 m2 : gmap string Py.pyval) :
  m1 !! (topic ++ "_news")%string = m2 !! (topic ++ "_news")%string ->
  App.fetch_trending_news topic n m1 = App.fetch_trending_news topic n m2.
Proof. intros H. unfold App.fetch_trending_news. rewrite H. reflexivity. Qed.

Lemma store_raised key (x : Py.exn) net' r s continue :
  r = (Py.Raise x, net') -> App.store key r s continue = (s, net').
Proof. intros ->. reflexivity. Qed.

Ltac profile_store Hall net' Hall' :=
  match goal with
  | |- context [App.store _ (if _ then _ else App.answer ?loads ?self ?req ?fb ?net) _ _] =>
      let E := fresh "E" in
      destruct (guarded_answer_falls_back loads self req fb net Hall) as (net' & E & Hall');
      rewrite (store_value _ _ _ _ _ _ E); clear E
  end.

Ltac news_fallback topic s :=
  match goal with
  | |- context [App.fetch_trending_news topic 3 ?m] =>
      replace (App.fetch_trending_news topic 3 m)
        with (App.fetch_trending_news topic 3 (App.entries s))
        by (apply fetch_trending_news_lookup; simpl;
            rewrite ?lookup_insert_ne by discriminate; reflexivity)
  end.

Ltac news_raised Hall :=
  match goal with
  | |- context [App.store _ (if _ then _ else App.answer ?loads ?self ?req ?fb ?net) _ _] =>
      let E := fresh "E" in
      let net' := fresh "net" in
      let Hall' := fresh "Hall" in
      destruct (guarded_answer_falls_back loads self req fb net Hall) as (net' & E & Hall');
      rewrite (store_raised _ _ _ _ _ _ E); clear E
  end.

Ltac stored_payloads :=
  simpl; rewrite ?lookup_insert_ne by discriminate; apply lookup_insert_eq.

(** The state a refresh leaves when every call fails. *)
Lemma refresh_with_failing_service loads force s e net profile :
  App.is_fresh force s (now e) = false ->
  App.initialized (App.ai_agent s) = true ->
  App.student_profile s = Some profile ->
  Forall (call_fails loads) (App.outcomes net) ->
  exists s' g net',
    App.update_content_cache loads force s e net = (s', g, net')
    /\ App.entries s' !! "academic_trends"%string
       = Some (App.fallback_academic_trends (App.classify (App.get_degree profile)))
    /\ App.entries s' !! "financial_tips"%string
       = Some (App.fallback_financial_advice (App.classify (App.get_degree profile)))
    /\ App.entries s' !! "wellness_tips"%string
       = Some (App.fallback_wellness_tips (App.classify (App.get_degree profile)))
    /\ App.entries s' !! "career_insights"%string
       = Some (App.fallback_career_insights (App.classify (App.get_degree profile)))
    /\ ((forallb (news_fallback_returns (App.entries s)) news_topics = true
         /\ App.last_updated s' = Some (now e))
        \/ (forallb (news_fallback_returns (App.entries s)) news_topics = false
            /\ App.last_updated s' = App.last_updated s)).
Proof.
  intros Hfresh Hinit Hprof Hall.
  unfold App.update_content_cache. rewrite Hfresh, Hinit, Hprof. cbv zeta. unfold negb at 1.
  destruct (match App.mental_wellness s with
            | Some mw => let '(l, g') := MentalWellnessCoach.get_mood_history mw e in (Some l, g')
            | None => (None, rng e)
            end) as [mood_data g].
  unfold App.get_academic_trends, App.get_financial_advice, App.get_wellness_tips,
    App.get_career_insights, App.get_latest_news. cbv zeta.
  simpl App.degree. simpl App.year_of_study.
  profile_store Hall net1 Hall1. profile_store Hall1 net2 Hall2.
  profile_store Hall2 net3 Hall3. profile_store Hall3 net4 Hall4.
  unfold news_topics, news_fallback_returns. cbn [forallb].
  news_fallback "education"%string s.
  destruct (App.fetch_trending_news "education" 3 (App.entries s)) as [n1|x1] eqn:En1.
  2: { news_raised Hall4. eexists _, g, _. split; [reflexivity|].
       split; [stored_payloads|]. split; [stored_payloads|]. split; [stored_payloads|].
       split; [stored_payloads|]. right. split; reflexivity. }
  profile_store Hall4 net5 Hall5.
  news_fallback "finance"%string s.
  destruct (App.fetch_trending_news "finance" 3 (App.entries s)) as [n2|x2] eqn:En2.
  2: { news_raised Hall5. eexists _, g, _. split; [reflexivity|].
       split; [stored_payloads|]. split; [stored_payloads|]. split; [stored_payloads|].
       split; [stored_payloads|]. right. split; reflexivity. }
  profile_store Hall5 net6 Hall6.
  news_fallback "wellness"%string s.
  destruct (App.fetch_trending_news "wellness" 3 (App.entries s)) as [n3|x3] eqn:En3.
  2: { news_raised Hall6. eexists _, g, _. split; [reflexivity|].
       split; [stored_payloads|]. split; [stored_payloads|]. split; [stored_payloads|].
       split; [stored_payloads|]. right. split; reflexivity. }
  profile_store Hall6 net7 Hall7.
  news_fallback "career"%string s.
  destruct (App.fetch_trending_news "career" 3 (App.entries s)) as [n4|x4] eqn:En4.
  2: { news_raised Hall7. eexists _, g, _. split; [reflexivity|].
       split; [stored_payloads|]. split; [stored_payloads|]. split; [stored_payloads|].
       split; [stored_payloads|]. right. split; reflexivity. }
  profile_store Hall7 net8 Hall8.
  eexists _, g, net8. split; [reflexivity|].
  split; [stored_payloads|]. split; [stored_payloads|]. split; [stored_payloads|].
  split; [stored_payloads|]. left. split; reflexivity.
Qed.

Lemma fresh_is_skipped loads s e net u :
  App.last_updated s = Some u ->
  Datetime.days_of (now e - u) < 1 ->
  App.update_content_cache loads false s e net = (s, rng e, net).
Proof.
  intros Hu Hd. unfold App.update_content_cache, App.is_fresh. rewrite Hu. simpl.
  apply Z.ltb_lt in Hd. rewrite Hd. reflexivity.
Qed.

(** C4: every invocation is skipped and changes nothing, or sets
    [last_updated] to the current time, or ends on the exception of a
    news fallback and leaves [last_updated] as it was.  A refresh that
    runs while every call to the service fails stores the four fallback
    lists as payloads and, when the news fallback of every topic returns
    (no cached news that is truthy and neither a list nor a string),
    sets [last_updated] to the current time, so a later non-forced
    invocation less than a day after it changes nothing and sends
    nothing; when a news fallback raises, [last_updated] is unchanged. *)
Theorem fallback_refresh_sets_last_updated
    (loads : string -> option Py.pyval) (force : bool) (s : App.session) (e : env)
    (net : App.network) :
  let r := App.update_content_cache loads force s e net in
  let s' := fst (fst r) in
  ((refresh_skipped force s e = true /\ r = (s, rng e, net))
   \/ (refresh_skipped force s e = false /\ App.last_updated s' = Some (now e))
   \/ (refresh_skipped force s e = false
       /\ App.last_updated s' = App.last_updated s
       /\ exists topic,
            In topic news_topics
            /\ news_fallback_returns (App.entries s') topic = false))
  /\ (refresh_skipped force s e = false ->
      Forall (call_fails loads) (App.outcomes net) ->
      (forall profile,
         App.student_profile s = Some profile ->
         App.entries s' !! "academic_trends"%string
         = Some (App.fallback_academic_trends (App.classify (App.get_degree profile)))
         /\ App.entries s' !! "financial_tips"%string
            = Some (App.fallback_financial_advice (App.classify (App.get_degree profile)))
         /\ App.entries s' !! "wellness_tips"%string
            = Some (App.fallback_wellness_tips (App.classify (App.get_degree profile)))
         /\ App.entries s' !! "career_insights"%string
            = Some (App.fallback_career_insights (App.classify (App.get_degree profile))))
      /\ (forallb (news_fallback_returns (App.entries s)) news_topics = true ->
          App.last_updated s' = Some (now e)
          /\ forall e2 net2,
               Datetime.days_of (now e2 - now e) < 1 ->
               App.update_content_cache loads false s' e2 net2 = (s', rng e2, net2))
      /\ (forallb (news_fallback_returns (App.entries s)) news_topics = false ->
          App.last_updated s' = App.last_updated s)).
Proof.
  intros r s'. split.
  - destruct (update_content_cache_cases loads force s e net) as [H|(Hs & [Hc|Hr])].
    + left. exact H.
    + right. left. split; [exact Hs|exact Hc].
    + right. right. split; [exact Hs|exact Hr].
  - intros Hs Hall. unfold refresh_skipped in Hs.
    destruct (App.is_fresh force s (now e)) eqn:Hfresh; [discriminate Hs|].
    destruct (App.initialized (App.ai_agent s)) eqn:Hinit; [|discriminate Hs].
    destruct (App.student_profile s) as [profile|] eqn:Hprof; [|discriminate Hs].
    destruct (refresh_with_failing_service loads force s e net profile
                Hfresh Hinit Hprof Hall)
      as (s1 & g & net1 & Hrun & H1 & H2 & H3 & H4 & Hupd).
    assert (Es : s' = s1) by (unfold s', r; rewrite Hrun; reflexivity).
    rewrite Es. split; [|split].
    + intros profile0 E. injection E as <-. repeat split; assumption.
    + intros Hok. destruct Hupd as [(_ & Hu)|(Hno & _)]; [|congruence].
      split; [exact Hu|]. intros e2 net2 Hd.
      apply (fresh_is_skipped loads s1 e2 net2 (now e) Hu Hd).
    + intros Hno. destruct Hupd as [(Hok & _)|(_ & Hu)]; [congruence|exact Hu].
Qed.

Lemma fallback_refresh_sets_last_updated_witness :
  App.last_updated
    (fst (fst (App.update_content_cache Json.loads false (keyed_session None) mid_april
                 unreachable_service))) = Some (now mid_april)
  /\ App.entries
       (fst (fst (App.update_content_cache Json.loads false (keyed_session None) mid_april
                    unreachable_service))) !! "academic_trends"%string
     = Some (App.fallback_academic_trends App.Engineering).
Proof.
  destruct (fallback_refresh_sets_last_updated Json.loads false (keyed_session None)
              mid_april unreachable_service) as (_ & Hfallback).
  destruct (Hfallback eq_refl (List.Forall_nil _)) as (Hpayloads & Hdone & _).
  destruct (Hpayloads engineering_student eq_refl) as (Ha & _).
  destruct (Hdone eq_refl) as (Hupd & _).
  split; [exact Hupd|exact Ha].
Defined.

(** A first refresh with an unreachable service: every payload is a
    fallback, yet [last_updated] is set, and a non-forced invocation one
    hour later sends no request. *)
Definition after_failed_refresh : App.session * Random.state * App.network :=
  App.update_content_cache Json.loads false (keyed_session None) mid_april
    unreachable_service.

Definition one_hour_later : env :=
  {| now := now mid_april + Datetime.hours 1; rng := [] |}.

Lemma fallback_marks_cache_fresh :
  App.last_updated (keyed_session None) = None
  /\ App.entries (fst (fst after_failed_refresh)) !! "academic_trends"%string
     = Some (App.fallback_academic_trends App.Engineering)
  /\ App.last_updated (fst (fst after_failed_refresh)) = Some (now mid_april)
  /\ App.last_updated (fst (fst after_failed_refresh)) <> None
  /\ List.length (App.sent (snd after_failed_refresh)) = 8%nat
  /\ App.sent (snd (App.update_content_cache Json.loads false
                      (fst (fst after_failed_refresh)) one_hour_later
                      (snd after_failed_refresh)))
     = App.sent (snd after_failed_refresh).
Proof.
  split; [reflexivity|]. split; [vm_compute; reflexivity|].
  split; [vm_compute; reflexivity|]. split; [vm_compute; discriminate|].
  split; [vm_compute; reflexivity|]. vm_compute. reflexivity.
Qed.

(** The content kind a request asks for: the four advisors are told
    apart by their system message, the news requests by their topic. *)
Definition kind_of (r : App.request) : string :=
  let sys := App.system_message r in
  if String.eqb sys "You're an educational advisor for Indian students." then
    "academic_trends"%string
  else if String.eqb sys "You're a financial advisor for Indian college students." then
    "financial_tips"%string
  else if String.eqb sys "You're a wellness coach for Indian college students." then
    "wellness_tips"%string
  else if String.eqb sys "You're a career advisor for Indian college students." then
    "career_insights"%string
  else
    match App.user_message r with
    | _ :: Py.Lit topic :: _ => ("news:" ++ topic)%string
    | _ => "news"%string
    end.

Definition content_kinds : list string :=
  ["academic_trends"; "financial_tips"; "wellness_tips"; "career_insights";
   "news:education"; "news:finance"; "news:wellness"; "news:career"]%string.

(** The requests [reqs] were added to the log, and their kinds are a
    subsequence of [kinds]. *)
Definition sends (net net' : App.network) (kinds : list string) : Prop :=
  exists reqs,
    App.sent net' = App.sent net ++ reqs /\ sublist (map kind_of reqs) kinds.

Lemma guarded_answer_sends loads self req (fallback : Py.result Py.pyval) net k :
  (forall r, req = Py.Ok r -> kind_of r = k) ->
  sends net
    (snd (if negb (App.initialized self) then (fallback, net)
          else App.answer loads self req fallback net)) [k].
Proof.
  intros Hk. unfold sends.
  destruct (App.initialized self) eqn:Ei; simpl negb; cbv iota.
  - unfold App.answer. destruct req as [r|e].
    + unfold App._make_groq_request, App.post. rewrite Ei. simpl negb. cbv iota.
      exists [r]. split.
      * destruct (App.outcomes net) as [|o rest];
          repeat match goal with
            | |- context [if ?c then _ else _] => destruct c
            | |- context [match ?c with Py.Ok _ => _ | Py.Raise _ => _ end] => destruct c
            end; reflexivity.
      * simpl. rewrite (Hk r eq_refl). reflexivity.
    + exists []. split; [symmetry; apply app_nil_r|apply sublist_nil_l].
  - exists []. split; [symmetry; apply app_nil_r|apply sublist_nil_l].
Qed.

Lemma store_sends key r s continue net k kinds :
  sends net (snd r) [k] ->
  (forall s1 net1, sends net1 (snd (continue s1 net1)) kinds) ->
  sends net (snd (App.store key r s continue)) (k :: kinds).
Proof.
  intros (reqs1 & E1 & S1) Hc. destruct r as [[v|e] net1]; simpl in *.
  - destruct (Hc (App.set_entry key v s) net1) as (reqs2 & E2 & S2).
    exists (reqs1 ++ reqs2). split.
    + rewrite E2, E1. symmetry. apply app_assoc.
    + rewrite map_app. apply (sublist_app _ [k] _ kinds); assumption.
  - exists reqs1. split; [exact E1|].
    rewrite <- (app_nil_r (map kind_of reqs1)).
    apply (sublist_app _ [k] [] kinds); [exact S1|apply sublist_nil_l].
Qed.

Ltac request_kind :=
  let r := fresh "r" in
  let Hr := fresh "Hr" in
  intros r Hr; unfold Py.bind in Hr;
  repeat match type of Hr with
    | context [match ?x with Py.Ok _ => _ | Py.Raise _ => _ end] => destruct x
    end;
  try discriminate Hr; injection Hr as <-; reflexivity.

(** One invocation sends at most one request for each content kind. *)
Lemma update_sends loads force s e net :
  sends net (snd (App.update_content_cache loads force s e net)) content_kinds.
Proof.
  assert (Hnone : sends net net content_kinds).
  { exists []. split; [symmetry; apply app_nil_r|apply sublist_nil_l]. }
  unfold App.update_content_cache.
  destruct (App.is_fresh force s (now e)); [exact Hnone|].
  destruct (negb (App.initialized (App.ai_agent s))); [exact Hnone|].
  destruct (App.student_profile s) as [profile|]; [|exact Hnone].
  cbv zeta.
  destruct (match App.mental_wellness s with
            | Some mw => let '(l, g') := MentalWellnessCoach.get_mood_history mw e in (Some l, g')
            | None => (None, rng e)
            end) as [mood_data g].
  match goal with
  | |- sends _ (snd (let '(s', net') := ?chain in (s', g, net'))) _ =>
      enough (Hchain : sends net (snd chain) content_kinds);
        [destruct chain; exact Hchain|]
  end.
  unfold App.get_academic_trends, App.get_financial_advice, App.get_wellness_tips,
    App.get_career_insights, App.get_latest_news. cbv zeta.
  unfold content_kinds.
  apply store_sends; [apply guarded_answer_sends; request_kind|intros s1 net1].
  apply store_sends; [apply guarded_answer_sends; request_kind|intros s2 net2].
  apply store_sends; [apply guarded_answer_sends; request_kind|intros s3 net3].
  apply store_sends; [apply guarded_answer_sends; request_kind|intros s4 net4].
  apply store_sends; [apply guarded_answer_sends; request_kind|intros s5 net5].
  apply store_sends; [apply guarded_answer_sends; request_kind|intros s6 net6].
  apply store_sends; [apply guarded_answer_sends; request_kind|intros s7 net7].
  apply store_sends; [apply guarded_answer_sends; request_kind|intros s8 net8].
  exists []. split; [symmetry; apply app_nil_r|apply sublist_nil_l].
Qed.

Lemma content_kinds_distinct : NoDup content_kinds.
Proof.
  unfold content_kinds.
  repeat (apply NoDup_cons_2;
          [rewrite ?elem_of_cons, elem_of_nil; intros Hin;
           repeat (destruct Hin as [Hin|Hin]; [discriminate Hin|]); exact Hin|]).
  apply NoDup_nil_2.
Qed.

Lemma is_fresh_only_if force s t :
  App.is_fresh force s t = true ->
  force = false /\ exists u, App.last_updated s = Some u /\ Datetime.days_of (t - u) < 1.
Proof.
  unfold App.is_fresh. destruct force; simpl; [discriminate|].
  destruct (App.last_updated s) as [u|]; [|discriminate].
  intros H. apply Z.ltb_lt in H. split; [reflexivity|]. exists u. split; [reflexivity|exact H].
Qed.

(** C9, as the code has it: requests are sent only when the refresh is
    forced, or [last_updated] is null, or at least one day has passed
    since it; an invocation that is not forced and finds [last_updated]
    less than a day old changes nothing and sends nothing; one
    invocation sends at most one request for each content kind; and
    when an invocation has set [last_updated] to its own time, a
    non-forced invocation within the same second changes nothing and
    sends nothing. *)
Theorem refresh_only_when_stale
    (loads : string -> option Py.pyval) (force : bool) (s : App.session) (e : env)
    (net : App.network) :
  (App.sent (snd (App.update_content_cache loads force s e net)) <> App.sent net ->
   force = true \/ App.last_updated s = None
   \/ exists u, App.last_updated s = Some u /\ 1 <= Datetime.days_of (now e - u))
  /\ (forall u,
        force = false -> App.last_updated s = Some u ->
        Datetime.days_of (now e - u) < 1 ->
        App.update_content_cache loads force s e net = (s, rng e, net))
  /\ (exists reqs,
        App.sent (snd (App.update_content_cache loads force s e net)) = App.sent net ++ reqs
        /\ sublist (map kind_of reqs) content_kinds
        /\ List.NoDup (map kind_of reqs))
  /\ (forall e2,
        App.last_updated (fst (fst (App.update_content_cache loads force s e net)))
        = Some (now e) ->
        0 <= now e2 - now e < Datetime.us_per_second ->
        App.update_content_cache loads false
          (fst (fst (App.update_content_cache loads force s e net))) e2
          (snd (App.update_content_cache loads force s e net))
        = (fst (fst (App.update_content_cache loads force s e net)), rng e2,
           snd (App.update_content_cache loads force s e net))).
Proof.
  split; [|split; [|split]].
  - intros Hsent.
    destruct (App.is_fresh force s (now e)) eqn:Ef.
    + exfalso. apply Hsent. unfold App.update_content_cache. rewrite Ef. reflexivity.
    + unfold App.is_fresh in Ef. destruct force; [left; reflexivity|right].
      destruct (App.last_updated s) as [u|]; [right|left; reflexivity].
      simpl in Ef. apply Z.ltb_ge in Ef. exists u. split; [reflexivity|exact Ef].
  - intros u -> Hu Hd. apply (fresh_is_skipped loads s e net u Hu Hd).
  - destruct (update_sends loads force s e net) as (reqs & Hreqs & Hsub).
    exists reqs. split; [exact Hreqs|]. split; [exact Hsub|].
    apply NoDup_ListNoDup, (sublist_NoDup _ _ content_kinds_distinct Hsub).
  - intros e2 Hupd Hclose.
    apply (fresh_is_skipped loads _ e2 _ (now e) Hupd).
    unfold Datetime.days_of, Datetime.us_per_day, Datetime.us_per_second in *.
    apply Z.div_lt_upper_bound; lia.
Qed.

Definition same_second : env := {| now := now mid_april + 250000; rng := [] |}.

Lemma refresh_only_when_stale_witness :
  App.update_content_cache Json.loads false
    (fst (fst (App.update_content_cache Json.loads false (keyed_session None) mid_april
                 unreachable_service))) same_second
    (snd (App.update_content_cache Json.loads false (keyed_session None) mid_april
            unreachable_service))
  = (fst (fst (App.update_content_cache Json.loads false (keyed_session None) mid_april
                 unreachable_service)), rng same_second,
     snd (App.update_content_cache Json.loads false (keyed_session None) mid_april
            unreachable_service)).
Proof.
  destruct (refresh_only_when_stale Json.loads false (keyed_session None) mid_april
              unreachable_service) as (_ & _ & _ & Hsecond).
  apply Hsecond.
  - vm_compute. reflexivity.
  - split; vm_compute; [discriminate|reflexivity].
Defined.

(** The cache was refreshed at midnight of the 14th; two non-forced
    invocations follow, one microsecond before and at midnight of the
    15th.  The first is skipped; the second sends its eight requests and
    replaces the payloads. *)
Definition refreshed_on_april_14 : App.session := keyed_session (Some (Datetime.make 2025 4 14)).
Definition before_midnight : env := {| now := april_15 - 1; rng := [] |}.
Definition at_midnight : env := {| now := april_15; rng := [] |}.

Lemma day_boundary_between_calls :
  0 <= now at_midnight - now before_midnight < Datetime.us_per_second
  /\ App.update_content_cache Json.loads false refreshed_on_april_14 before_midnight
       unreachable_service
     = (refreshed_on_april_14, [], unreachable_service)
  /\ List.length
       (App.sent (snd (App.update_content_cache Json.loads false refreshed_on_april_14
                         at_midnight unreachable_service))) = 8%nat
  /\ App.entries refreshed_on_april_14 !! "academic_trends"%string = Some Py.PNone
  /\ App.entries (fst (fst (App.update_content_cache Json.loads false refreshed_on_april_14
                              at_midnight unreachable_service))) !! "academic_trends"%string
     = Some (App.fallback_academic_trends App.Engineering).
Proof.
  split; [split; vm_compute; [discriminate|reflexivity]|].
  split; [reflexivity|]. split; [vm_compute; reflexivity|].
  split; vm_compute; reflexivity.
Qed.

(** A cached news entry that is a dict (an earlier answer that was a
    JSON object) makes the news fallback raise: the refresh ends before
    [last_updated] is set, and the next non-forced invocation, in the
    same second, asks again for what the first one asked. *)
Definition poisoned_session : App.session :=
  App.set_entry "education_news" (Py.PDict [("title"%string, Py.PStr "Exam dates")])
    (keyed_session None).

Lemma aborted_refresh_is_repeated :
  App.fetch_trending_news "education" 3 (App.entries poisoned_session) = Py.Raise Py.TypeError
  /\ App.last_updated
       (fst (fst (App.update_content_cache Json.loads false poisoned_session mid_april
                    unreachable_service))) = None
  /\ map kind_of
       (App.sent (snd (App.update_content_cache Json.loads false
                         (fst (fst (App.update_content_cache Json.loads false
                                      poisoned_session mid_april unreachable_service)))
                         same_second
                         (snd (App.update_content_cache Json.loads false
                                 poisoned_session mid_april unreachable_service)))))
     = ["academic_trends"; "financial_tips"; "wellness_tips"; "career_insights";
        "news:education";
        "academic_trends"; "financial_tips"; "wellness_tips"; "career_insights";
        "news:education"]%string.
Proof.
  split; [vm_compute; reflexivity|]. split; vm_compute; reflexivity.
Qed.

(** A cached news entry that is [None] (an earlier answer that was
    [null]) is falsy: the news fallback is the static list of the topic
    and the refresh completes. *)
Definition session_with_null_news : App.session :=
  App.set_entry "education_news" Py.PNone (keyed_session None).

Lemma null_news_refresh_completes :
  forallb (news_fallback_returns (App.entries session_with_null_news)) news_topics = true
  /\ App.last_updated
       (fst (fst (App.update_content_cache Json.loads false session_with_null_news
                    mid_april unreachable_service))) = Some (now mid_april).
Proof.
  split; vm_compute; reflexivity.
Qed.

(** * Further properties of the code *)

(** ** Documents on disk (data_manager.py) *)





(** X3: The other readers of [get_data]: the career profile is always
    [None] and the saved resources are always the empty list, for every
    constructed data manager. *)
Theorem get_data_callers_return_default
    (data_dir student_id : string) (career : CareerGuide.career_data)
    (skills experiences : list Py.pyval) (opportunities : list CareerGuide.opportunity) :
  CareerGuide.get_career_profile
    {| CareerGuide.student_id := student_id;
       CareerGuide.data_manager := DataManager.init data_dir;
       CareerGuide.career := career; CareerGuide.skills := skills;
       CareerGuide.experiences := experiences;
       CareerGuide.opportunities := opportunities |} = Py.PNone
  /\ ResourceConnector.get_saved_resources
       {| ResourceConnector.student_id := student_id;
          ResourceConnector.data_manager := DataManager.init data_dir |} = Py.PList [].
Proof.
  unfold CareerGuide.get_career_profile, ResourceConnector.get_saved_resources. simpl.
  rewrite !get_data_of_init. split; reflexivity.
Qed.

(** ** Spending of the month (financial_planner.py) *)



Lemma assoc_assoc_set {V} (k k' : string) (v : V) (d : list (string * V)) :
  Py.assoc k' (Py.assoc_set k v d) = if String.eqb k' k then Some v else Py.assoc k' d.
Proof.
  induction d as [|[k0 v0] r IH]; simpl.
  - reflexivity.
  - destruct (String.eqb k k0) eqn:E; simpl.
    + apply String.eqb_eq in E. subst k0.
      destruct (String.eqb k' k); reflexivity.
    + destruct (String.eqb k' k0) eqn:E'.
      * apply String.eqb_eq in E'. subst k0.
        rewrite String.eqb_sym, E. reflexivity.
      * exact IH.
Qed.

Lemma assoc_In {V} (k : string) (d : list (string * V)) :
  List.In k (map fst d) <-> Py.assoc k d <> None.
Proof.
  induction d as [|[k0 v0] r IH]; simpl.
  - split; [contradiction|congruence].
  - destruct (String.eqb k k0) eqn:E.
    + apply String.eqb_eq in E. split; [discriminate|]. intros _. left. congruence.
    + apply String.eqb_neq in E. rewrite <- IH. split.
      * intros [H|H]; [congruence|exact H].
      * intros H. right. exact H.
Qed.

Lemma assoc_set_keys {V} (k : string) (v : V) (d : list (string * V)) :
  map fst (Py.assoc_set k v d)
  = match Py.assoc k d with
    | Some _ => map fst d
    | None => map fst d ++ [k]
    end.
Proof.
  induction d as [|[k0 v0] r IH]; simpl.
  - reflexivity.
  - destruct (String.eqb k k0) eqn:E; simpl.
    + reflexivity.
    + rewrite IH. destruct (Py.assoc k r); reflexivity.
Qed.

Lemma add_to_keys (c : string) (a : Q) (sp : list (string * Q)) :
  map fst (FinancialPlanner.add_to c a sp)
  = match Py.assoc c sp with
    | Some _ => map fst sp
    | None => map fst sp ++ [c]
    end.
Proof.
  unfold FinancialPlanner.add_to.
  destruct (Py.assoc c sp) as [v|] eqn:E; rewrite assoc_set_keys, E; reflexivity.
Qed.

Lemma add_to_assoc (c c' : string) (a : Q) (sp : list (string * Q)) :
  (Py.get_or 0 (Py.assoc c' (FinancialPlanner.add_to c a sp))
   == Py.get_or 0 (Py.assoc c' sp) + (if String.eqb c' c then a else 0))%Q.
Proof.
  unfold FinancialPlanner.add_to.
  destruct (Py.assoc c sp) as [v|] eqn:E; rewrite assoc_assoc_set;
    destruct (String.eqb c' c) eqn:Ec; simpl.
  - apply String.eqb_eq in Ec. subst c'. rewrite E. reflexivity.
  - ring.
  - apply String.eqb_eq in Ec. subst c'. rewrite E. simpl. ring.
  - ring.
Qed.

(** The spending after the loop over the counted transactions [l],
    started from the dictionary [sp]. *)
Definition spending_of (l : list FinancialPlanner.transaction) (sp : list (string * Q))
  : list (string * Q) :=
  fold_left
    (fun spending x =>
       FinancialPlanner.add_to (Py.get_or "Other"%string (FinancialPlanner.category x))
         (Qabs (Py.get_or 0%Q (FinancialPlanner.amount x))) spending)
    l sp.

Definition in_category (c : string) (x : FinancialPlanner.transaction) : bool :=
  String.eqb c (Py.get_or "Other"%string (FinancialPlanner.category x)).

Lemma spending_of_keys (l : list FinancialPlanner.transaction) :
  forall sp : list (string * Q),
    List.NoDup (map fst sp) ->
    List.NoDup (map fst (spending_of l sp))
    /\ forall c, List.In c (map fst (spending_of l sp))
                 <-> List.In c (map fst sp)
                     \/ exists x, List.In x l /\ in_category c x = true.
Proof.
  induction l as [|x r IH]; intros sp Hnd; simpl.
  - split; [exact Hnd|]. intros c. split; [auto|].
    intros [H|(x & [] & _)]. exact H.
  - set (cx := Py.get_or "Other"%string (FinancialPlanner.category x)).
    set (ax := Qabs (Py.get_or 0%Q (FinancialPlanner.amount x))).
    assert (Hnd' : List.NoDup (map fst (FinancialPlanner.add_to cx ax sp))).
    { rewrite add_to_keys. destruct (Py.assoc cx sp) eqn:E; [exact Hnd|].
      apply List.NoDup_app; [exact Hnd|repeat constructor; intros []|].
      intros y Hy [<-|[]]. apply assoc_In in Hy. congruence. }
    destruct (IH _ Hnd') as [H1 H2]. split; [exact H1|].
    intros c. rewrite H2, add_to_keys. split.
    + intros [H|(y & Hy & Hc)].
      * destruct (Py.assoc cx sp) eqn:E; [left; exact H|].
        apply in_app_or in H. destruct H as [H|[<-|[]]]; [left; exact H|].
        right. exists x. split; [left; reflexivity|].
        unfold in_category. apply String.eqb_refl.
      * right. exists y. split; [right; exact Hy|exact Hc].
    + intros [H|(y & [<-|Hy] & Hc)].
      * left. destruct (Py.assoc cx sp); [exact H|]. apply in_or_app. left. exact H.
      * left. unfold in_category in Hc. apply String.eqb_eq in Hc. fold cx in Hc. subst c.
        destruct (Py.assoc cx sp) eqn:E.
        -- apply assoc_In. congruence.
        -- apply in_or_app. right. left. reflexivity.
      * right. exists y. split; assumption.
Qed.

Lemma spending_of_assoc (c : string) (l : list FinancialPlanner.transaction) :
  forall sp : list (string * Q),
    (Py.get_or 0 (Py.assoc c (spending_of l sp))
     == Py.get_or 0 (Py.assoc c sp)
        + Py.sum (map (fun x => Qabs (Py.get_or 0%Q (FinancialPlanner.amount x)))
                      (List.filter (in_category c) l)))%Q.
Proof.
  induction l as [|x r IH]; intros sp; simpl.
  - unfold Py.sum. simpl. ring.
  - rewrite IH, add_to_assoc. fold (in_category c x).
    destruct (in_category c x); simpl.
    + rewrite sum_cons. ring.
    + ring.
Qed.

(** X5: [get_actual_spending] groups the counted expenses by category: no
    category appears twice, a category appears exactly when one counted
    expense has it (a missing category reads ["Other"]), and its amount
    is the sum of the absolute amounts of the counted expenses of that
    category. *)
Theorem get_actual_spending_by_category (self : FinancialPlanner.t) (e : env) :
  List.NoDup (map fst (FinancialPlanner.get_actual_spending self e))
  /\ forall c : string,
       (List.In c (map fst (FinancialPlanner.get_actual_spending self e))
        <-> exists x, List.In x (FinancialPlanner.transactions self)
                      /\ counted e x = true /\ in_category c x = true)
       /\ (Py.get_or 0 (Py.assoc c (FinancialPlanner.get_actual_spending self e))
           == Py.sum (map (fun x => Qabs (Py.get_or 0%Q (FinancialPlanner.amount x)))
                          (List.filter (fun x => counted e x && in_category c x)
                                       (FinancialPlanner.transactions self))))%Q.
Proof.
  change (FinancialPlanner.get_actual_spending self e)
    with (spending_of (List.filter (counted e) (FinancialPlanner.transactions self)) []).
  destruct (spending_of_keys (List.filter (counted e) (FinancialPlanner.transactions self)) [])
    as [H1 H2]; [constructor|].
  split; [exact H1|]. intros c. split.
  - rewrite H2. split.
    + intros [[]|(x & Hx & Hc)]. apply filter_In in Hx. destruct Hx as [Hx Hcnt].
      exists x. auto.
    + intros (x & Hx & Hcnt & Hc). right. exists x. split; [|exact Hc].
      apply filter_In. auto.
  - rewrite spending_of_assoc. simpl.
    assert (Hf : forall l, List.filter (in_category c) (List.filter (counted e) l)
                           = List.filter (fun x => counted e x && in_category c x) l).
    { induction l as [|x r IH]; simpl; [reflexivity|].
      destruct (counted e x); simpl; [|exact IH].
      destruct (in_category c x); simpl; rewrite IH; reflexivity. }
    rewrite Hf. ring.
Qed.

(** ** The cache of the engine (prediction_engine.py) *)

(** X6: After a call that ran the generators at [now]: a non-empty result is
    returned again, with the engine unchanged, by every call less than
    one hour after [now], whatever the documents hold then; an empty
    result is never served from the cache, and after one hour or more
    the call is the call on a freshly constructed engine. *)
Theorem cache_served_within_the_hour
    (self : PredictiveEngine.t) (docs : PredictiveEngine.documents)
    (now : Datetime.datetime) (recs : list PredictiveEngine.recommendation)
    (self' : PredictiveEngine.t) (docs' : PredictiveEngine.documents)
    (now' : Datetime.datetime) :
  PredictiveEngine.get_personalized_recommendations self docs now = Py.Ok (recs, self') ->
  PredictiveEngine.cache_is_recent self now = false ->
  (recs <> [] -> now' - now < Datetime.hours 1 ->
   PredictiveEngine.get_personalized_recommendations self' docs' now' = Py.Ok (recs, self'))
  /\ (recs = [] \/ Datetime.hours 1 <= now' - now ->
      PredictiveEngine.get_personalized_recommendations self' docs' now'
      = PredictiveEngine.get_personalized_recommendations
          (PredictiveEngine.init (PredictiveEngine.student_id self)
             (PredictiveEngine.student_profile self)) docs' now').
Proof.
  intros Hcall Hfresh.
  unfold PredictiveEngine.get_personalized_recommendations in Hcall.
  rewrite Hfresh in Hcall.
  destruct (PredictiveEngine._generate_academic_recommendations docs now) as [a|];
    [|discriminate].
  destruct (PredictiveEngine._generate_financial_recommendations docs now) as [f|];
    [|discriminate].
  destruct (PredictiveEngine._generate_wellness_recommendations docs now) as [w|];
    [|discriminate].
  destruct (PredictiveEngine._generate_career_recommendations self docs) as [c|];
    [|discriminate].
  simpl in Hcall. injection Hcall as Hrecs <-. rewrite Hrecs. split.
  - intros Hne Hlt. unfold PredictiveEngine.get_personalized_recommendations,
      PredictiveEngine.cache_is_recent. simpl.
    destruct recs as [|r rs]; [congruence|].
    apply Z.ltb_lt in Hlt. rewrite Hlt. reflexivity.
  - intros Hold. unfold PredictiveEngine.get_personalized_recommendations,
      PredictiveEngine.cache_is_recent. simpl.
    assert (Hc : match recs with
                 | [] => false
                 | _ :: _ => now' - now <? Datetime.hours 1
                 end = false).
    { destruct Hold as [->|Hge]; [reflexivity|].
      destruct recs; [reflexivity|]. apply Z.ltb_ge. exact Hge. }
    rewrite Hc. reflexivity.
Qed.

Lemma cache_served_within_the_hour_witness :
  exists recs self',
    PredictiveEngine.get_personalized_recommendations
      (PredictiveEngine.init "s1" (Some {| PredictiveEngine.year_of_study := None |}))
      busy_student april_15 = Py.Ok (recs, self')
    /\ PredictiveEngine.get_personalized_recommendations self' no_documents
         (april_15 + Datetime.hours 1 - 1) = Py.Ok (recs, self').
Proof.
  eexists _, _. split; [vm_compute; reflexivity|].
  apply (cache_served_within_the_hour
           (PredictiveEngine.init "s1" (Some {| PredictiveEngine.year_of_study := None |}))
           busy_student april_15 _ _ no_documents (april_15 + Datetime.hours 1 - 1)).
  - vm_compute. reflexivity.
  - reflexivity.
  - discriminate.
  - vm_compute. reflexivity.
Defined.

(** ** The priorities the generators assign (prediction_engine.py) *)

(** X7: Every recommendation a call returns, fresh or cached, carries one of
    the priorities high, medium and low, so its rank in the sort is 1, 2
    or 3: the defaults of the sort key, low for a missing priority and 0
    for an unknown one, are never used. *)
Theorem returned_priorities_are_known
    (self : PredictiveEngine.t) (docs : PredictiveEngine.documents)
    (now : Datetime.datetime) (recs : list PredictiveEngine.recommendation)
    (self' : PredictiveEngine.t) :
  reachable self ->
  PredictiveEngine.get_personalized_recommendations self docs now = Py.Ok (recs, self') ->
  Forall (fun x => known_priority x /\ 1 <= PredictiveEngine.rank x <= 3) recs.
Proof.
  intros Hreach Hcall.
  assert (Hgen : sorted_generation recs).
  { apply get_personalized_recommendations_cases in Hcall.
    destruct Hcall as [(_ & Hcache & _)|(_ & (g & Hg & ->) & _)].
    - pose proof (reachable_cache_generated self Hreach) as Hinv.
      unfold cache_generated in Hinv. rewrite Hcache in Hinv. exact Hinv.
    - exists self, docs, now, g. split; [exact Hg|reflexivity]. }
  destruct Hgen as (s0 & docs0 & now0 & g & (a & f & w & c & Ha & Hf & Hw & Hc & ->) & ->).
  assert (Hall : Forall known_priority (a ++ f ++ w ++ c)).
  { repeat (apply Forall_app; split);
      eauto using academic_priorities, financial_priorities, wellness_priorities,
        career_priorities. }
  rewrite List.Forall_forall in *. intros x Hx.
  apply (Permutation_in x (sorted_reverse_Permutation PredictiveEngine.rank _)) in Hx.
  specialize (Hall x Hx). split; [exact Hall|].
  unfold PredictiveEngine.rank.
  destruct Hall as [-> | [-> | ->]]; simpl; lia.
Qed.

Lemma returned_priorities_are_known_witness :
  exists recs self',
    PredictiveEngine.get_personalized_recommendations
      (PredictiveEngine.init "s1" (Some {| PredictiveEngine.year_of_study := None |}))
      busy_student april_15 = Py.Ok (recs, self')
    /\ Forall (fun x => known_priority x /\ 1 <= PredictiveEngine.rank x <= 3) recs.
Proof.
  eexists _, _. split; [vm_compute; reflexivity|].
  eapply (returned_priorities_are_known
            (PredictiveEngine.init "s1" (Some {| PredictiveEngine.year_of_study := None |}))
            busy_student april_15).
  - apply reach_init.
  - vm_compute. reflexivity.
Defined.

(** ** When the generators raise (prediction_engine.py) *)



Lemma filterM_items {A} (p : A -> Py.result bool) (l l' : list A) :
  Py.filterM p l = Py.Ok l' ->
  l' = List.filter (fun x => match p x with Py.Ok b => b | Py.Raise _ => false end) l.
Proof.
  revert l'. induction l as [|x r IH]; simpl; intros l' H.
  - congruence.
  - destruct (p x) as [b|]; simpl in H; [|discriminate].
    destruct (Py.filterM p r) as [ys|]; simpl in H; [|discriminate].
    injection H as <-. rewrite (IH ys eq_refl). reflexivity.
Qed.












(** ** Sorting by any total order *)

From Stdlib Require OrderedTypeEx.

Section OrderSortingFacts.
Context {A K : Type} (leb : K -> K -> bool) (key : A -> K).
Hypothesis leb_total : forall a b, leb a b = true \/ leb b a = true.
Hypothesis leb_trans : forall a b c, leb a b = true -> leb b c = true -> leb a c = true.

(** The elements whose key is equivalent to [k]. *)
Definition same_key (k : K) (a : A) : bool := leb (key a) k && leb k (key a).

Lemma insert_Permutation_by (x : A) (l : list A) :
  Permutation (Py.insert leb key x l) (x :: l).
Proof.
  induction l as [|y r IH]; simpl.
  - apply Permutation_refl.
  - destruct (leb (key x) (key y)).
    + apply Permutation_refl.
    + apply Permutation_trans with (y :: x :: r).
      * apply perm_skip, IH.
      * apply perm_swap.
Qed.

Lemma sorted_Permutation_by (l : list A) : Permutation (Py.sorted leb key l) l.
Proof.
  induction l as [|x r IH]; simpl.
  - apply perm_nil.
  - apply Permutation_trans with (x :: Py.sorted leb key r).
    + apply insert_Permutation_by.
    + apply perm_skip, IH.
Qed.

Lemma sorted_reverse_Permutation_by (l : list A) :
  Permutation (Py.sorted_reverse leb key l) l.
Proof.
  unfold Py.sorted_reverse.
  apply Permutation_trans with (Py.sorted leb key (rev l)).
  - apply Permutation_sym, Permutation_rev.
  - apply Permutation_trans with (rev l).
    + apply sorted_Permutation_by.
    + apply Permutation_sym, Permutation_rev.
Qed.

Lemma insert_ascending_by (x : A) (l : list A) :
  StronglySorted (fun a b => leb (key a) (key b) = true) l ->
  StronglySorted (fun a b => leb (key a) (key b) = true) (Py.insert leb key x l).
Proof.
  induction 1 as [|y r Hr IH Hy]; simpl.
  - repeat constructor.
  - destruct (leb (key x) (key y)) eqn:E.
    + constructor.
      * constructor; assumption.
      * constructor; [exact E|].
        eapply List.Forall_impl; [|exact Hy]. simpl. intros a Ha.
        exact (leb_trans _ _ _ E Ha).
    + constructor; [exact IH|].
      apply (Permutation_Forall (Permutation_sym (insert_Permutation_by x r))).
      constructor; [|exact Hy].
      destruct (leb_total (key x) (key y)) as [H|H]; [congruence|exact H].
Qed.

Lemma sorted_ascending_by (l : list A) :
  StronglySorted (fun a b => leb (key a) (key b) = true) (Py.sorted leb key l).
Proof.
  induction l as [|x r IH]; simpl.
  - constructor.
  - apply insert_ascending_by, IH.
Qed.

Lemma sorted_reverse_descending_by (l : list A) :
  StronglySorted (fun a b => leb (key b) (key a) = true) (Py.sorted_reverse leb key l).
Proof.
  unfold Py.sorted_reverse.
  pose proof (sorted_ascending_by (rev l)) as H.
  induction H as [|x r Hr IH Hx]; simpl.
  - constructor.
  - apply StronglySorted_snoc; [exact IH|]. apply Forall_rev. exact Hx.
Qed.

Lemma insert_stable_by (k : K) (x : A) (l : list A) :
  List.filter (same_key k) (Py.insert leb key x l) = List.filter (same_key k) (x :: l).
Proof.
  induction l as [|y r IH]; [reflexivity|].
  simpl. destruct (leb (key x) (key y)) eqn:E; [reflexivity|].
  simpl. rewrite IH. simpl.
  destruct (same_key k x) eqn:Ex, (same_key k y) eqn:Ey; try reflexivity.
  unfold same_key in Ex, Ey.
  apply andb_true_iff in Ex, Ey. destruct Ex as [Ex _], Ey as [_ Ey].
  rewrite (leb_trans _ _ _ Ex Ey) in E. discriminate.
Qed.

Lemma sorted_stable_by (k : K) (l : list A) :
  List.filter (same_key k) (Py.sorted leb key l) = List.filter (same_key k) l.
Proof.
  induction l as [|x r IH]; [reflexivity|].
  simpl Py.sorted. rewrite insert_stable_by. simpl. rewrite IH. reflexivity.
Qed.

Lemma sorted_reverse_stable_by (k : K) (l : list A) :
  List.filter (same_key k) (Py.sorted_reverse leb key l) = List.filter (same_key k) l.
Proof.
  unfold Py.sorted_reverse.
  rewrite filter_rev_list, sorted_stable_by, filter_rev_list. apply rev_involutive.
Qed.

Lemma filter_head (p : A -> bool) (l : list A) (x : A) (r : list A) :
  List.filter p l = x :: r ->
  exists l1 l2, l = l1 ++ x :: l2 /\ Forall (fun a => p a = false) l1 /\ p x = true.
Proof.
  induction l as [|y t IH]; simpl; [discriminate|].
  destruct (p y) eqn:E.
  - intros H. injection H as -> _. exists [], t. repeat split; [constructor|exact E].
  - intros H. destruct (IH H) as (l1 & l2 & -> & H1 & H2).
    exists (y :: l1), l2. repeat split; [constructor; assumption|exact H2].
Qed.

(** The head of a descending stable sort: no element has a larger key,
    and it is the first element of the list with a key that large. *)
Lemma sorted_reverse_head (l : list A) (x : A) (r : list A) :
  Py.sorted_reverse leb key l = x :: r ->
  Forall (fun a => leb (key a) (key x) = true) l
  /\ exists l1 l2, l = l1 ++ x :: l2
                   /\ Forall (fun a => leb (key x) (key a) = false) l1.
Proof.
  intros H.
  pose proof (sorted_reverse_descending_by l) as Hd. rewrite H in Hd.
  pose proof (sorted_reverse_Permutation_by l) as Hp. rewrite H in Hp.
  assert (Hxx : leb (key x) (key x) = true).
  { destruct (leb_total (key x) (key x)); assumption. }
  assert (Hall : Forall (fun a => leb (key a) (key x) = true) l).
  { apply (Permutation_Forall Hp). inversion Hd; subst. constructor; assumption. }
  split; [exact Hall|].
  pose proof (sorted_reverse_stable_by (key x) l) as Hs. rewrite H in Hs.
  simpl in Hs. unfold same_key at 1 in Hs. rewrite Hxx in Hs. simpl in Hs.
  symmetry in Hs. apply filter_head in Hs.
  destruct Hs as (l1 & l2 & -> & H1 & _). exists l1, l2. split; [reflexivity|].
  apply Forall_app in Hall. destruct Hall as [Hall1 _].
  rewrite List.Forall_forall in *. intros a Ha.
  specialize (H1 a Ha). specialize (Hall1 a Ha). unfold same_key in H1.
  rewrite Hall1 in H1. exact H1.
Qed.

End OrderSortingFacts.

Lemma string_leb_total (a b : string) : String.leb a b = true \/ String.leb b a = true.
Proof. apply String.leb_total. Qed.

Lemma string_leb_trans (a b c : string) :
  String.leb a b = true -> String.leb b c = true -> String.leb a c = true.
Proof.
  unfold String.leb.
  change String.compare with OrderedTypeEx.String_as_OT.cmp.
  destruct (OrderedTypeEx.String_as_OT.cmp a b) eqn:Eab; [| |discriminate];
    destruct (OrderedTypeEx.String_as_OT.cmp b c) eqn:Ebc; try discriminate; intros _ _.
  - apply OrderedTypeEx.String_as_OT.cmp_eq in Eab, Ebc. subst.
    rewrite (proj2 (OrderedTypeEx.String_as_OT.cmp_eq c c) eq_refl). reflexivity.
  - apply OrderedTypeEx.String_as_OT.cmp_eq in Eab. subst. rewrite Ebc. reflexivity.
  - apply OrderedTypeEx.String_as_OT.cmp_eq in Ebc. subst. rewrite Eab. reflexivity.
  - apply OrderedTypeEx.String_as_OT.cmp_lt in Eab, Ebc.
    rewrite (proj2 (OrderedTypeEx.String_as_OT.cmp_lt a c)
               (OrderedTypeEx.String_as_OT.lt_trans _ _ _ Eab Ebc)). reflexivity.
Qed.

(** ** The wellness score, stress factors and habits (mental_wellness.py) *)

Definition date_key (x : MentalWellnessCoach.mood_entry) : string :=
  Py.get_or ""%string (MentalWellnessCoach.date x).

Definition wellness_of (l : list MentalWellnessCoach.mood_entry) : Wellness.t :=
  {| Wellness.student_id := "s1"%string; Wellness.data_manager := DataManager.init "data";
     Wellness.mood_entries := l; Wellness.sleep_data := []; Wellness.habits := [] |}.

(** X10: The wellness score is [7.0] without mood entries; otherwise it is
    the score ([7.0] when it has none) of the entry with the largest date
    string, and of the first such entry of the list when several carry
    that date. *)
Theorem get_current_wellness_score_latest (self : Wellness.t) :
  (Wellness.mood_entries self = [] -> Wellness.get_current_wellness_score self = 7%Q)
  /\ (Wellness.mood_entries self <> [] ->
      exists l1 x l2,
        Wellness.mood_entries self = l1 ++ x :: l2
        /\ Wellness.get_current_wellness_score self
           = Py.get_or 7%Q (MentalWellnessCoach.score x)
        /\ Forall (fun a => String.leb (date_key a) (date_key x) = true)
                  (Wellness.mood_entries self)
        /\ Forall (fun a => String.leb (date_key x) (date_key a) = false) l1).
Proof.
  unfold Wellness.get_current_wellness_score.
  destruct (Wellness.mood_entries self) as [|m ms] eqn:E.
  - split; [reflexivity|congruence].
  - split; [discriminate|]. intros _. fold date_key.
    destruct (Py.sorted_reverse String.leb date_key (m :: ms)) as [|x r] eqn:Es.
    + pose proof (sorted_reverse_Permutation_by String.leb date_key (m :: ms)) as Hp.
      rewrite Es in Hp. apply Permutation_nil_cons in Hp. contradiction.
    + destruct (sorted_reverse_head String.leb date_key string_leb_total string_leb_trans
                  _ _ _ Es) as (Hall & l1 & l2 & Hl & Hfirst).
      exists l1, x, l2. repeat split; assumption.
Qed.

Definition mood_on (date : string) (score : Q) : MentalWellnessCoach.mood_entry :=
  {| MentalWellnessCoach.entry_id := None; MentalWellnessCoach.created_at := None;
     MentalWellnessCoach.date := Some date; MentalWellnessCoach.score := Some score;
     MentalWellnessCoach.stress_factors := None; MentalWellnessCoach.sleep_hours := None |}.

Lemma get_current_wellness_score_latest_witness :
  exists l1 x l2,
    [mood_on "2025-04-02" 4; mood_on "2025-04-09" 8; mood_on "2025-04-09" 3]
    = l1 ++ x :: l2
    /\ Wellness.get_current_wellness_score
         (wellness_of [mood_on "2025-04-02" 4; mood_on "2025-04-09" 8; mood_on "2025-04-09" 3])
       = Py.get_or 7%Q (MentalWellnessCoach.score x)
    /\ Forall (fun a => String.leb (date_key a) (date_key x) = true)
              [mood_on "2025-04-02" 4; mood_on "2025-04-09" 8; mood_on "2025-04-09" 3]
    /\ Forall (fun a => String.leb (date_key x) (date_key a) = false) l1.
Proof.
  apply (get_current_wellness_score_latest
           (wellness_of [mood_on "2025-04-02" 4; mood_on "2025-04-09" 8;
                         mood_on "2025-04-09" 3])).
  discriminate.
Defined.

(** *** Stress factors *)

Definition reported (l : list MentalWellnessCoach.mood_entry) : list string :=
  concat (map (fun x => Py.get_or [] (MentalWellnessCoach.stress_factors x)) l).

Definition occurrences (f : string) (l : list string) : Z :=
  Z.of_nat (count_occ string_dec l f).

Lemma all_factors_reported (l : list MentalWellnessCoach.mood_entry) :
  forall acc,
    fold_left
      (fun acc entry =>
         if Wellness.has_factors entry
         then acc ++ Py.get_or [] (MentalWellnessCoach.stress_factors entry)
         else acc) l acc
    = acc ++ reported l.
Proof.
  induction l as [|x r IH]; intros acc; simpl.
  - symmetry. apply app_nil_r.
  - rewrite IH. unfold reported. simpl. unfold Wellness.has_factors.
    destruct (MentalWellnessCoach.stress_factors x) as [[|f fs]|]; simpl;
      rewrite <- ?List.app_assoc; reflexivity.
Qed.

Lemma count_factor_assoc (counts : list (string * Z)) (g f : string) :
  Py.assoc f (Wellness.count_factor counts g)
  = if String.eqb f g then Some (Py.get_or 0 (Py.assoc g counts) + 1) else Py.assoc f counts.
Proof.
  unfold Wellness.count_factor.
  destruct (Py.assoc g counts) as [c|] eqn:E; rewrite assoc_assoc_set;
    destruct (String.eqb f g); reflexivity.
Qed.

Lemma count_factor_keys (counts : list (string * Z)) (g : string) :
  map fst (Wellness.count_factor counts g)
  = match Py.assoc g counts with
    | Some _ => map fst counts
    | None => map fst counts ++ [g]
    end.
Proof.
  unfold Wellness.count_factor.
  destruct (Py.assoc g counts) as [c|] eqn:E; rewrite assoc_set_keys, E; reflexivity.
Qed.

Lemma factor_counts_facts (l : list string) :
  forall counts,
    List.NoDup (map fst counts) ->
    List.NoDup (map fst (fold_left Wellness.count_factor l counts))
    /\ forall f,
         Py.assoc f (fold_left Wellness.count_factor l counts)
         = match Py.assoc f counts with
           | Some c => Some (c + occurrences f l)
           | None => if Z.eqb (occurrences f l) 0 then None else Some (occurrences f l)
           end.
Proof.
  induction l as [|g r IH]; intros counts Hnd; simpl.
  - split; [exact Hnd|]. intros f. unfold occurrences. simpl.
    destruct (Py.assoc f counts); [f_equal; lia|reflexivity].
  - assert (Hnd' : List.NoDup (map fst (Wellness.count_factor counts g))).
    { rewrite count_factor_keys. destruct (Py.assoc g counts) eqn:E; [exact Hnd|].
      apply List.NoDup_app; [exact Hnd|repeat constructor; intros []|].
      intros y Hy [<-|[]]. apply assoc_In in Hy. congruence. }
    destruct (IH _ Hnd') as [H1 H2]. split; [exact H1|].
    intros f. rewrite H2, count_factor_assoc. unfold occurrences. simpl.
    destruct (string_dec g f) as [->|Hne].
    + rewrite String.eqb_refl.
      destruct (Py.assoc f counts) as [c|]; simpl.
      * f_equal. lia.
      * destruct (Z.eqb_spec (Z.of_nat (S (count_occ string_dec r f))) 0); [lia|].
        f_equal. lia.
    + assert (Hfg : String.eqb f g = false) by (apply String.eqb_neq; congruence).
      rewrite Hfg. reflexivity.
Qed.

Lemma assoc_In_pair {V} (k : string) (v : V) (d : list (string * V)) :
  List.NoDup (map fst d) -> (List.In (k, v) d <-> Py.assoc k d = Some v).
Proof.
  induction d as [|[k0 v0] r IH]; simpl; intros Hnd.
  - split; [contradiction|discriminate].
  - inversion Hnd as [|? ? Hk0 Hr]; subst.
    destruct (String.eqb k k0) eqn:E.
    + apply String.eqb_eq in E. subst k0. split.
      * intros [H|H]; [congruence|].
        exfalso. apply Hk0. apply (in_map fst) in H. exact H.
      * intros H. left. congruence.
    + apply String.eqb_neq in E. rewrite <- (IH Hr). split.
      * intros [H|H]; [congruence|exact H].
      * intros H. right. exact H.
Qed.

(** X11: The analysis of the stress factors: the factors are the distinct
    strings reported by the mood entries, each with the number of times
    it was reported, in descending order of that number; the entries
    with factors are counted among the total. *)
Theorem get_stress_factors_analysis_counts (self : Wellness.t) :
  List.NoDup (map fst (Wellness.factors (Wellness.get_stress_factors_analysis self)))
  /\ (forall f c,
        List.In (f, c) (Wellness.factors (Wellness.get_stress_factors_analysis self))
        <-> List.In f (reported (Wellness.mood_entries self))
            /\ c = occurrences f (reported (Wellness.mood_entries self)))
  /\ StronglySorted (fun x y => snd y <= snd x)
       (Wellness.factors (Wellness.get_stress_factors_analysis self))
  /\ match Wellness.total_entries (Wellness.get_stress_factors_analysis self),
           Wellness.entries_with_factors (Wellness.get_stress_factors_analysis self) with
     | Some total, Some with_factors =>
         total = Z.of_nat (List.length (Wellness.mood_entries self))
         /\ 0 <= with_factors <= total
     | None, None => Wellness.mood_entries self = []
     | _, _ => False
     end.
Proof.
  unfold Wellness.get_stress_factors_analysis.
  destruct (Wellness.mood_entries self) as [|m ms] eqn:E.
  - simpl. split; [constructor|]. split; [|split; [constructor|reflexivity]].
    intros f c. split; [contradiction|intros [[] _]].
  - cbv zeta. rewrite all_factors_reported. simpl app.
    set (all := reported (m :: ms)).
    destruct (factor_counts_facts all [] (List.NoDup_nil _)) as [Hnd Hassoc].
    set (counts := fold_left Wellness.count_factor all []) in *.
    pose proof (sorted_reverse_Permutation snd counts) as Hp.
    cbn [Wellness.factors Wellness.total_entries Wellness.entries_with_factors].
    split; [|split; [|split]].
    + apply (Permutation_NoDup (l := map fst counts)); [|exact Hnd].
      apply Permutation_map, Permutation_sym, Hp.
    + intros f c. split.
      * intros H. apply (Permutation_in _ Hp) in H.
        apply (assoc_In_pair _ _ _ Hnd) in H. rewrite Hassoc in H. simpl in H.
        destruct (Z.eqb_spec (occurrences f all) 0) as [Hz|Hz]; [discriminate|].
        injection H as <-. split; [|reflexivity].
        unfold occurrences in Hz. apply (count_occ_In string_dec). lia.
      * intros [Hin ->]. apply (Permutation_in _ (Permutation_sym Hp)).
        apply (assoc_In_pair _ _ _ Hnd). rewrite Hassoc. simpl.
        apply (count_occ_In string_dec) in Hin.
        destruct (Z.eqb_spec (occurrences f all) 0) as [Hz|Hz]; [|reflexivity].
        unfold occurrences in Hz. lia.
    + apply sorted_reverse_descending.
    + split; [reflexivity|]. split; [lia|].
      apply inj_le. apply List.filter_length_le.
Qed.

(** *** The mood log *)

Lemma string_app_inv_head (s a b : string) : (s ++ a = s ++ b)%string -> a = b.
Proof.
  induction s as [|c s IH]; simpl; intros H; [exact H|].
  injection H as H. exact (IH H).
Qed.

Lemma join_inj (a b b' : string) :
  String.prefix "/" b = false -> String.prefix "/" b' = false ->
  DataManager.join a b = DataManager.join a b' -> b = b'.
Proof.
  unfold DataManager.join. intros -> -> H.
  destruct (String.eqb a "" || DataManager.ends_with_sep a);
    repeat (apply string_app_inv_head in H); exact H.
Qed.

Lemma file_path_inj (data_dir module student_id file_name file_name' : string) :
  String.prefix "/" (file_name ++ ".json") = false ->
  String.prefix "/" (file_name' ++ ".json") = false ->
  DataManager.file_path data_dir module student_id file_name
  = DataManager.file_path data_dir module student_id file_name' ->
  (file_name ++ ".json" = file_name' ++ ".json")%string.
Proof.
  unfold DataManager.file_path. intros H1 H2 H.
  exact (join_inj _ _ _ H1 H2 H).
Qed.

Lemma save_data_of_init (data_dir student_id module file_name : string)
    (data : Py.pyval) (d : DataManager.disk) :
  DataManager.save_data (DataManager.init data_dir) student_id module file_name data d
  = if DataManager.read_only d then (false, d)
    else (true,
          {| DataManager.files :=
               <[ DataManager.file_path data_dir module student_id file_name := data ]>
                 (DataManager.files d);
             DataManager.read_only := DataManager.read_only d |}).
Proof.
  unfold DataManager.save_data, DataManager.data_dir_of, DataManager.getattr,
    DataManager.init. simpl. rewrite lookup_singleton_eq. simpl.
  destruct (DataManager.read_only d); reflexivity.
Qed.

Lemma load_data_of_init (data_dir student_id module file_name : string)
    (d : DataManager.disk) :
  DataManager.load_data (DataManager.init data_dir) student_id module file_name d
  = Py.get_or Py.PNone
      (DataManager.files d !! DataManager.file_path data_dir module student_id file_name).
Proof.
  unfold DataManager.load_data, DataManager.data_dir_of, DataManager.getattr,
    DataManager.init. simpl. rewrite lookup_singleton_eq. simpl.
  destruct (DataManager.files d !! _); reflexivity.
Qed.

(** X12: [log_mood] always extends the mood list in memory by the entry, and
    the sleep list by its mirror when the entry has sleep hours, with
    the date of the entry or, without one, the current time.  Its
    result tells whether the mood document was written: on a writable
    disk both documents on disk hold the lists in memory; on a read-only
    disk the call returns [False], the disk is unchanged and the lists
    in memory are extended all the same. *)
Theorem log_mood_memory_and_disk
    (data_dir sid : string) (moods : list MentalWellnessCoach.mood_entry)
    (sleeps : list Wellness.sleep_record) (habits : list Wellness.habit)
    (mood_data : MentalWellnessCoach.mood_entry) (uuid1 uuid2 : string) (e : env)
    (d : DataManager.disk) (success : bool) (self' : Wellness.t) (d' : DataManager.disk) :
  Wellness.log_mood
    {| Wellness.student_id := sid; Wellness.data_manager := DataManager.init data_dir;
       Wellness.mood_entries := moods; Wellness.sleep_data := sleeps;
       Wellness.habits := habits |} mood_data uuid1 uuid2 e d
  = (success, self', d') ->
  (exists entry,
     Wellness.mood_entries self' = moods ++ [entry]
     /\ MentalWellnessCoach.entry_id entry
        = Some (Py.get_or uuid1 (MentalWellnessCoach.entry_id mood_data))
     /\ MentalWellnessCoach.date entry = MentalWellnessCoach.date mood_data
     /\ MentalWellnessCoach.score entry = MentalWellnessCoach.score mood_data)
  /\ match MentalWellnessCoach.sleep_hours mood_data with
     | None => Wellness.sleep_data self' = sleeps
     | Some h =>
         Wellness.sleep_data self'
         = sleeps ++ [{| Wellness.sleep_date :=
                           Some (Py.get_or (Datetime.isoformat (now e))
                                   (MentalWellnessCoach.date mood_data));
                         Wellness.hours := Some h;
                         Wellness.sleep_entry_id := Some uuid2 |}]
     end
  /\ success = negb (DataManager.read_only d)
  /\ (DataManager.read_only d = true -> d' = d)
  /\ (DataManager.read_only d = false ->
      DataManager.load_data (DataManager.init data_dir) sid "wellness" "mood" d'
      = Py.PList (map Wellness.mood_to_json (Wellness.mood_entries self'))
      /\ (MentalWellnessCoach.sleep_hours mood_data <> None ->
          DataManager.load_data (DataManager.init data_dir) sid "wellness" "sleep" d'
          = Py.PList (map Wellness.sleep_to_json (Wellness.sleep_data self')))).
Proof.
  unfold Wellness.log_mood. cbn [Wellness.student_id Wellness.data_manager
    Wellness.mood_entries Wellness.sleep_data Wellness.habits
    MentalWellnessCoach.sleep_hours MentalWellnessCoach.date].
  destruct (MentalWellnessCoach.sleep_hours mood_data) as [h|] eqn:Eh;
    rewrite ?save_data_of_init;
    destruct (DataManager.read_only d) eqn:Ero; cbn [snd DataManager.read_only];
    rewrite ?save_data_of_init; cbn [DataManager.read_only];
    rewrite ?Ero; intros H; injection H as <- <- <-;
    cbn [Wellness.mood_entries Wellness.sleep_data];
    (split; [eexists; repeat split; reflexivity|]);
    (split; [reflexivity|]); (split; [reflexivity|]);
    (split; [intros; try reflexivity; discriminate|]);
    intros Hw; try discriminate; rewrite !load_data_of_init; cbn [DataManager.files].
  - split.
    + rewrite lookup_insert_eq. reflexivity.
    + intros _. rewrite lookup_insert_ne, lookup_insert_eq; [reflexivity|].
      intros Heq. apply file_path_inj in Heq; [discriminate|reflexivity|reflexivity].
  - split; [|congruence]. rewrite lookup_insert_eq. reflexivity.
Qed.

Definition mood_with_sleep : MentalWellnessCoach.mood_entry :=
  {| MentalWellnessCoach.entry_id := None; MentalWellnessCoach.created_at := None;
     MentalWellnessCoach.date := Some "2025-04-15"%string;
     MentalWellnessCoach.score := Some (6 # 1);
     MentalWellnessCoach.stress_factors := Some ["Exam stress"%string];
     MentalWellnessCoach.sleep_hours := Some (7 # 1) |}.

Lemma log_mood_memory_and_disk_witness :
  exists self' d',
    Wellness.log_mood (wellness_of []) mood_with_sleep "u1" "u2" mid_april empty_disk
    = (true, self', d')
    /\ DataManager.load_data (DataManager.init "data") "s1" "wellness" "sleep" d'
       = Py.PList (map Wellness.sleep_to_json (Wellness.sleep_data self')).
Proof.
  eexists _, _. split; [vm_compute; reflexivity|].
  refine (proj2 (proj2 (proj2 (proj2 (proj2
            (log_mood_memory_and_disk "data" "s1" [] [] [] mood_with_sleep "u1" "u2"
               mid_april empty_disk true _ _ _)))) eq_refl) _).
  - vm_compute. reflexivity.
  - discriminate.
Defined.

(** *** Habits *)

Lemma find_first_Some {A} (p : A -> bool) (l : list A) : forall n i x,
  Wellness.find_first p n l = Some (i, x) ->
  exists j, (i = n + j)%nat /\ l !! j = Some x /\ p x = true
            /\ forall k y, (k < j)%nat -> l !! k = Some y -> p y = false.
Proof.
  induction l as [|a r IH]; intros n i x; simpl; [discriminate|].
  destruct (p a) eqn:E.
  - intros H. injection H as <- <-. exists 0%nat. repeat split; [lia|exact E|].
    intros k y Hk. lia.
  - intros H. destruct (IH _ _ _ H) as (j & -> & Hj & Hp & Hbefore).
    exists (S j). repeat split; [lia|exact Hj|exact Hp|].
    intros [|k] y Hk Hy; simpl in Hy; [congruence|].
    apply (Hbefore k y); [lia|exact Hy].
Qed.

Lemma find_first_insert {A} (p : A -> bool) (l : list A) (x' : A) : forall n i x,
  Wellness.find_first p n l = Some (i, x) -> p x' = true ->
  Wellness.find_first p n (<[ (i - n)%nat := x' ]> l) = Some (i, x').
Proof.
  induction l as [|a r IH]; intros n i x; simpl; [discriminate|].
  destruct (p a) eqn:E.
  - intros H Hp. injection H as <- <-. rewrite Nat.sub_diag. simpl. rewrite Hp. reflexivity.
  - intros H Hp. destruct (find_first_Some _ _ _ _ _ H) as (j & -> & _).
    replace (S n + j - n)%nat with (S j) by lia. simpl. rewrite E.
    specialize (IH (S n) (S n + j)%nat x H Hp).
    replace (S n + j - S n)%nat with j in IH by lia. exact IH.
Qed.

Lemma completed_facts (x : Wellness.habit) (today yesterday : string) :
  today <> yesterday ->
  Wellness.habit_id (Wellness.completed x today yesterday) = Wellness.habit_id x
  /\ Wellness.current_streak (Wellness.completed x today yesterday) = Some 1
  /\ Wellness.longest_streak (Wellness.completed x today yesterday)
     = (if Py.get_or 0 (Wellness.longest_streak x) <? 1 then Some 1
        else Wellness.longest_streak x)
  /\ Wellness.last_completed (Wellness.completed x today yesterday) = Some (Some today)
  /\ Wellness.completion_history (Wellness.completed x today yesterday)
     = Some (Py.get_or [] (Wellness.completion_history x) ++ [today]).
Proof.
  intros Hne. unfold Wellness.completed. cbn [Wellness.last_completed].
  assert (Hs : (if negb (String.eqb today "")
                then if String.eqb today yesterday
                     then Py.get_or 0 (Wellness.current_streak
                            {| Wellness.habit_id := Wellness.habit_id x;
                               Wellness.habit_name := Wellness.habit_name x;
                               Wellness.current_streak := Wellness.current_streak x;
                               Wellness.longest_streak := Wellness.longest_streak x;
                               Wellness.start_date := Wellness.start_date x;
                               Wellness.last_completed := Some (Some today);
                               Wellness.completion_history :=
                                 Some (Py.get_or [] (Wellness.completion_history x)
                                       ++ [today]) |}) + 1
                     else 1
                else 1) = 1).
  { apply String.eqb_neq in Hne. rewrite Hne. destruct (negb _); reflexivity. }
  rewrite Hs. cbn [Wellness.habit_id Wellness.habit_name Wellness.current_streak
    Wellness.longest_streak Wellness.start_date Wellness.last_completed
    Wellness.completion_history Py.get_or].
  destruct (Py.get_or 0 (Wellness.longest_streak x) <? 1) eqn:El;
    cbn [Wellness.habit_id Wellness.current_streak Wellness.longest_streak
         Wellness.last_completed Wellness.completion_history];
    repeat split; reflexivity.
Qed.

Lemma last_is_snoc (today : string) (history : list string) :
  Wellness.last_is today (history ++ [today]) = true.
Proof.
  unfold Wellness.last_is. rewrite rev_app_distr. simpl. apply String.eqb_refl.
Qed.

(** X13: A completion that is recorded sets the current streak of the habit
    to 1, whatever the streak was and also when the habit was last
    completed the day before: [last_completed] is read from the habit
    after it was set to today, and today is not yesterday.  So the
    longest streak is raised to 1 at most; the other habits are not
    touched. *)
Theorem log_habit_completion_resets_streak
    (self : Wellness.t) (habit_id : string) (e : env) (d : DataManager.disk)
    (i : nat) (x : Wellness.habit) :
  Wellness.date_iso (now e) <> Wellness.date_iso (now e - Datetime.days 1) ->
  Wellness.find_first (Wellness.has_id habit_id) 0 (Wellness.habits self) = Some (i, x) ->
  Wellness.last_is (Wellness.date_iso (now e))
    (Py.get_or [] (Wellness.completion_history x)) = false ->
  exists x',
    Wellness.habits (snd (fst (Wellness.log_habit_completion self habit_id e d)))
    = <[ i := x' ]> (Wellness.habits self)
    /\ Wellness.habits self !! i = Some x
    /\ Wellness.current_streak x' = Some 1
    /\ Wellness.longest_streak x'
       = (if Py.get_or 0 (Wellness.longest_streak x) <? 1 then Some 1
          else Wellness.longest_streak x)
    /\ Wellness.completion_history x'
       = Some (Py.get_or [] (Wellness.completion_history x)
               ++ [Wellness.date_iso (now e)]).
Proof.
  intros Hne Hfind Hlast. unfold Wellness.log_habit_completion. rewrite Hfind.
  cbv zeta. rewrite Hlast.
  assert (Hnot : match Py.get_or [] (Wellness.completion_history x) with
                 | [] => false
                 | _ :: _ => false
                 end = false) by (destruct (Py.get_or [] _); reflexivity).
  rewrite Hnot.
  destruct (DataManager.save_data _ _ _ _ _ d) as [success d'].
  cbn [fst snd Wellness.set_habits Wellness.habits].
  destruct (completed_facts x _ _ Hne) as (_ & Hs & Hl & _ & Hh).
  eexists. split; [reflexivity|].
  destruct (find_first_Some _ _ _ _ _ Hfind) as (j & -> & Hj & _).
  split; [exact Hj|]. split; [exact Hs|]. split; [exact Hl|exact Hh].
Qed.

Definition daily_walk (streak : Z) (last : string) (history : list string)
  : Wellness.habit :=
  {| Wellness.habit_id := Some "h1"%string; Wellness.habit_name := Some "Walk"%string;
     Wellness.current_streak := Some streak; Wellness.longest_streak := Some streak;
     Wellness.start_date := Some "2025-04-01T08:00:00"%string;
     Wellness.last_completed := Some (Some last);
     Wellness.completion_history := Some history |}.

Definition walker : Wellness.t :=
  {| Wellness.student_id := "s1"%string; Wellness.data_manager := DataManager.init "data";
     Wellness.mood_entries := []; Wellness.sleep_data := [];
     Wellness.habits :=
       [daily_walk 4 "2025-04-14" ["2025-04-11"; "2025-04-12"; "2025-04-13"; "2025-04-14"]%string] |}.

Lemma log_habit_completion_resets_streak_witness :
  exists x',
    Wellness.habits (snd (fst (Wellness.log_habit_completion walker "h1" mid_april empty_disk)))
    = <[ 0%nat := x' ]> (Wellness.habits walker)
    /\ Wellness.current_streak x' = Some 1
    /\ Wellness.longest_streak x' = Some 4.
Proof.
  destruct (log_habit_completion_resets_streak walker "h1" mid_april empty_disk 0%nat
              (daily_walk 4 "2025-04-14"
                 ["2025-04-11"; "2025-04-12"; "2025-04-13"; "2025-04-14"]%string))
    as (x' & H1 & _ & H2 & H3 & _).
  - vm_compute. discriminate.
  - reflexivity.
  - vm_compute. reflexivity.
  - exists x'. split; [exact H1|]. split; [exact H2|exact H3].
Defined.

(** X14: A habit is completed once a day: after a recorded completion, a
    further call on a day with the same date returns [False] and
    changes neither the habits nor the disk. *)
Theorem log_habit_completion_once_a_day
    (self : Wellness.t) (habit_id : string) (e e' : env) (d d'' : DataManager.disk)
    (i : nat) (x : Wellness.habit) :
  Wellness.find_first (Wellness.has_id habit_id) 0 (Wellness.habits self) = Some (i, x) ->
  Wellness.last_is (Wellness.date_iso (now e))
    (Py.get_or [] (Wellness.completion_history x)) = false ->
  Wellness.date_iso (now e') = Wellness.date_iso (now e) ->
  Wellness.log_habit_completion
    (snd (fst (Wellness.log_habit_completion self habit_id e d))) habit_id e' d''
  = (false, snd (fst (Wellness.log_habit_completion self habit_id e d)), d'').
Proof.
  intros Hfind Hlast Hday. unfold Wellness.log_habit_completion at 2 3.
  rewrite Hfind. cbv zeta. rewrite Hlast.
  assert (Hnot : match Py.get_or [] (Wellness.completion_history x) with
                 | [] => false
                 | _ :: _ => false
                 end = false) by (destruct (Py.get_or [] _); reflexivity).
  rewrite Hnot.
  destruct (DataManager.save_data _ _ _ _ _ d) as [success d'].
  cbn [fst snd]. unfold Wellness.log_habit_completion.
  cbn [Wellness.set_habits Wellness.habits].
  set (x' := Wellness.completed x _ _).
  assert (Hid : Wellness.has_id habit_id x' = true).
  { destruct (find_first_Some _ _ _ _ _ Hfind) as (j & _ & _ & Hp & _).
    unfold Wellness.has_id in *. unfold x', Wellness.completed. cbv zeta.
    match goal with |- context [if ?c then _ else _] => destruct c end; exact Hp. }
  pose proof (find_first_insert _ _ x' _ _ _ Hfind Hid) as Hf.
  rewrite Nat.sub_0_r in Hf. rewrite Hf. cbv zeta.
  assert (Hh : Wellness.completion_history x'
               = Some (Py.get_or [] (Wellness.completion_history x)
                       ++ [Wellness.date_iso (now e)])).
  { unfold x', Wellness.completed. cbv zeta.
    match goal with |- context [if ?c then _ else _] => destruct c end; reflexivity. }
  rewrite Hh. cbn [Py.get_or]. rewrite Hday, last_is_snoc.
  destruct (Py.get_or [] (Wellness.completion_history x)); reflexivity.
Qed.

Lemma log_habit_completion_once_a_day_witness :
  Wellness.log_habit_completion
    (snd (fst (Wellness.log_habit_completion walker "h1" mid_april empty_disk))) "h1"
    {| now := now mid_april + Datetime.hours 5; rng := [] |} empty_disk
  = (false, snd (fst (Wellness.log_habit_completion walker "h1" mid_april empty_disk)),
     empty_disk).
Proof.
  apply (log_habit_completion_once_a_day walker "h1" mid_april
           {| now := now mid_april + Datetime.hours 5; rng := [] |} empty_disk empty_disk
           0%nat
           (daily_walk 4 "2025-04-14"
              ["2025-04-11"; "2025-04-12"; "2025-04-13"; "2025-04-14"]%string)).
  - reflexivity.
  - vm_compute. reflexivity.
  - vm_compute. reflexivity.
Defined.

(** ** Recent transactions, budget and summary (financial_planner.py) *)

From Stdlib Require Import Lqa.

(** X15: For a planner with transactions, [get_recent_transactions] returns
    the head of the list of all transactions sorted by date string,
    newest first, with the transactions of one date in their stored
    order: all of it for limit 0, the first [limit] for a positive
    limit. *)
Theorem get_recent_transactions_newest_first
    (self : FinancialPlanner.t) (limit : Z) (e : env) :
  FinancialPlanner.transactions self <> [] ->
  exists rest,
    Permutation (fst (FinancialPlanner.get_recent_transactions self limit e) ++ rest)
                (FinancialPlanner.transactions self)
    /\ StronglySorted
         (fun x y => String.leb (Finance.date_of y) (Finance.date_of x) = true)
         (fst (FinancialPlanner.get_recent_transactions self limit e) ++ rest)
    /\ (forall k,
          List.filter (same_key String.leb Finance.date_of k)
            (fst (FinancialPlanner.get_recent_transactions self limit e) ++ rest)
          = List.filter (same_key String.leb Finance.date_of k)
              (FinancialPlanner.transactions self))
    /\ (limit = 0 -> rest = [])
    /\ (0 < limit ->
        List.length (fst (FinancialPlanner.get_recent_transactions self limit e))
        = Nat.min (Z.to_nat limit) (List.length (FinancialPlanner.transactions self))).
Proof.
  intros Hne. unfold FinancialPlanner.get_recent_transactions.
  destruct (FinancialPlanner.transactions self) as [|t ts] eqn:E; [congruence|].
  fold Finance.date_of. cbn [fst].
  set (full := Py.sorted_reverse String.leb Finance.date_of (t :: ts)).
  assert (Hfacts :
    Permutation full (t :: ts)
    /\ StronglySorted
         (fun x y => String.leb (Finance.date_of y) (Finance.date_of x) = true) full
    /\ forall k, List.filter (same_key String.leb Finance.date_of k) full
                 = List.filter (same_key String.leb Finance.date_of k) (t :: ts)).
  { split; [apply sorted_reverse_Permutation_by|].
    split; [apply sorted_reverse_descending_by;
            [apply string_leb_total|apply string_leb_trans]|].
    intros k. apply sorted_reverse_stable_by. apply string_leb_trans. }
  destruct Hfacts as (Hp & Hs & Hst).
  destruct (limit =? 0) eqn:El.
  - exists []. rewrite app_nil_r. apply Z.eqb_eq in El.
    repeat split; try assumption; lia.
  - apply Z.eqb_neq in El. unfold Py.slice_to.
    destruct (0 <=? limit) eqn:Ep.
    + exists (skipn (Z.to_nat limit) full). rewrite firstn_skipn.
      repeat split; try assumption; [lia|].
      intros _. rewrite length_firstn. f_equal.
      apply Permutation_length, Hp.
    + apply Z.leb_gt in Ep.
      exists (skipn (List.length full - Z.to_nat (- limit)) full). rewrite firstn_skipn.
      repeat split; try assumption; lia.
Qed.

Definition dated_transaction (date : string) (amount : Q) (category : string)
  : FinancialPlanner.transaction :=
  {| FinancialPlanner.transaction_id := None; FinancialPlanner.created_at := None;
     FinancialPlanner.date := Some date; FinancialPlanner.amount := Some amount;
     FinancialPlanner.description := None; FinancialPlanner.category := Some category |}.

Definition april_planner : FinancialPlanner.t :=
  planner_of [dated_transaction "2025-04-02" (- (120 # 1)) "Food";
              dated_transaction "2025-04-10" (- (80 # 1)) "Books & Supplies";
              dated_transaction "2025-04-05" (2000 # 1) "Pocket Money"].

Lemma get_recent_transactions_newest_first_witness :
  List.length (fst (FinancialPlanner.get_recent_transactions april_planner 2 mid_april))
  = 2%nat.
Proof.
  destruct (get_recent_transactions_newest_first april_planner 2 mid_april)
    as (rest & _ & _ & _ & _ & Hlen).
  - discriminate.
  - rewrite Hlen; [reflexivity|lia].
Defined.



Lemma filter_filter_and {A} (p q : A -> bool) (l : list A) :
  List.filter q (List.filter p l) = List.filter (fun x => p x && q x) l.
Proof.
  induction l as [|x r IH]; simpl; [reflexivity|].
  destruct (p x); simpl; [|exact IH]. destruct (q x); rewrite IH; reflexivity.
Qed.


Lemma get_financial_summary_total (self : FinancialPlanner.t) (e : env) :
  exists s, Finance.get_financial_summary self e = Py.Ok s.
Proof.
  unfold Finance.get_financial_summary. cbv zeta.
  destruct (budget_adherence_formula self e) as (v & Hv & _). rewrite Hv.
  destruct (Py.Qltb 0 _) eqn:Ep.
  - apply Qltb_lt in Ep. unfold Py.truediv.
    match goal with
    | |- context [Py.Qeqb ?p 0] => assert (Hz : Py.Qeqb p 0 = false)
    end.
    { apply Qeqb_neq. intros H. rewrite H in Ep. exact (Qlt_irrefl _ Ep). }
    rewrite Hz. eexists. reflexivity.
  - eexists. reflexivity.
Qed.

(** The last instant [get_financial_summary] counts in the previous
    month: midnight at the start of its last day. *)
Definition last_of_previous (t : Datetime.datetime) : Datetime.datetime :=
  Datetime.make (Datetime.year t) (Datetime.month t) 1 - Datetime.days 1.

Definition with_transaction (self : FinancialPlanner.t) (x : FinancialPlanner.transaction)
  : FinancialPlanner.t :=
  FinancialPlanner.set_transactions self (FinancialPlanner.transactions self ++ [x]).

Lemma filter_snoc_false {A} (p : A -> bool) (l : list A) (x : A) :
  p x = false -> List.filter p (l ++ [x]) = List.filter p l.
Proof.
  intros H. rewrite List.filter_app. simpl. rewrite H. apply app_nil_r.
Qed.

(** X17: A transaction dated after the midnight that starts the last day of
    the previous month and before the current month is counted in
    neither month: adding it changes the balance of the summary and
    nothing else, neither the expenses of the month nor the trend, which
    compares with the previous month. *)
Theorem summary_skips_end_of_previous_month
    (self : FinancialPlanner.t) (x : FinancialPlanner.transaction) (e : env) :
  String.leb (FinancialPlanner.month_start (now e)) (Finance.date_of x) = false ->
  String.leb (Finance.date_of x) (Datetime.isoformat (last_of_previous (now e))) = false ->
  exists s s',
    Finance.get_financial_summary self e = Py.Ok s
    /\ Finance.get_financial_summary (with_transaction self x) e = Py.Ok s'
    /\ (Finance.current_balance s' == Finance.current_balance s + Finance.amount_of x)%Q
    /\ Finance.income_this_month s' = Finance.income_this_month s
    /\ Finance.expenses_this_month s' = Finance.expenses_this_month s
    /\ Finance.expenses_by_category s' = Finance.expenses_by_category s
    /\ Finance.expense_trend s' = Finance.expense_trend s
    /\ Finance.budget_adherence s' = Finance.budget_adherence s.
Proof.
  intros Hcur Hprev.
  assert (Hadh : FinancialPlanner.get_budget_adherence (with_transaction self x) e
                 = FinancialPlanner.get_budget_adherence self e).
  { unfold FinancialPlanner.get_budget_adherence, FinancialPlanner.get_actual_spending.
    cbn [with_transaction FinancialPlanner.set_transactions FinancialPlanner.budget
         FinancialPlanner.transactions].
    rewrite filter_snoc_false; [reflexivity|].
    fold (Finance.date_of x). rewrite Hcur. reflexivity. }
  destruct (get_financial_summary_total self e) as (s & Hs).
  exists s. unfold Finance.get_financial_summary in *. cbv zeta in *.
  rewrite Hadh.
  cbn [with_transaction FinancialPlanner.set_transactions FinancialPlanner.transactions].
  unfold last_of_previous in Hprev.
  rewrite !filter_snoc_false;
    try (cbv beta; first [exact Hcur | rewrite Hprev; apply andb_false_r]).
  destruct (Py.Qltb 0 _) eqn:Ep.
  - destruct (Py.truediv _ _) as [ratio|]; [|discriminate]. cbn [Py.bind] in *.
    destruct (FinancialPlanner.get_budget_adherence self e) as [v|]; [|discriminate].
    cbn [Py.bind] in *. injection Hs as <-. eexists. split; [reflexivity|].
    split; [reflexivity|]. cbn.
    split; [|repeat split; reflexivity].
    rewrite map_app, sum_app. simpl. rewrite sum_cons. unfold Py.sum. simpl. ring.
  - cbn [Py.bind] in *.
    destruct (FinancialPlanner.get_budget_adherence self e) as [v|]; [|discriminate].
    cbn [Py.bind] in *. injection Hs as <-. eexists. split; [reflexivity|].
    split; [reflexivity|]. cbn.
    split; [|repeat split; reflexivity].
    rewrite map_app, sum_app. simpl. rewrite sum_cons. unfold Py.sum. simpl. ring.
Qed.

Lemma summary_skips_end_of_previous_month_witness :
  exists s s',
    Finance.get_financial_summary april_planner mid_april = Py.Ok s
    /\ Finance.get_financial_summary
         (with_transaction april_planner
            (dated_transaction "2025-03-31T10:00:00" (- (500 # 1)) "Food")) mid_april
       = Py.Ok s'
    /\ Finance.expenses_this_month s' = Finance.expenses_this_month s
    /\ Finance.expense_trend s' = Finance.expense_trend s.
Proof.
  destruct (summary_skips_end_of_previous_month april_planner
              (dated_transaction "2025-03-31T10:00:00" (- (500 # 1)) "Food") mid_april)
    as (s & s' & H1 & H2 & _ & _ & H3 & _ & H4 & _).
  - vm_compute. reflexivity.
  - vm_compute. reflexivity.
  - exists s, s'. repeat split; assumption.
Defined.

(** X18: Without a budget [get_budget] shows the default budget of 15000 in
    nine categories, but [get_budget_adherence] reads the stored budget
    and returns 0 whatever was spent; a budget that is set is what
    [get_budget] returns, unless it is empty. *)
Theorem default_budget_is_display_only
    (self : FinancialPlanner.t) (e : env) (budget_data : list (string * Q))
    (d : DataManager.disk) :
  FinancialPlanner.budget self = [] ->
  List.length (Finance.get_budget self) = 9%nat
  /\ (Py.sum (map snd (Finance.get_budget self)) == 15000)%Q
  /\ FinancialPlanner.get_budget_adherence self e = Py.Ok 0%Q
  /\ Finance.get_budget (snd (fst (Finance.set_budget self budget_data d)))
     = match budget_data with
       | [] => Finance.get_budget self
       | _ :: _ => budget_data
       end.
Proof.
  intros Hb. unfold Finance.get_budget, FinancialPlanner.get_budget_adherence,
    Finance.set_budget. rewrite Hb. cbv zeta.
  destruct (DataManager.save_data _ _ _ _ _ d) as [success d'].
  cbn [fst snd FinancialPlanner.budget].
  split; [reflexivity|]. split; [reflexivity|]. split; [reflexivity|].
  destruct budget_data; reflexivity.
Qed.

Lemma default_budget_is_display_only_witness :
  FinancialPlanner.get_budget_adherence april_planner mid_april = Py.Ok 0%Q
  /\ (Py.sum (map snd (Finance.get_budget april_planner)) == 15000)%Q.
Proof.
  destruct (default_budget_is_display_only april_planner mid_april [] empty_disk)
    as (_ & H1 & H2 & _).
  - reflexivity.
  - split; [exact H2|exact H1].
Defined.

(** *** Goals *)

Lemma updated_id (x : Finance.goal) (a : Q) (e : env) :
  Finance.goal_id (Finance.updated x a e) = Finance.goal_id x.
Proof.
  unfold Finance.updated. cbv zeta. destruct (Qle_bool _ _); reflexivity.
Qed.

(** X19: A goal that reached its target stays completed: when a later
    update lowers the amount below the target, the status is still
    "completed" and the completion date is that of the earlier update;
    only the amount changes. *)
Theorem completed_goal_stays_completed
    (self : Finance.t) (goal_id : string) (a1 a2 : Q) (e1 e2 : env)
    (d1 d2 : DataManager.disk) (i : nat) (x : Finance.goal) :
  Wellness.find_first (Finance.has_id goal_id) 0 (Finance.goals self) = Some (i, x) ->
  (Py.get_or 0 (Finance.target_amount x) <= a1)%Q ->
  (a2 < Py.get_or 0 (Finance.target_amount x))%Q ->
  exists g,
    Finance.goals
      (snd (fst (Finance.update_financial_goal
                   (snd (fst (Finance.update_financial_goal self goal_id a1 e1 d1)))
                   goal_id a2 e2 d2))) !! i = Some g
    /\ Finance.current_amount g = Some a2
    /\ Finance.status g = Some "completed"%string
    /\ Finance.completion_date g = Some (Datetime.isoformat (now e1)).
Proof.
  intros Hfind H1 H2.
  unfold Finance.update_financial_goal at 2. rewrite Hfind.
  unfold Finance.save_goals at 1.
  destruct (DataManager.save_data _ _ _ _ _ d1) as [ok1 d1'].
  cbn [fst snd]. unfold Finance.update_financial_goal. cbn [Finance.goals].
  assert (Hid : Finance.has_id goal_id (Finance.updated x a1 e1) = true).
  { destruct (find_first_Some _ _ _ _ _ Hfind) as (j & _ & _ & Hp & _).
    unfold Finance.has_id in *. rewrite updated_id. exact Hp. }
  pose proof (find_first_insert _ _ (Finance.updated x a1 e1) _ _ _ Hfind Hid) as Hf.
  rewrite Nat.sub_0_r in Hf. rewrite Hf.
  unfold Finance.save_goals.
  destruct (DataManager.save_data _ _ _ _ _ d2) as [ok2 d2'].
  cbn [fst snd Finance.goals].
  destruct (find_first_Some _ _ _ _ _ Hfind) as (j & -> & Hj & _).
  apply lookup_lt_Some in Hj. simpl.
  eexists. split.
  { rewrite list_insert_insert_eq. apply list_lookup_insert_eq.
    exact Hj. }
  unfold Finance.updated. cbv zeta.
  cbn [Finance.target_amount].
  apply Qle_bool_iff in H1. rewrite H1.
  cbn [Finance.target_amount Finance.goal_id Finance.goal_name Finance.current_amount
       Finance.status Finance.completion_date].
  assert (H2' : Qle_bool (Py.get_or 0%Q (Finance.target_amount x)) a2 = false).
  { destruct (Qle_bool _ a2) eqn:E; [|reflexivity].
    apply Qle_bool_iff in E. exfalso. exact (Qlt_not_le _ _ H2 E). }
  rewrite H2'. repeat split; reflexivity.
Qed.

Definition laptop_fund : Finance.goal :=
  {| Finance.goal_id := Some "g1"%string; Finance.goal_name := Some "Laptop"%string;
     Finance.target_amount := Some (40000 # 1); Finance.current_amount := Some (10000 # 1);
     Finance.status := Some "active"%string; Finance.completion_date := None |}.

Definition saver : Finance.t :=
  {| Finance.planner := april_planner; Finance.goals := [laptop_fund] |}.

Lemma completed_goal_stays_completed_witness :
  exists g,
    Finance.goals
      (snd (fst (Finance.update_financial_goal
                   (snd (fst (Finance.update_financial_goal saver "g1" (40000 # 1)
                                mid_april empty_disk)))
                   "g1" (500 # 1) one_hour_later empty_disk))) !! 0%nat = Some g
    /\ Finance.current_amount g = Some (500 # 1)
    /\ Finance.status g = Some "completed"%string
    /\ Finance.completion_date g = Some (Datetime.isoformat (now mid_april)).
Proof.
  apply (completed_goal_stays_completed saver "g1" (40000 # 1) (500 # 1) mid_april
           one_hour_later empty_disk empty_disk 0%nat laptop_fund).
  - reflexivity.
  - vm_compute. discriminate.
  - reflexivity.
Defined.

Lemma filter_idempotent {A} (p : A -> bool) (l : list A) :
  List.filter p (List.filter p l) = List.filter p l.
Proof.
  rewrite filter_filter_and. induction l as [|x r IH]; simpl; [reflexivity|].
  destruct (p x); simpl; rewrite IH; reflexivity.
Qed.

Lemma filter_other_id (goal_id k : string) (l : list Finance.goal) :
  k <> goal_id ->
  List.filter (fun x => negb (Finance.has_id goal_id x) && Finance.has_id k x) l
  = List.filter (Finance.has_id k) l.
Proof.
  intros Hk. induction l as [|g r IH]; simpl; [reflexivity|]. rewrite IH.
  assert (Hg : Finance.has_id k g = true -> Finance.has_id goal_id g = false).
  { unfold Finance.has_id. destruct (Finance.goal_id g) as [s|]; [|discriminate].
    intros H1. apply String.eqb_eq in H1. subst s. apply String.eqb_neq. exact Hk. }
  destruct (Finance.has_id k g) eqn:Ek.
  - rewrite (Hg eq_refl). reflexivity.
  - rewrite andb_false_r. reflexivity.
Qed.

Lemma filter_shorter {A} (p : A -> bool) (l : list A) :
  (List.length (List.filter (fun x => negb (p x)) l) < List.length l)%nat ->
  Exists (fun x => p x = true) l.
Proof.
  induction l as [|x r IH]; simpl; [lia|].
  destruct (p x) eqn:E; simpl; intros H.
  - left. exact E.
  - right. apply IH. lia.
Qed.

(** X20: [delete_financial_goal] removes every goal with the given id, not
    the first one only, and keeps the others (the goals without an id
    included) in their order; it returns [True] only if a goal was
    removed; repeating it returns [False] and changes nothing. *)
Theorem delete_financial_goal_removes_all
    (self : Finance.t) (goal_id : string) (d d' : DataManager.disk) :
  Forall (fun g => Finance.has_id goal_id g = false)
    (Finance.goals (snd (fst (Finance.delete_financial_goal self goal_id d))))
  /\ (forall k, k <> goal_id ->
        List.filter (Finance.has_id k)
          (Finance.goals (snd (fst (Finance.delete_financial_goal self goal_id d))))
        = List.filter (Finance.has_id k) (Finance.goals self))
  /\ (fst (fst (Finance.delete_financial_goal self goal_id d)) = true ->
      Exists (fun g => Finance.has_id goal_id g = true) (Finance.goals self))
  /\ Finance.delete_financial_goal
       (snd (fst (Finance.delete_financial_goal self goal_id d))) goal_id d'
     = (false, snd (fst (Finance.delete_financial_goal self goal_id d)), d').
Proof.
  unfold Finance.delete_financial_goal. cbv zeta.
  set (kept := List.filter (fun x => negb (Finance.has_id goal_id x)) (Finance.goals self)).
  assert (Hgoals :
    Finance.goals
      (snd (fst (if Nat.ltb (List.length kept) (List.length (Finance.goals self))
                 then Finance.save_goals
                        {| Finance.planner := Finance.planner self; Finance.goals := kept |}
                        kept d
                 else (false,
                       {| Finance.planner := Finance.planner self; Finance.goals := kept |},
                       d)))) = kept
    /\ Finance.planner
         (snd (fst (if Nat.ltb (List.length kept) (List.length (Finance.goals self))
                    then Finance.save_goals
                           {| Finance.planner := Finance.planner self;
                              Finance.goals := kept |} kept d
                    else (false,
                          {| Finance.planner := Finance.planner self;
                             Finance.goals := kept |}, d)))) = Finance.planner self).
  { destruct (Nat.ltb _ _); [|split; reflexivity].
    unfold Finance.save_goals. destruct (DataManager.save_data _ _ _ _ _ d).
    split; reflexivity. }
  destruct Hgoals as [Hgoals Hplanner].
  split; [|split; [|split]].
  - rewrite Hgoals. apply List.Forall_forall. intros g Hg. apply filter_In in Hg.
    destruct Hg as [_ Hg]. apply negb_true_iff in Hg. exact Hg.
  - intros k Hk. rewrite Hgoals. unfold kept. rewrite filter_filter_and.
    apply filter_other_id. exact Hk.
  - destruct (Nat.ltb (List.length kept) (List.length (Finance.goals self))) eqn:El.
    + intros _. apply Nat.ltb_lt in El. apply filter_shorter in El. exact El.
    + cbn [fst]. discriminate.
  - rewrite Hgoals. unfold kept. rewrite filter_idempotent. fold kept.
    rewrite Nat.ltb_irrefl.
    destruct (snd (fst _)) as [p gs] eqn:Es. cbn [Finance.planner] in *.
    cbn [Finance.goals Finance.planner] in Hgoals, Hplanner. subst. reflexivity.
Qed.

Lemma delete_financial_goal_removes_all_witness :
  Exists (fun g => Finance.has_id "g1" g = true) (Finance.goals saver)
  /\ Finance.delete_financial_goal
       (snd (fst (Finance.delete_financial_goal saver "g1" empty_disk))) "g1" empty_disk
     = (false, snd (fst (Finance.delete_financial_goal saver "g1" empty_disk)), empty_disk).
Proof.
  destruct (delete_financial_goal_removes_all saver "g1" empty_disk empty_disk)
    as (_ & _ & H & H').
  split; [apply H; reflexivity|exact H'].
Defined.

(** ** Courses, tasks and study hours (academic_tracker.py) *)

Lemma assoc_snoc {V} (k k0 : string) (v0 : V) (l : list (string * V)) :
  Py.assoc k (l ++ [(k0, v0)])
  = match Py.assoc k l with
    | Some v => Some v
    | None => if String.eqb k k0 then Some v0 else None
    end.
Proof.
  induction l as [|[k1 v1] r IH]; simpl; [reflexivity|].
  destruct (String.eqb k k1); [reflexivity|exact IH].
Qed.

(** [x.update(updates)]: the last value given for a key wins, the other
    keys keep their value, and the keys of [x] keep their place. *)
Lemma update_assoc (updates : Academics.dict) : forall (x : Academics.dict) (k : string),
  Py.assoc k (Academics.update x updates)
  = match Py.assoc k (rev updates) with
    | Some v => Some v
    | None => Py.assoc k x
    end.
Proof.
  induction updates as [|[k0 v0] r IH]; intros x k; [reflexivity|].
  unfold Academics.update in *. simpl. rewrite IH, assoc_snoc, assoc_assoc_set.
  destruct (Py.assoc k (rev r)); [reflexivity|].
  destruct (String.eqb k k0); reflexivity.
Qed.

Lemma update_keys (updates : Academics.dict) : forall x : Academics.dict,
  exists new, map fst (Academics.update x updates) = map fst x ++ new.
Proof.
  induction updates as [|[k0 v0] r IH]; intros x.
  - exists []. symmetry. apply app_nil_r.
  - unfold Academics.update in *. simpl.
    destruct (IH (Py.assoc_set k0 v0 x)) as (new & Hnew). rewrite Hnew.
    rewrite assoc_set_keys. destruct (Py.assoc k0 x).
    + exists new. reflexivity.
    + exists (k0 :: new). rewrite <- List.app_assoc. reflexivity.
Qed.

(** X21: [update_course] and [update_task] change the first course, or task,
    with the given id and no other: it gets every key of the updates
    with its value, keeps its other keys, and keeps its place.  Without
    such a course or task they return [False] and change nothing. *)
Theorem update_course_merges
    (self : Academics.t) (id : string) (updates : Academics.dict) (d : DataManager.disk) :
  match Wellness.find_first (Academics.has_value "course_id" id) 0 (Academics.courses self)
  with
  | Some (i, course) =>
      exists course',
        Academics.courses (snd (fst (Academics.update_course self id updates d)))
        = <[ i := course' ]> (Academics.courses self)
        /\ Academics.courses self !! i = Some course
        /\ (forall k, Py.assoc k course'
                      = match Py.assoc k (rev updates) with
                        | Some v => Some v
                        | None => Py.assoc k course
                        end)
        /\ (exists new, map fst course' = map fst course ++ new)
        /\ Academics.tasks (snd (fst (Academics.update_course self id updates d)))
           = Academics.tasks self
  | None => Academics.update_course self id updates d = (false, self, d)
  end
  /\ match Wellness.find_first (Academics.has_value "task_id" id) 0 (Academics.tasks self)
     with
     | Some (i, task) =>
         exists task',
           Academics.tasks (snd (fst (Academics.update_task self id updates d)))
           = <[ i := task' ]> (Academics.tasks self)
           /\ Academics.tasks self !! i = Some task
           /\ (forall k, Py.assoc k task'
                         = match Py.assoc k (rev updates) with
                           | Some v => Some v
                           | None => Py.assoc k task
                           end)
           /\ (exists new, map fst task' = map fst task ++ new)
           /\ Academics.courses (snd (fst (Academics.update_task self id updates d)))
              = Academics.courses self
     | None => Academics.update_task self id updates d = (false, self, d)
     end.
Proof.
  split.
  - unfold Academics.update_course.
    destruct (Wellness.find_first _ 0 (Academics.courses self)) as [[i course]|] eqn:Ef;
      [|reflexivity].
    unfold Academics.save_courses. destruct (DataManager.save_data _ _ _ _ _ d).
    cbn [fst snd Academics.set_courses Academics.courses Academics.tasks].
    destruct (find_first_Some _ _ _ _ _ Ef) as (j & -> & Hj & _).
    exists (Academics.update course updates). split; [reflexivity|].
    split; [exact Hj|]. split; [apply update_assoc|]. split; [apply update_keys|reflexivity].
  - unfold Academics.update_task.
    destruct (Wellness.find_first _ 0 (Academics.tasks self)) as [[i task]|] eqn:Ef;
      [|reflexivity].
    unfold Academics.save_tasks. destruct (DataManager.save_data _ _ _ _ _ d).
    cbn [fst snd Academics.set_tasks Academics.courses Academics.tasks].
    destruct (find_first_Some _ _ _ _ _ Ef) as (j & -> & Hj & _).
    exists (Academics.update task updates). split; [reflexivity|].
    split; [exact Hj|]. split; [apply update_assoc|]. split; [apply update_keys|reflexivity].
Qed.

Lemma has_value_set_default (key value other : string) (v : Py.pyval) (x : Academics.dict) :
  other <> key ->
  Academics.has_value key value (Academics.set_default other v x)
  = Academics.has_value key value x.
Proof.
  intros Hne. unfold Academics.has_value, Academics.set_default.
  destruct (Py.assoc other x); [reflexivity|]. rewrite assoc_assoc_set.
  assert (H : String.eqb key other = false) by (apply String.eqb_neq; congruence).
  rewrite H. reflexivity.
Qed.

Lemma filter_all {A} (p : A -> bool) (l : list A) :
  Forall (fun x => p x = true) l -> List.filter p l = l.
Proof.
  induction 1 as [|x r Hx Hr IH]; simpl; [reflexivity|]. rewrite Hx, IH. reflexivity.
Qed.

(** X22: Adding a course and deleting it again by its id gives back the
    list of courses, when no other course has that id; the tasks are
    not touched.  The id is the one of the given record or, without
    one, the generated one. *)
Theorem add_course_then_delete_course
    (self : Academics.t) (course_data : Academics.dict) (uuid id : string) (e : env)
    (d d' : DataManager.disk) :
  Academics.has_value "course_id" id
    (Academics.set_default "course_id" (Py.PStr uuid) course_data) = true ->
  Forall (fun x => Academics.has_value "course_id" id x = false) (Academics.courses self) ->
  Academics.courses
    (snd (fst (Academics.delete_course
                 (snd (fst (Academics.add_course self course_data uuid e d))) id d')))
  = Academics.courses self
  /\ Academics.tasks
       (snd (fst (Academics.delete_course
                    (snd (fst (Academics.add_course self course_data uuid e d))) id d')))
     = Academics.tasks self.
Proof.
  intros Hid Hfresh. unfold Academics.add_course, Academics.save_courses. cbv zeta.
  destruct (DataManager.save_data _ _ _ _ _ d) as [ok d1]. cbn [fst snd].
  unfold Academics.delete_course. cbv zeta.
  cbn [Academics.set_courses Academics.courses Academics.tasks Academics.student_id
       Academics.data_manager Academics.study_sessions].
  assert (Hf : List.filter
                 (fun course => negb (Academics.has_value "course_id" id course))
                 (Academics.courses self
                  ++ [Academics.set_default "created_at"
                        (Py.PStr (Datetime.isoformat (now e)))
                        (Academics.set_default "course_id" (Py.PStr uuid) course_data)])
               = Academics.courses self).
  { rewrite List.filter_app. simpl.
    rewrite has_value_set_default by discriminate. rewrite Hid. simpl.
    rewrite app_nil_r. apply filter_all. eapply List.Forall_impl; [|exact Hfresh].
    intros x Hx. cbv beta in Hx. rewrite Hx. reflexivity. }
  rewrite !Hf. rewrite length_app. simpl List.length.
  assert (Hlt : Nat.ltb (List.length (Academics.courses self))
                        (List.length (Academics.courses self) + 1) = true)
    by (apply Nat.ltb_lt; lia).
  rewrite Hlt. unfold Academics.save_courses.
  destruct (DataManager.save_data _ _ _ _ _ d') as [ok' d2]. split; reflexivity.
Qed.

Definition algebra_course : Academics.dict :=
  [("code", Py.PStr "MA101"); ("name", Py.PStr "Linear Algebra")]%string.

Definition first_year : Academics.t :=
  {| Academics.student_id := "s1"%string; Academics.data_manager := DataManager.init "data";
     Academics.courses :=
       [[("course_id", Py.PStr "c1"); ("code", Py.PStr "CS101")]]%string;
     Academics.tasks :=
       [[("task_id", Py.PStr "t1"); ("title", Py.PStr "Essay");
         ("due_date", Py.PStr "2025-04-20"); ("status", Py.PStr "pending")];
        [("task_id", Py.PStr "t2"); ("title", Py.PStr "Lab report");
         ("due_date", Py.PStr "2025-04-17T09:00:00")];
        [("task_id", Py.PStr "t3"); ("title", Py.PStr "Quiz");
         ("due_date", Py.PStr "not a date"); ("status", Py.PStr "completed")]]%string;
     Academics.study_sessions := [] |}.

Lemma add_course_then_delete_course_witness :
  Academics.courses
    (snd (fst (Academics.delete_course
                 (snd (fst (Academics.add_course first_year algebra_course "c2" mid_april
                              empty_disk))) "c2" empty_disk)))
  = Academics.courses first_year.
Proof.
  apply (add_course_then_delete_course first_year algebra_course "c2" "c2" mid_april
           empty_disk empty_disk).
  - reflexivity.
  - repeat constructor.
Defined.

Lemma update_course_merges_witness :
  exists course',
    Academics.courses
      (snd (fst (Academics.update_course first_year "c1"
                   [("code", Py.PStr "CS102"); ("credits", Py.PNum (4 # 1))]%string
                   empty_disk)))
    = <[ 0%nat := course' ]> (Academics.courses first_year)
    /\ Py.assoc "code" course' = Some (Py.PStr "CS102")
    /\ Py.assoc "course_id" course' = Some (Py.PStr "c1").
Proof.
  destruct (update_course_merges first_year "c1"
              [("code", Py.PStr "CS102"); ("credits", Py.PNum (4 # 1))]%string empty_disk)
    as [H _].
  simpl Wellness.find_first in H. destruct H as (course' & H1 & _ & H2 & _).
  exists course'. split; [exact H1|]. split; rewrite H2; reflexivity.
Defined.

(** *** Upcoming tasks *)






(** *** Study hours *)




(** ** Lists stored in a document (data_manager.py) *)












(** ** The student profile (student_model.py) *)

Lemma set_default_assoc (k k0 : string) (v0 : Py.pyval) (x : Academics.dict) :
  Py.assoc k (Academics.set_default k0 v0 x)
  = match Py.assoc k x with
    | Some v => Some v
    | None => if String.eqb k k0 then Some v0 else None
    end.
Proof.
  unfold Academics.set_default. destruct (Py.assoc k0 x) as [u|] eqn:E.
  - destruct (Py.assoc k x) eqn:Ek; [reflexivity|].
    destruct (String.eqb k k0) eqn:E0; [|reflexivity].
    apply String.eqb_eq in E0. subst. congruence.
  - rewrite assoc_assoc_set. destruct (String.eqb k k0) eqn:E0.
    + apply String.eqb_eq in E0. subst. rewrite E. reflexivity.
    + destruct (Py.assoc k x); reflexivity.
Qed.

Lemma set_defaults_assoc (ds : Academics.dict) : forall (x : Academics.dict) (k : string),
  Py.assoc k (fold_left (fun data kv => Academics.set_default (fst kv) (snd kv) data) ds x)
  = match Py.assoc k x with
    | Some v => Some v
    | None => Py.assoc k ds
    end.
Proof.
  induction ds as [|[k0 v0] r IH]; intros x k; simpl.
  - destruct (Py.assoc k x); reflexivity.
  - rewrite IH, set_default_assoc. destruct (Py.assoc k x); [reflexivity|].
    destruct (String.eqb k k0); reflexivity.
Qed.

(** X27: A profile keeps every key it is given and gets the default of a key
    it lacks; the defaults are not merged into a given value, so a
    profile that comes with preferences has no default theme.  After
    [update_preference], [get_preference] returns the new value for that
    key and what it returned before for every other key, and no other
    key of the profile has changed. *)
Theorem profile_defaults_and_preferences
    (student_id : string) (profile_data : Academics.dict) (e : env)
    (self : StudentProfile.t) (key : string) (value default : Py.pyval) :
  (forall k,
     Py.assoc k (StudentProfile.profile_data (StudentProfile.init student_id profile_data e))
     = match Py.assoc k profile_data with
       | Some v => Some v
       | None => Py.assoc k (StudentProfile.defaults e)
       end)
  /\ StudentProfile.get_full_name (StudentProfile.init student_id profile_data e)
     = Py.get_or (Py.PStr "Student") (Py.assoc "full_name" profile_data)
  /\ StudentProfile.get_preference (StudentProfile.init student_id profile_data e)
       "theme" default
     = match Py.assoc "preferences" profile_data with
       | Some preferences => Py.dict_get preferences "theme" default
       | None => Py.Ok (Py.PStr "light")
       end
  /\ forall self',
       StudentProfile.update_preference self key value = Py.Ok (true, self') ->
       StudentProfile.get_preference self' key default = Py.Ok value
       /\ (forall k, k <> key ->
             StudentProfile.get_preference self' k default
             = StudentProfile.get_preference self k default)
       /\ (forall k, k <> "preferences"%string ->
             Py.assoc k (StudentProfile.profile_data self')
             = Py.assoc k (StudentProfile.profile_data self)).
Proof.
  assert (Hinit : forall k,
    Py.assoc k (StudentProfile.profile_data (StudentProfile.init student_id profile_data e))
    = match Py.assoc k profile_data with
      | Some v => Some v
      | None => Py.assoc k (StudentProfile.defaults e)
      end).
  { intros k. unfold StudentProfile.init, StudentProfile._set_defaults.
    cbn [StudentProfile.profile_data]. apply set_defaults_assoc. }
  split; [exact Hinit|]. split; [|split].
  - unfold StudentProfile.get_full_name. rewrite Hinit.
    destruct (Py.assoc "full_name" profile_data); reflexivity.
  - unfold StudentProfile.get_preference. rewrite Hinit.
    destruct (Py.assoc "preferences" profile_data); reflexivity.
  - intros self' Hup. unfold StudentProfile.update_preference in Hup. cbv zeta in Hup.
    unfold Py.subscript in Hup.
    pose proof (set_default_assoc "preferences" "preferences" (Py.PDict [])
                  (StudentProfile.profile_data self)) as Hp.
    rewrite String.eqb_refl in Hp.
    destruct (Py.assoc "preferences"
                (Academics.set_default "preferences" (Py.PDict [])
                   (StudentProfile.profile_data self))) as [p|] eqn:Ep;
      [|discriminate Hup].
    cbn [Py.getitem Py.bind] in Hup.
    destruct p as [| | | | |items]; try discriminate Hup.
    injection Hup as <-. unfold StudentProfile.get_preference.
    cbn [StudentProfile.profile_data].
    assert (Hold : Py.get_or (Py.PDict [])
                     (Py.assoc "preferences" (StudentProfile.profile_data self))
                   = Py.PDict items).
    { destruct (Py.assoc "preferences" (StudentProfile.profile_data self));
        injection Hp as <-; reflexivity. }
    split; [|split].
    + rewrite assoc_assoc_set, String.eqb_refl. cbn [Py.get_or Py.dict_get].
      rewrite assoc_assoc_set, String.eqb_refl. reflexivity.
    + intros k Hk. rewrite assoc_assoc_set, String.eqb_refl, Hold.
      cbn [Py.get_or Py.dict_get]. rewrite assoc_assoc_set.
      assert (Hne : String.eqb k key = false) by (apply String.eqb_neq; exact Hk).
      rewrite Hne. reflexivity.
    + intros k Hk. rewrite assoc_assoc_set.
      assert (Hne : String.eqb k "preferences" = false) by (apply String.eqb_neq; exact Hk).
      rewrite Hne, set_default_assoc, Hne.
      destruct (Py.assoc k (StudentProfile.profile_data self)); reflexivity.
Qed.

Lemma profile_defaults_and_preferences_witness :
  exists self',
    StudentProfile.update_preference
      (StudentProfile.init "s1" [("full_name", Py.PStr "Asha")]%string mid_april)
      "theme" (Py.PStr "dark") = Py.Ok (true, self')
    /\ StudentProfile.get_preference self' "theme" Py.PNone = Py.Ok (Py.PStr "dark").
Proof.
  eexists. split; [vm_compute; reflexivity|].
  destruct (profile_defaults_and_preferences "s1" [] mid_april
              (StudentProfile.init "s1" [("full_name", Py.PStr "Asha")]%string mid_april)
              "theme" (Py.PStr "dark") Py.PNone) as (_ & _ & _ & H).
  apply H. vm_compute. reflexivity.
Defined.

(** ** The domain of a question (ai_advisor.py) *)

(** X28: [classify_query_domain] returns the domain with the most keyword
    matches and, among several with the most, the first in the order
    mental health, academic, career, financial; a question without any
    keyword is a mental health question. *)
Theorem classify_query_domain_first_maximum (query : string) :
  (GroqAdvisor.classify_query_domain query = "mental_health"%string
   /\ GroqAdvisor.matches GroqAdvisor.academic_keywords (Py.lower query)
      <= GroqAdvisor.matches GroqAdvisor.mental_keywords (Py.lower query)
   /\ GroqAdvisor.matches GroqAdvisor.career_keywords (Py.lower query)
      <= GroqAdvisor.matches GroqAdvisor.mental_keywords (Py.lower query)
   /\ GroqAdvisor.matches GroqAdvisor.financial_keywords (Py.lower query)
      <= GroqAdvisor.matches GroqAdvisor.mental_keywords (Py.lower query))
  \/ (GroqAdvisor.classify_query_domain query = "academic"%string
      /\ GroqAdvisor.matches GroqAdvisor.mental_keywords (Py.lower query)
         < GroqAdvisor.matches GroqAdvisor.academic_keywords (Py.lower query)
      /\ GroqAdvisor.matches GroqAdvisor.career_keywords (Py.lower query)
         <= GroqAdvisor.matches GroqAdvisor.academic_keywords (Py.lower query)
      /\ GroqAdvisor.matches GroqAdvisor.financial_keywords (Py.lower query)
         <= GroqAdvisor.matches GroqAdvisor.academic_keywords (Py.lower query))
  \/ (GroqAdvisor.classify_query_domain query = "career"%string
      /\ GroqAdvisor.matches GroqAdvisor.mental_keywords (Py.lower query)
         < GroqAdvisor.matches GroqAdvisor.career_keywords (Py.lower query)
      /\ GroqAdvisor.matches GroqAdvisor.academic_keywords (Py.lower query)
         < GroqAdvisor.matches GroqAdvisor.career_keywords (Py.lower query)
      /\ GroqAdvisor.matches GroqAdvisor.financial_keywords (Py.lower query)
         <= GroqAdvisor.matches GroqAdvisor.career_keywords (Py.lower query))
  \/ (GroqAdvisor.classify_query_domain query = "financial"%string
      /\ GroqAdvisor.matches GroqAdvisor.mental_keywords (Py.lower query)
         < GroqAdvisor.matches GroqAdvisor.financial_keywords (Py.lower query)
      /\ GroqAdvisor.matches GroqAdvisor.academic_keywords (Py.lower query)
         < GroqAdvisor.matches GroqAdvisor.financial_keywords (Py.lower query)
      /\ GroqAdvisor.matches GroqAdvisor.career_keywords (Py.lower query)
         < GroqAdvisor.matches GroqAdvisor.financial_keywords (Py.lower query)).
Proof.
  unfold GroqAdvisor.classify_query_domain. cbv zeta.
  set (m := GroqAdvisor.matches GroqAdvisor.mental_keywords (Py.lower query)).
  set (a := GroqAdvisor.matches GroqAdvisor.academic_keywords (Py.lower query)).
  set (c := GroqAdvisor.matches GroqAdvisor.career_keywords (Py.lower query)).
  set (f := GroqAdvisor.matches GroqAdvisor.financial_keywords (Py.lower query)).
  cbn [Py.max_from snd].
  destruct (Z.ltb_spec m a) as [H1|H1]; cbn [snd];
    [destruct (Z.ltb_spec a c) as [H2|H2]|destruct (Z.ltb_spec m c) as [H2|H2]];
    cbn [snd];
    match goal with
    | |- context [?x <? f] => destruct (Z.ltb_spec x f) as [H3|H3]
    end; cbn [fst].
  all: first
    [ left; split; [reflexivity|lia]
    | right; left; split; [reflexivity|lia]
    | right; right; left; split; [reflexivity|lia]
    | right; right; right; split; [reflexivity|lia] ].
Qed.

(** ** The bracketed part of a reply (app.py) *)

Lemma list_ascii_of_string_app (a b : string) :
  list_ascii_of_string (a ++ b) = list_ascii_of_string a ++ list_ascii_of_string b.
Proof.
  induction a as [|c a IH]; simpl; [reflexivity|]. rewrite IH. reflexivity.
Qed.

Lemma string_of_list_ascii_app (a b : list ascii) :
  string_of_list_ascii (a ++ b) = (string_of_list_ascii a ++ string_of_list_ascii b)%string.
Proof.
  induction a as [|c a IH]; simpl; [reflexivity|]. rewrite IH. reflexivity.
Qed.

Lemma drop_until_skips (c : ascii) (pre rest : list ascii) :
  existsb (fun x => Ascii.eqb x c) pre = false ->
  App.drop_until c (pre ++ c :: rest) = c :: rest.
Proof.
  induction pre as [|x r IH]; simpl; intros H.
  - rewrite Ascii.eqb_refl. reflexivity.
  - apply orb_false_iff in H. destruct H as [Hx Hr]. rewrite Hx. exact (IH Hr).
Qed.

Lemma drop_until_none (c : ascii) (l : list ascii) :
  existsb (fun x => Ascii.eqb x c) l = false -> App.drop_until c l = [].
Proof.
  induction l as [|x r IH]; simpl; intros H; [reflexivity|].
  apply orb_false_iff in H. destruct H as [Hx Hr]. rewrite Hx. exact (IH Hr).
Qed.

Lemma existsb_rev {A} (p : A -> bool) (l : list A) : existsb p (rev l) = existsb p l.
Proof.
  induction l as [|x r IH]; simpl; [reflexivity|].
  rewrite existsb_app, IH. simpl. rewrite orb_false_r. apply orb_comm.
Qed.

Definition has_char (c : ascii) (s : string) : bool :=
  existsb (fun x => Ascii.eqb x c) (list_ascii_of_string s).

(** X29: What the getters cut out of a reply before decoding it: the text
    from the first opening bracket to the last closing bracket after
    it, brackets included, so text around a JSON array is dropped but
    two arrays in one reply are taken as one text; a reply without an
    opening bracket, or without a closing bracket after the first
    opening one, has no such part and is decoded whole. *)
Theorem search_bracketed_spans (before inside after : string) :
  has_char "[" before = false ->
  has_char "]" after = false ->
  App.search_bracketed (before ++ "[" ++ inside ++ "]" ++ after)%string
  = Some ("[" ++ inside ++ "]")%string
  /\ App.search_bracketed before = None
  /\ App.search_bracketed (before ++ "[" ++ after)%string = None.
Proof.
  unfold has_char. intros Hb Ha.
  assert (Hl : list_ascii_of_string (before ++ "[" ++ inside ++ "]" ++ after)%string
               = list_ascii_of_string before
                 ++ "["%char :: (list_ascii_of_string inside
                                 ++ "]"%char :: list_ascii_of_string after)).
  { rewrite !list_ascii_of_string_app. reflexivity. }
  assert (Hl' : list_ascii_of_string (before ++ "[" ++ after)%string
                = list_ascii_of_string before ++ "["%char :: list_ascii_of_string after).
  { rewrite !list_ascii_of_string_app. reflexivity. }
  unfold App.search_bracketed. split; [|split].
  - rewrite Hl, (drop_until_skips _ _ _ Hb).
    rewrite rev_app_distr. cbn [rev]. rewrite <- List.app_assoc. cbn [app].
    rewrite drop_until_skips by (rewrite existsb_rev; exact Ha).
    cbn [rev]. rewrite rev_involutive. cbn [string_of_list_ascii].
    rewrite string_of_list_ascii_app, string_of_list_ascii_of_string. reflexivity.
  - rewrite (drop_until_none _ _ Hb). reflexivity.
  - rewrite Hl', (drop_until_skips _ _ _ Hb).
    rewrite drop_until_none by (rewrite existsb_rev; exact Ha). reflexivity.
Qed.

Lemma search_bracketed_spans_witness :
  App.search_bracketed "Here you go: [1, 2] and [3]. Done" = Some "[1, 2] and [3]"%string.
Proof.
  apply (search_bracketed_spans "Here you go: " "1, 2] and [3" ". Done"); reflexivity.
Defined.

(** ** Career readiness (career_guide.py) *)

Lemma min2_le (c x : Q) : (Py.min2 c x <= c)%Q /\ (Py.min2 c x <= x)%Q.
Proof.
  unfold Py.min2. destruct (Py.Qltb x c) eqn:E.
  - apply Qltb_lt in E. split; lra.
  - apply Qltb_ge in E. split; lra.
Qed.








